(** * Listy: the list/task data store ([storage/data_manager.py])

    A shallow embedding of [DataManager] and of the Python values it works
    on, followed by the properties of the store.

    - A Python [str] is a sequence of Unicode code points: [pystr] is a list
      of code points ([N]).
    - A Python [dict] keeps its keys in insertion order and [_delete_list]
      depends on that order ([next(iter(...))]): dictionaries keyed by list
      ids are association lists in insertion order.
    - Every method of [DataManager] mutates [self] and may raise: methods are
      computations in a state-and-exception monad over the record
      [DataManager].
    - [page.client_storage] is a log of the writes made to it. *)

From Stdlib Require Import String Ascii.
From Stdlib Require Import List Bool NArith Arith Lia ZifyBool.
From Stdlib Require Import Sorted Permutation.
Import ListNotations.

Set Implicit Arguments.

(* ================================================================== *)
(** * Python strings *)
(* ================================================================== *)

Definition char := N.
Definition pystr := list char.

(** An ASCII literal as a Python string. *)
Definition str (s : string) : pystr := map N_of_ascii (list_ascii_of_string s).

(** [a == b] on strings. *)
Fixpoint str_eqb (a b : pystr) : bool :=
  match a, b with
  | [], [] => true
  | x :: a', y :: b' => (x =? y)%N && str_eqb a' b'
  | _, _ => false
  end.

(** [a < b] on strings: lexicographic on code points, a proper prefix is
    smaller. *)
Fixpoint str_ltb (a b : pystr) : bool :=
  match a, b with
  | _, [] => false
  | [], _ :: _ => true
  | x :: a', y :: b' => (x <? y)%N || ((x =? y)%N && str_ltb a' b')
  end.

Definition str_leb (a b : pystr) : bool := negb (str_ltb b a).

Definition str_le (a b : pystr) : Prop := str_leb a b = true.
Definition str_lt (a b : pystr) : Prop := str_ltb a b = true.

Definition in_range (lo hi c : N) : bool := ((lo <=? c) && (c <=? hi))%N.

(** [c.isspace()]: the white space of [str.strip()] (the whole of Unicode). *)
Definition isspace (c : char) : bool :=
  in_range 9 13 c || in_range 28 32 c || (c =? 133)%N || (c =? 160)%N
  || (c =? 5760)%N || in_range 8192 8202 c || (c =? 8232)%N || (c =? 8233)%N
  || (c =? 8239)%N || (c =? 8287)%N || (c =? 12288)%N.

(* ------------------------------------------------------------------ *)
(** ** Case mappings

    [str.lower()] and [str.upper()] as CPython 3.11 has them (Unicode
    14.0): the full case mapping of every code point, which may have more
    than one code point, and for [lower] the word-final form of the Greek
    capital sigma. *)

(** The simple lower-case mappings, as runs [(lo, hi, step, to)]: the code
    points [lo], [lo + step], ..., [hi] map to [to], [to + step], ... *)
Definition LOWER_RUNS : list (N * N * N * N) :=
  [
   (65, 90, 1, 97); (192, 214, 1, 224); (216, 222, 1, 248);
   (256, 302, 2, 257); (306, 310, 2, 307); (313, 327, 2, 314);
   (330, 374, 2, 331); (376, 376, 1, 255); (377, 381, 2, 378);
   (385, 385, 1, 595); (386, 388, 2, 387); (390, 390, 1, 596);
   (391, 391, 1, 392); (393, 394, 1, 598); (395, 395, 1, 396);
   (398, 398, 1, 477); (399, 399, 1, 601); (400, 400, 1, 603);
   (401, 401, 1, 402); (403, 403, 1, 608); (404, 404, 1, 611);
   (406, 406, 1, 617); (407, 407, 1, 616); (408, 408, 1, 409);
   (412, 412, 1, 623); (413, 413, 1, 626); (415, 415, 1, 629);
   (416, 420, 2, 417); (422, 422, 1, 640); (423, 423, 1, 424);
   (425, 425, 1, 643); (428, 428, 1, 429); (430, 430, 1, 648);
   (431, 431, 1, 432); (433, 434, 1, 650); (435, 437, 2, 436);
   (439, 439, 1, 658); (440, 440, 1, 441); (444, 444, 1, 445);
   (452, 452, 1, 454); (453, 453, 1, 454); (455, 455, 1, 457);
   (456, 456, 1, 457); (458, 458, 1, 460); (459, 475, 2, 460);
   (478, 494, 2, 479); (497, 497, 1, 499); (498, 500, 2, 499);
   (502, 502, 1, 405); (503, 503, 1, 447); (504, 542, 2, 505);
   (544, 544, 1, 414); (546, 562, 2, 547); (570, 570, 1, 11365);
   (571, 571, 1, 572); (573, 573, 1, 410); (574, 574, 1, 11366);
   (577, 577, 1, 578); (579, 579, 1, 384); (580, 580, 1, 649);
   (581, 581, 1, 652); (582, 590, 2, 583); (880, 882, 2, 881);
   (886, 886, 1, 887); (895, 895, 1, 1011); (902, 902, 1, 940);
   (904, 906, 1, 941); (908, 908, 1, 972); (910, 911, 1, 973);
   (913, 929, 1, 945); (931, 939, 1, 963); (975, 975, 1, 983);
   (984, 1006, 2, 985); (1012, 1012, 1, 952); (1015, 1015, 1, 1016);
   (1017, 1017, 1, 1010); (1018, 1018, 1, 1019); (1021, 1023, 1, 891);
   (1024, 1039, 1, 1104); (1040, 1071, 1, 1072); (1120, 1152, 2, 1121);
   (1162, 1214, 2, 1163); (1216, 1216, 1, 1231); (1217, 1229, 2, 1218);
   (1232, 1326, 2, 1233); (1329, 1366, 1, 1377); (4256, 4293, 1, 11520);
   (4295, 4295, 1, 11559); (4301, 4301, 1, 11565); (5024, 5103, 1, 43888);
   (5104, 5109, 1, 5112); (7312, 7354, 1, 4304); (7357, 7359, 1, 4349);
   (7680, 7828, 2, 7681); (7838, 7838, 1, 223); (7840, 7934, 2, 7841);
   (7944, 7951, 1, 7936); (7960, 7965, 1, 7952); (7976, 7983, 1, 7968);
   (7992, 7999, 1, 7984); (8008, 8013, 1, 8000); (8025, 8031, 2, 8017);
   (8040, 8047, 1, 8032); (8072, 8079, 1, 8064); (8088, 8095, 1, 8080);
   (8104, 8111, 1, 8096); (8120, 8121, 1, 8112); (8122, 8123, 1, 8048);
   (8124, 8124, 1, 8115); (8136, 8139, 1, 8050); (8140, 8140, 1, 8131);
   (8152, 8153, 1, 8144); (8154, 8155, 1, 8054); (8168, 8169, 1, 8160);
   (8170, 8171, 1, 8058); (8172, 8172, 1, 8165); (8184, 8185, 1, 8056);
   (8186, 8187, 1, 8060); (8188, 8188, 1, 8179); (8486, 8486, 1, 969);
   (8490, 8490, 1, 107); (8491, 8491, 1, 229); (8498, 8498, 1, 8526);
   (8544, 8559, 1, 8560); (8579, 8579, 1, 8580); (9398, 9423, 1, 9424);
   (11264, 11311, 1, 11312); (11360, 11360, 1, 11361); (11362, 11362, 1, 619);
   (11363, 11363, 1, 7549); (11364, 11364, 1, 637); (11367, 11371, 2, 11368);
   (11373, 11373, 1, 593); (11374, 11374, 1, 625); (11375, 11375, 1, 592);
   (11376, 11376, 1, 594); (11378, 11378, 1, 11379); (11381, 11381, 1, 11382);
   (11390, 11391, 1, 575); (11392, 11490, 2, 11393); (11499, 11501, 2, 11500);
   (11506, 11506, 1, 11507); (42560, 42604, 2, 42561);
   (42624, 42650, 2, 42625); (42786, 42798, 2, 42787);
   (42802, 42862, 2, 42803); (42873, 42875, 2, 42874);
   (42877, 42877, 1, 7545); (42878, 42886, 2, 42879);
   (42891, 42891, 1, 42892); (42893, 42893, 1, 613); (42896, 42898, 2, 42897);
   (42902, 42920, 2, 42903); (42922, 42922, 1, 614); (42923, 42923, 1, 604);
   (42924, 42924, 1, 609); (42925, 42925, 1, 620); (42926, 42926, 1, 618);
   (42928, 42928, 1, 670); (42929, 42929, 1, 647); (42930, 42930, 1, 669);
   (42931, 42931, 1, 43859); (42932, 42946, 2, 42933);
   (42948, 42948, 1, 42900); (42949, 42949, 1, 642); (42950, 42950, 1, 7566);
   (42951, 42953, 2, 42952); (42960, 42960, 1, 42961);
   (42966, 42968, 2, 42967); (42997, 42997, 1, 42998);
   (65313, 65338, 1, 65345); (66560, 66599, 1, 66600);
   (66736, 66771, 1, 66776); (66928, 66938, 1, 66967);
   (66940, 66954, 1, 66979); (66956, 66962, 1, 66995);
   (66964, 66965, 1, 67003); (68736, 68786, 1, 68800);
   (71840, 71871, 1, 71872); (93760, 93791, 1, 93792);
   (125184, 125217, 1, 125218)
  ]%N.

(** The code points whose lower-case form has more than one code point. *)
Definition LOWER_SPECIAL : list (N * list N) :=
  [
   (304, [105; 775])
  ]%N.

(** The simple upper-case mappings, as runs. *)
Definition UPPER_RUNS : list (N * N * N * N) :=
  [
   (97, 122, 1, 65); (181, 181, 1, 924); (224, 246, 1, 192);
   (248, 254, 1, 216); (255, 255, 1, 376); (257, 303, 2, 256);
   (305, 305, 1, 73); (307, 311, 2, 306); (314, 328, 2, 313);
   (331, 375, 2, 330); (378, 382, 2, 377); (383, 383, 1, 83);
   (384, 384, 1, 579); (387, 389, 2, 386); (392, 392, 1, 391);
   (396, 396, 1, 395); (402, 402, 1, 401); (405, 405, 1, 502);
   (409, 409, 1, 408); (410, 410, 1, 573); (414, 414, 1, 544);
   (417, 421, 2, 416); (424, 424, 1, 423); (429, 429, 1, 428);
   (432, 432, 1, 431); (436, 438, 2, 435); (441, 441, 1, 440);
   (445, 445, 1, 444); (447, 447, 1, 503); (453, 453, 1, 452);
   (454, 454, 1, 452); (456, 456, 1, 455); (457, 457, 1, 455);
   (459, 459, 1, 458); (460, 460, 1, 458); (462, 476, 2, 461);
   (477, 477, 1, 398); (479, 495, 2, 478); (498, 498, 1, 497);
   (499, 499, 1, 497); (501, 501, 1, 500); (505, 543, 2, 504);
   (547, 563, 2, 546); (572, 572, 1, 571); (575, 576, 1, 11390);
   (578, 578, 1, 577); (583, 591, 2, 582); (592, 592, 1, 11375);
   (593, 593, 1, 11373); (594, 594, 1, 11376); (595, 595, 1, 385);
   (596, 596, 1, 390); (598, 599, 1, 393); (601, 601, 1, 399);
   (603, 603, 1, 400); (604, 604, 1, 42923); (608, 608, 1, 403);
   (609, 609, 1, 42924); (611, 611, 1, 404); (613, 613, 1, 42893);
   (614, 614, 1, 42922); (616, 616, 1, 407); (617, 617, 1, 406);
   (618, 618, 1, 42926); (619, 619, 1, 11362); (620, 620, 1, 42925);
   (623, 623, 1, 412); (625, 625, 1, 11374); (626, 626, 1, 413);
   (629, 629, 1, 415); (637, 637, 1, 11364); (640, 640, 1, 422);
   (642, 642, 1, 42949); (643, 643, 1, 425); (647, 647, 1, 42929);
   (648, 648, 1, 430); (649, 649, 1, 580); (650, 651, 1, 433);
   (652, 652, 1, 581); (658, 658, 1, 439); (669, 669, 1, 42930);
   (670, 670, 1, 42928); (837, 837, 1, 921); (881, 883, 2, 880);
   (887, 887, 1, 886); (891, 893, 1, 1021); (940, 940, 1, 902);
   (941, 943, 1, 904); (945, 961, 1, 913); (962, 962, 1, 931);
   (963, 971, 1, 931); (972, 972, 1, 908); (973, 974, 1, 910);
   (976, 976, 1, 914); (977, 977, 1, 920); (981, 981, 1, 934);
   (982, 982, 1, 928); (983, 983, 1, 975); (985, 1007, 2, 984);
   (1008, 1008, 1, 922); (1009, 1009, 1, 929); (1010, 1010, 1, 1017);
   (1011, 1011, 1, 895); (1013, 1013, 1, 917); (1016, 1016, 1, 1015);
   (1019, 1019, 1, 1018); (1072, 1103, 1, 1040); (1104, 1119, 1, 1024);
   (1121, 1153, 2, 1120); (1163, 1215, 2, 1162); (1218, 1230, 2, 1217);
   (1231, 1231, 1, 1216); (1233, 1327, 2, 1232); (1377, 1414, 1, 1329);
   (4304, 4346, 1, 7312); (4349, 4351, 1, 7357); (5112, 5117, 1, 5104);
   (7296, 7296, 1, 1042); (7297, 7297, 1, 1044); (7298, 7298, 1, 1054);
   (7299, 7300, 1, 1057); (7301, 7301, 1, 1058); (7302, 7302, 1, 1066);
   (7303, 7303, 1, 1122); (7304, 7304, 1, 42570); (7545, 7545, 1, 42877);
   (7549, 7549, 1, 11363); (7566, 7566, 1, 42950); (7681, 7829, 2, 7680);
   (7835, 7835, 1, 7776); (7841, 7935, 2, 7840); (7936, 7943, 1, 7944);
   (7952, 7957, 1, 7960); (7968, 7975, 1, 7976); (7984, 7991, 1, 7992);
   (8000, 8005, 1, 8008); (8017, 8023, 2, 8025); (8032, 8039, 1, 8040);
   (8048, 8049, 1, 8122); (8050, 8053, 1, 8136); (8054, 8055, 1, 8154);
   (8056, 8057, 1, 8184); (8058, 8059, 1, 8170); (8060, 8061, 1, 8186);
   (8112, 8113, 1, 8120); (8126, 8126, 1, 921); (8144, 8145, 1, 8152);
   (8160, 8161, 1, 8168); (8165, 8165, 1, 8172); (8526, 8526, 1, 8498);
   (8560, 8575, 1, 8544); (8580, 8580, 1, 8579); (9424, 9449, 1, 9398);
   (11312, 11359, 1, 11264); (11361, 11361, 1, 11360); (11365, 11365, 1, 570);
   (11366, 11366, 1, 574); (11368, 11372, 2, 11367); (11379, 11379, 1, 11378);
   (11382, 11382, 1, 11381); (11393, 11491, 2, 11392);
   (11500, 11502, 2, 11499); (11507, 11507, 1, 11506);
   (11520, 11557, 1, 4256); (11559, 11559, 1, 4295); (11565, 11565, 1, 4301);
   (42561, 42605, 2, 42560); (42625, 42651, 2, 42624);
   (42787, 42799, 2, 42786); (42803, 42863, 2, 42802);
   (42874, 42876, 2, 42873); (42879, 42887, 2, 42878);
   (42892, 42892, 1, 42891); (42897, 42899, 2, 42896);
   (42900, 42900, 1, 42948); (42903, 42921, 2, 42902);
   (42933, 42947, 2, 42932); (42952, 42954, 2, 42951);
   (42961, 42961, 1, 42960); (42967, 42969, 2, 42966);
   (42998, 42998, 1, 42997); (43859, 43859, 1, 42931);
   (43888, 43967, 1, 5024); (65345, 65370, 1, 65313);
   (66600, 66639, 1, 66560); (66776, 66811, 1, 66736);
   (66967, 66977, 1, 66928); (66979, 66993, 1, 66940);
   (66995, 67001, 1, 66956); (67003, 67004, 1, 66964);
   (68800, 68850, 1, 68736); (71872, 71903, 1, 71840);
   (93792, 93823, 1, 93760); (125218, 125251, 1, 125184)
  ]%N.

(** The code points whose upper-case form has more than one code point. *)
Definition UPPER_SPECIAL : list (N * list N) :=
  [
   (223, [83; 83]); (329, [700; 78]); (496, [74; 780]);
   (912, [921; 776; 769]); (944, [933; 776; 769]); (1415, [1333; 1362]);
   (7830, [72; 817]); (7831, [84; 776]); (7832, [87; 778]); (7833, [89; 778]);
   (7834, [65; 702]); (8016, [933; 787]); (8018, [933; 787; 768]);
   (8020, [933; 787; 769]); (8022, [933; 787; 834]); (8064, [7944; 921]);
   (8065, [7945; 921]); (8066, [7946; 921]); (8067, [7947; 921]);
   (8068, [7948; 921]); (8069, [7949; 921]); (8070, [7950; 921]);
   (8071, [7951; 921]); (8072, [7944; 921]); (8073, [7945; 921]);
   (8074, [7946; 921]); (8075, [7947; 921]); (8076, [7948; 921]);
   (8077, [7949; 921]); (8078, [7950; 921]); (8079, [7951; 921]);
   (8080, [7976; 921]); (8081, [7977; 921]); (8082, [7978; 921]);
   (8083, [7979; 921]); (8084, [7980; 921]); (8085, [7981; 921]);
   (8086, [7982; 921]); (8087, [7983; 921]); (8088, [7976; 921]);
   (8089, [7977; 921]); (8090, [7978; 921]); (8091, [7979; 921]);
   (8092, [7980; 921]); (8093, [7981; 921]); (8094, [7982; 921]);
   (8095, [7983; 921]); (8096, [8040; 921]); (8097, [8041; 921]);
   (8098, [8042; 921]); (8099, [8043; 921]); (8100, [8044; 921]);
   (8101, [8045; 921]); (8102, [8046; 921]); (8103, [8047; 921]);
   (8104, [8040; 921]); (8105, [8041; 921]); (8106, [8042; 921]);
   (8107, [8043; 921]); (8108, [8044; 921]); (8109, [8045; 921]);
   (8110, [8046; 921]); (8111, [8047; 921]); (8114, [8122; 921]);
   (8115, [913; 921]); (8116, [902; 921]); (8118, [913; 834]);
   (8119, [913; 834; 921]); (8124, [913; 921]); (8130, [8138; 921]);
   (8131, [919; 921]); (8132, [905; 921]); (8134, [919; 834]);
   (8135, [919; 834; 921]); (8140, [919; 921]); (8146, [921; 776; 768]);
   (8147, [921; 776; 769]); (8150, [921; 834]); (8151, [921; 776; 834]);
   (8162, [933; 776; 768]); (8163, [933; 776; 769]); (8164, [929; 787]);
   (8166, [933; 834]); (8167, [933; 776; 834]); (8178, [8186; 921]);
   (8179, [937; 921]); (8180, [911; 921]); (8182, [937; 834]);
   (8183, [937; 834; 921]); (8188, [937; 921]); (64256, [70; 70]);
   (64257, [70; 73]); (64258, [70; 76]); (64259, [70; 70; 73]);
   (64260, [70; 70; 76]); (64261, [83; 84]); (64262, [83; 84]);
   (64275, [1348; 1350]); (64276, [1348; 1333]); (64277, [1348; 1339]);
   (64278, [1358; 1350]); (64279, [1348; 1341])
  ]%N.

(** The code points with the property Case_Ignorable, as ranges. *)
Definition CASE_IGNORABLE : list (N * N) :=
  [
   (39, 39); (46, 46); (58, 58); (94, 94); (96, 96); (168, 168); (173, 173);
   (175, 175); (180, 180); (183, 184); (688, 879); (884, 885); (890, 890);
   (900, 901); (903, 903); (1155, 1161); (1369, 1369); (1375, 1375);
   (1425, 1469); (1471, 1471); (1473, 1474); (1476, 1477); (1479, 1479);
   (1524, 1524); (1536, 1541); (1552, 1562); (1564, 1564); (1600, 1600);
   (1611, 1631); (1648, 1648); (1750, 1757); (1759, 1768); (1770, 1773);
   (1807, 1807); (1809, 1809); (1840, 1866); (1958, 1968); (2027, 2037);
   (2042, 2042); (2045, 2045); (2070, 2093); (2137, 2139); (2184, 2184);
   (2192, 2193); (2200, 2207); (2249, 2306); (2362, 2362); (2364, 2364);
   (2369, 2376); (2381, 2381); (2385, 2391); (2402, 2403); (2417, 2417);
   (2433, 2433); (2492, 2492); (2497, 2500); (2509, 2509); (2530, 2531);
   (2558, 2558); (2561, 2562); (2620, 2620); (2625, 2626); (2631, 2632);
   (2635, 2637); (2641, 2641); (2672, 2673); (2677, 2677); (2689, 2690);
   (2748, 2748); (2753, 2757); (2759, 2760); (2765, 2765); (2786, 2787);
   (2810, 2815); (2817, 2817); (2876, 2876); (2879, 2879); (2881, 2884);
   (2893, 2893); (2901, 2902); (2914, 2915); (2946, 2946); (3008, 3008);
   (3021, 3021); (3072, 3072); (3076, 3076); (3132, 3132); (3134, 3136);
   (3142, 3144); (3146, 3149); (3157, 3158); (3170, 3171); (3201, 3201);
   (3260, 3260); (3263, 3263); (3270, 3270); (3276, 3277); (3298, 3299);
   (3328, 3329); (3387, 3388); (3393, 3396); (3405, 3405); (3426, 3427);
   (3457, 3457); (3530, 3530); (3538, 3540); (3542, 3542); (3633, 3633);
   (3636, 3642); (3654, 3662); (3761, 3761); (3764, 3772); (3782, 3782);
   (3784, 3789); (3864, 3865); (3893, 3893); (3895, 3895); (3897, 3897);
   (3953, 3966); (3968, 3972); (3974, 3975); (3981, 3991); (3993, 4028);
   (4038, 4038); (4141, 4144); (4146, 4151); (4153, 4154); (4157, 4158);
   (4184, 4185); (4190, 4192); (4209, 4212); (4226, 4226); (4229, 4230);
   (4237, 4237); (4253, 4253); (4348, 4348); (4957, 4959); (5906, 5908);
   (5938, 5939); (5970, 5971); (6002, 6003); (6068, 6069); (6071, 6077);
   (6086, 6086); (6089, 6099); (6103, 6103); (6109, 6109); (6155, 6159);
   (6211, 6211); (6277, 6278); (6313, 6313); (6432, 6434); (6439, 6440);
   (6450, 6450); (6457, 6459); (6679, 6680); (6683, 6683); (6742, 6742);
   (6744, 6750); (6752, 6752); (6754, 6754); (6757, 6764); (6771, 6780);
   (6783, 6783); (6823, 6823); (6832, 6862); (6912, 6915); (6964, 6964);
   (6966, 6970); (6972, 6972); (6978, 6978); (7019, 7027); (7040, 7041);
   (7074, 7077); (7080, 7081); (7083, 7085); (7142, 7142); (7144, 7145);
   (7149, 7149); (7151, 7153); (7212, 7219); (7222, 7223); (7288, 7293);
   (7376, 7378); (7380, 7392); (7394, 7400); (7405, 7405); (7412, 7412);
   (7416, 7417); (7468, 7530); (7544, 7544); (7579, 7679); (8125, 8125);
   (8127, 8129); (8141, 8143); (8157, 8159); (8173, 8175); (8189, 8190);
   (8203, 8207); (8216, 8217); (8228, 8228); (8231, 8231); (8234, 8238);
   (8288, 8292); (8294, 8303); (8305, 8305); (8319, 8319); (8336, 8348);
   (8400, 8432); (11388, 11389); (11503, 11505); (11631, 11631);
   (11647, 11647); (11744, 11775); (11823, 11823); (12293, 12293);
   (12330, 12333); (12337, 12341); (12347, 12347); (12441, 12446);
   (12540, 12542); (40981, 40981); (42232, 42237); (42508, 42508);
   (42607, 42610); (42612, 42621); (42623, 42623); (42652, 42655);
   (42736, 42737); (42752, 42785); (42864, 42864); (42888, 42890);
   (42994, 42996); (43000, 43001); (43010, 43010); (43014, 43014);
   (43019, 43019); (43045, 43046); (43052, 43052); (43204, 43205);
   (43232, 43249); (43263, 43263); (43302, 43309); (43335, 43345);
   (43392, 43394); (43443, 43443); (43446, 43449); (43452, 43453);
   (43471, 43471); (43493, 43494); (43561, 43566); (43569, 43570);
   (43573, 43574); (43587, 43587); (43596, 43596); (43632, 43632);
   (43644, 43644); (43696, 43696); (43698, 43700); (43703, 43704);
   (43710, 43711); (43713, 43713); (43741, 43741); (43756, 43757);
   (43763, 43764); (43766, 43766); (43867, 43871); (43881, 43883);
   (44005, 44005); (44008, 44008); (44013, 44013); (64286, 64286);
   (64434, 64450); (65024, 65039); (65043, 65043); (65056, 65071);
   (65106, 65106); (65109, 65109); (65279, 65279); (65287, 65287);
   (65294, 65294); (65306, 65306); (65342, 65342); (65344, 65344);
   (65392, 65392); (65438, 65439); (65507, 65507); (65529, 65531);
   (66045, 66045); (66272, 66272); (66422, 66426); (67456, 67461);
   (67463, 67504); (67506, 67514); (68097, 68099); (68101, 68102);
   (68108, 68111); (68152, 68154); (68159, 68159); (68325, 68326);
   (68900, 68903); (69291, 69292); (69446, 69456); (69506, 69509);
   (69633, 69633); (69688, 69702); (69744, 69744); (69747, 69748);
   (69759, 69761); (69811, 69814); (69817, 69818); (69821, 69821);
   (69826, 69826); (69837, 69837); (69888, 69890); (69927, 69931);
   (69933, 69940); (70003, 70003); (70016, 70017); (70070, 70078);
   (70089, 70092); (70095, 70095); (70191, 70193); (70196, 70196);
   (70198, 70199); (70206, 70206); (70367, 70367); (70371, 70378);
   (70400, 70401); (70459, 70460); (70464, 70464); (70502, 70508);
   (70512, 70516); (70712, 70719); (70722, 70724); (70726, 70726);
   (70750, 70750); (70835, 70840); (70842, 70842); (70847, 70848);
   (70850, 70851); (71090, 71093); (71100, 71101); (71103, 71104);
   (71132, 71133); (71219, 71226); (71229, 71229); (71231, 71232);
   (71339, 71339); (71341, 71341); (71344, 71349); (71351, 71351);
   (71453, 71455); (71458, 71461); (71463, 71467); (71727, 71735);
   (71737, 71738); (71995, 71996); (71998, 71998); (72003, 72003);
   (72148, 72151); (72154, 72155); (72160, 72160); (72193, 72202);
   (72243, 72248); (72251, 72254); (72263, 72263); (72273, 72278);
   (72281, 72283); (72330, 72342); (72344, 72345); (72752, 72758);
   (72760, 72765); (72767, 72767); (72850, 72871); (72874, 72880);
   (72882, 72883); (72885, 72886); (73009, 73014); (73018, 73018);
   (73020, 73021); (73023, 73029); (73031, 73031); (73104, 73105);
   (73109, 73109); (73111, 73111); (73459, 73460); (78896, 78904);
   (92912, 92916); (92976, 92982); (92992, 92995); (94031, 94031);
   (94095, 94111); (94176, 94177); (94179, 94180); (110576, 110579);
   (110581, 110587); (110589, 110590); (113821, 113822); (113824, 113827);
   (118528, 118573); (118576, 118598); (119143, 119145); (119155, 119170);
   (119173, 119179); (119210, 119213); (119362, 119364); (121344, 121398);
   (121403, 121452); (121461, 121461); (121476, 121476); (121499, 121503);
   (121505, 121519); (122880, 122886); (122888, 122904); (122907, 122913);
   (122915, 122916); (122918, 122922); (123184, 123197); (123566, 123566);
   (123628, 123631); (125136, 125142); (125252, 125259); (127995, 127999);
   (917505, 917505); (917536, 917631); (917760, 917999)
  ]%N.

(** The code points with the property Cased, as ranges. *)
Definition CASED : list (N * N) :=
  [
   (65, 90); (97, 122); (170, 170); (181, 181); (186, 186); (192, 214);
   (216, 246); (248, 442); (444, 447); (452, 659); (661, 696); (704, 705);
   (736, 740); (837, 837); (880, 883); (886, 887); (890, 893); (895, 895);
   (902, 902); (904, 906); (908, 908); (910, 929); (931, 1013); (1015, 1153);
   (1162, 1327); (1329, 1366); (1376, 1416); (4256, 4293); (4295, 4295);
   (4301, 4301); (4304, 4346); (4349, 4351); (5024, 5109); (5112, 5117);
   (7296, 7304); (7312, 7354); (7357, 7359); (7424, 7615); (7680, 7957);
   (7960, 7965); (7968, 8005); (8008, 8013); (8016, 8023); (8025, 8025);
   (8027, 8027); (8029, 8029); (8031, 8061); (8064, 8116); (8118, 8124);
   (8126, 8126); (8130, 8132); (8134, 8140); (8144, 8147); (8150, 8155);
   (8160, 8172); (8178, 8180); (8182, 8188); (8305, 8305); (8319, 8319);
   (8336, 8348); (8450, 8450); (8455, 8455); (8458, 8467); (8469, 8469);
   (8473, 8477); (8484, 8484); (8486, 8486); (8488, 8488); (8490, 8493);
   (8495, 8500); (8505, 8505); (8508, 8511); (8517, 8521); (8526, 8526);
   (8544, 8575); (8579, 8580); (9398, 9449); (11264, 11492); (11499, 11502);
   (11506, 11507); (11520, 11557); (11559, 11559); (11565, 11565);
   (42560, 42605); (42624, 42653); (42786, 42887); (42891, 42894);
   (42896, 42954); (42960, 42961); (42963, 42963); (42965, 42969);
   (42997, 42998); (43000, 43002); (43824, 43866); (43868, 43880);
   (43888, 43967); (64256, 64262); (64275, 64279); (65313, 65338);
   (65345, 65370); (66560, 66639); (66736, 66771); (66776, 66811);
   (66928, 66938); (66940, 66954); (66956, 66962); (66964, 66965);
   (66967, 66977); (66979, 66993); (66995, 67001); (67003, 67004);
   (67456, 67456); (67459, 67461); (67463, 67504); (67506, 67514);
   (68736, 68786); (68800, 68850); (71840, 71903); (93760, 93823);
   (119808, 119892); (119894, 119964); (119966, 119967); (119970, 119970);
   (119973, 119974); (119977, 119980); (119982, 119993); (119995, 119995);
   (119997, 120003); (120005, 120069); (120071, 120074); (120077, 120084);
   (120086, 120092); (120094, 120121); (120123, 120126); (120128, 120132);
   (120134, 120134); (120138, 120144); (120146, 120485); (120488, 120512);
   (120514, 120538); (120540, 120570); (120572, 120596); (120598, 120628);
   (120630, 120654); (120656, 120686); (120688, 120712); (120714, 120744);
   (120746, 120770); (120772, 120779); (122624, 122633); (122635, 122654);
   (125184, 125251); (127280, 127305); (127312, 127337); (127344, 127369)
  ]%N.

Fixpoint lookup_run (t : list (N * N * N * N)) (c : char) : option char :=
  match t with
  | [] => None
  | (lo, hi, step, to) :: t' =>
      if in_range lo hi c && ((c - lo) mod step =? 0)%N
      then Some (to + (c - lo))%N
      else lookup_run t' c
  end.

Fixpoint lookup_special (t : list (N * list N)) (c : char)
  : option (list char) :=
  match t with
  | [] => None
  | (k, l) :: t' => if (c =? k)%N then Some l else lookup_special t' c
  end.

Definition in_ranges (t : list (N * N)) (c : char) : bool :=
  existsb (fun r => in_range (fst r) (snd r) c) t.

Definition full_case (special : list (N * list N))
  (runs : list (N * N * N * N)) (c : char) : list char :=
  match lookup_special special c with
  | Some l => l
  | None =>
      match lookup_run runs c with
      | Some d => [d]
      | None => [c]
      end
  end.

(** The lower-case and the upper-case form of one code point
    ([_PyUnicode_ToLowerFull], [_PyUnicode_ToUpperFull]). *)
Definition char_lower : char -> list char :=
  full_case LOWER_SPECIAL LOWER_RUNS.
Definition char_upper : char -> list char :=
  full_case UPPER_SPECIAL UPPER_RUNS.

Definition is_case_ignorable : char -> bool := in_ranges CASE_IGNORABLE.
Definition is_cased : char -> bool := in_ranges CASED.

Fixpoint skip_ignorable (s : pystr) : pystr :=
  match s with
  | c :: s' => if is_case_ignorable c then skip_ignorable s' else s
  | [] => []
  end.

(** Whether a capital sigma is word-final ([handle_capital_sigma]):
    [before] is what precedes it, nearest code point first, [after] what
    follows it.  A cased letter precedes it and none follows, code points
    that are case-ignorable left aside. *)
Definition final_sigma (before after : pystr) : bool :=
  match skip_ignorable before with
  | c :: _ =>
      is_cased c
      && match skip_ignorable after with
         | [] => true
         | d :: _ => negb (is_cased d)
         end
  | [] => false
  end.

Fixpoint lower_from (before s : pystr) : pystr :=
  match s with
  | [] => []
  | c :: s' =>
      (if (c =? 931)%N
       then [if final_sigma before s' then 962%N else 963%N]
       else char_lower c)
      ++ lower_from (c :: before) s'
  end.

(** [s.lower()] *)
Definition str_lower (s : pystr) : pystr := lower_from [] s.

(** [s.upper()] *)
Definition str_upper (s : pystr) : pystr := flat_map char_upper s.

Fixpoint lstrip (s : pystr) : pystr :=
  match s with
  | c :: s' => if isspace c then lstrip s' else s
  | [] => []
  end.

(** [s.strip()] *)
Definition str_strip (s : pystr) : pystr := rev (lstrip (rev (lstrip s))).

(** No code point from [a] to [b] is white space. *)
Definition no_space_between (a b : N) : bool :=
  forallb (fun r => ((snd r <? a) || (b <? fst r))%N)
    [(9, 13); (28, 32); (133, 133); (160, 160); (5760, 5760); (8192, 8202);
     (8232, 8233); (8239, 8239); (8287, 8287); (12288, 12288)]%N.

(** The targets of a case table are never white space and never empty. *)
Definition runs_no_space (t : list (N * N * N * N)) : bool :=
  forallb (fun r =>
             match r with
             | (lo, hi, _, to) => no_space_between to (to + (hi - lo))%N
             end) t.

Definition special_no_space (t : list (N * list N)) : bool :=
  forallb (fun e => match snd e with
                    | [] => false
                    | _ :: _ => forallb (fun x => negb (isspace x)) (snd e)
                    end) t.

(** [a.lower() == b.lower()] *)
Definition same_lower (a b : pystr) : bool :=
  str_eqb (str_lower a) (str_lower b).

(** [sorted(l)] and [l.sort()] on a list of strings.  Two strings that
    compare equal are the same string, so the result does not depend on the
    sorting algorithm. *)
Fixpoint insert_sorted (x : pystr) (l : list pystr) : list pystr :=
  match l with
  | [] => [x]
  | y :: l' => if str_leb x y then x :: l else y :: insert_sorted x l'
  end.

Definition sorted (l : list pystr) : list pystr :=
  fold_right insert_sorted [] l.

(** [set(l)]: the distinct elements of [l] (a set has no order of its own;
    the only use sorts the result). *)
Fixpoint set_of (l : list pystr) : list pystr :=
  match l with
  | [] => []
  | x :: l' => if existsb (str_eqb x) l' then set_of l' else x :: set_of l'
  end.

(* ================================================================== *)
(** * Python dictionaries with string keys *)
(* ================================================================== *)

(** Insertion-ordered; a well-formed dictionary has no key twice
    ([dict_ok]). *)
Definition dict (V : Type) := list (pystr * V).

Definition keys {V} (d : dict V) : list pystr := map fst d.

Definition dict_ok {V} (d : dict V) : Prop := NoDup (keys d).

(** [d.get(k)] *)
Fixpoint dict_get {V} (k : pystr) (d : dict V) : option V :=
  match d with
  | [] => None
  | (k', v) :: d' => if str_eqb k k' then Some v else dict_get k d'
  end.

(** [k in d] *)
Definition dict_mem {V} (k : pystr) (d : dict V) : bool :=
  existsb (str_eqb k) (keys d).

(** [d[k] = v]: in place when [k] is a key, at the end otherwise. *)
Fixpoint dict_set {V} (k : pystr) (v : V) (d : dict V) : dict V :=
  match d with
  | [] => [(k, v)]
  | (k', v') :: d' =>
      if str_eqb k k' then (k, v) :: d' else (k', v') :: dict_set k v d'
  end.

(** [del d[k]] for a key of [d] *)
Definition dict_del {V} (k : pystr) (d : dict V) : dict V :=
  filter (fun kv => negb (str_eqb k (fst kv))) d.

(** [next(iter(d))] *)
Definition first_key {V} (d : dict V) : option pystr :=
  match d with
  | [] => None
  | (k, _) :: _ => Some k
  end.

(* ================================================================== *)
(** * Stored values *)
(* ================================================================== *)

(** A task: [{"name": .., "priority": .., "is_completed": ..}] *)
Record Item := mkItem {
  name : pystr;
  priority : pystr;
  is_completed : bool
}.

(** A list: [{"name": .., "items": [..]}] *)
Record TaskList := mkTaskList {
  list_name : pystr;
  items : list Item
}.

(** [todo_data] and [shopping_data]: the keys the code reads, each of which
    may be absent.  [tasks] is the flat array of the legacy format. *)
Record Data := mkData {
  settings : option (dict pystr);
  current_list_id : option pystr;
  lists : option (dict TaskList);
  tasks : option (list Item)
}.

Definition with_name (v : pystr) (l : TaskList) : TaskList :=
  {| list_name := v; items := items l |}.

Definition with_items (v : list Item) (l : TaskList) : TaskList :=
  {| list_name := list_name l; items := v |}.

Definition with_is_completed (v : bool) (t : Item) : Item :=
  {| name := name t; priority := priority t; is_completed := v |}.

Definition with_settings (v : option (dict pystr)) (d : Data) : Data :=
  {| settings := v; current_list_id := current_list_id d;
     lists := lists d; tasks := tasks d |}.

Definition with_current_list_id (v : option pystr) (d : Data) : Data :=
  {| settings := settings d; current_list_id := v;
     lists := lists d; tasks := tasks d |}.

Definition with_lists (v : option (dict TaskList)) (d : Data) : Data :=
  {| settings := settings d; current_list_id := current_list_id d;
     lists := v; tasks := tasks d |}.

Definition with_tasks (v : option (list Item)) (d : Data) : Data :=
  {| settings := settings d; current_list_id := current_list_id d;
     lists := lists d; tasks := v |}.

Definition DEFAULT_TODO_DATA : Data :=
  {| settings := Some [(str "language", str "en"); (str "mode", str "todo");
                       (str "theme_mode", str "dark")];
     current_list_id := Some (str "default");
     lists := Some [(str "default",
                     {| list_name := str "Allgemein"; items := [] |})];
     tasks := None |}.

Definition DEFAULT_SHOPPING_DATA : Data :=
  {| settings := None;
     current_list_id := Some (str "default");
     lists := Some [(str "default",
                     {| list_name := str "Einkaufsliste"; items := [] |})];
     tasks := None |}.

(* ================================================================== *)
(** * The state of a [DataManager] *)
(* ================================================================== *)

(** What [page.client_storage] holds under a key. *)
Inductive stored :=
| StoredData (d : Data)
| StoredList (l : list pystr).

(** [client_storage] is the log of the calls of [client_storage.set], the
    newest first: [client_storage.get(k)] is the first entry under [k], and
    a method that makes no write leaves the log as it is.  A write stores a
    copy of the value (the client serialises it).  Writes are taken to
    succeed. *)
Record DataManager := mkDataManager {
  todo_data : Data;
  shopping_data : Data;
  user_suggestions_data : list pystr;
  client_storage : list (pystr * stored)
}.

Definition TODO_KEY : pystr := str "listy.todo_data".
Definition SHOPPING_KEY : pystr := str "listy.shopping_data".
Definition SUGGESTIONS_KEY : pystr := str "listy.user_suggestions".

Definition with_todo_data (v : Data) (s : DataManager) : DataManager :=
  {| todo_data := v; shopping_data := shopping_data s;
     user_suggestions_data := user_suggestions_data s;
     client_storage := client_storage s |}.

Definition with_shopping_data (v : Data) (s : DataManager) : DataManager :=
  {| todo_data := todo_data s; shopping_data := v;
     user_suggestions_data := user_suggestions_data s;
     client_storage := client_storage s |}.

Definition with_user_suggestions_data (v : list pystr) (s : DataManager)
  : DataManager :=
  {| todo_data := todo_data s; shopping_data := shopping_data s;
     user_suggestions_data := v;
     client_storage := client_storage s |}.

Definition with_client_storage (v : list (pystr * stored)) (s : DataManager)
  : DataManager :=
  {| todo_data := todo_data s; shopping_data := shopping_data s;
     user_suggestions_data := user_suggestions_data s;
     client_storage := v |}.

(* ================================================================== *)
(** * Methods as computations *)
(* ================================================================== *)

Inductive exn :=
| KeyError (k : pystr)
| StopIteration.

Inductive outcome (A : Type) :=
| Returns (a : A)
| Raises (e : exn).

Arguments Returns {A} a.
Arguments Raises {A} e.

(** A method body: it runs on the state of [self], leaves a state behind
    and returns or raises.  A mutation made before a [raise] stays. *)
Definition M (A : Type) := DataManager -> DataManager * outcome A.

Definition ret {A} (a : A) : M A := fun s => (s, Returns a).

Definition raise {A} (e : exn) : M A := fun s => (s, Raises e).

Definition bind {A B} (m : M A) (f : A -> M B) : M B :=
  fun s =>
    match m s with
    | (s', Returns a) => f a s'
    | (s', Raises e) => (s', Raises e)
    end.

Declare Scope py_scope.
Delimit Scope py_scope with py.
Notation "x <- m ;; k" := (bind m (fun x => k))
  (at level 100, m at next level, right associativity) : py_scope.
Notation "m ;; k" := (bind m (fun _ => k))
  (at level 100, right associativity) : py_scope.
Open Scope py_scope.

(** [self.f] *)
Definition gets {A} (f : DataManager -> A) : M A := fun s => (s, Returns (f s)).

(** [self] after a field assignment or an in-place mutation. *)
Definition modify (f : DataManager -> DataManager) : M unit :=
  fun s => (f s, Returns tt).

(** [d[k]] on an optional field or a dictionary: [KeyError] when absent. *)
Definition subscript {A} (k : pystr) (o : option A) : M A :=
  match o with
  | Some a => ret a
  | None => raise (KeyError k)
  end.

Definition is_shopping (mode : pystr) : bool := str_eqb mode (str "shopping").

(** [self.shopping_data if mode == "shopping" else self.todo_data] *)
Definition data_of (mode : pystr) (s : DataManager) : Data :=
  if is_shopping mode then shopping_data s else todo_data s.

(** A mutation of the dictionary that [data] aliases. *)
Definition set_data (mode : pystr) (d : Data) : M unit :=
  if is_shopping mode then modify (with_shopping_data d)
  else modify (with_todo_data d).

Definition storage_set (k : pystr) (v : stored) : M unit :=
  modify (fun s => with_client_storage ((k, v) :: client_storage s) s).

Definition save_todo : M unit :=
  d <- gets todo_data ;; storage_set TODO_KEY (StoredData d).

Definition save_shopping : M unit :=
  d <- gets shopping_data ;; storage_set SHOPPING_KEY (StoredData d).

Definition save_user_suggestions : M unit :=
  l <- gets user_suggestions_data ;; storage_set SUGGESTIONS_KEY (StoredList l).

(** [if mode == "shopping": self.save_shopping() else: self.save_todo()] *)
Definition save (mode : pystr) : M unit :=
  if is_shopping mode then save_shopping else save_todo.

(** [data.get("lists", {})] *)
Definition lists_or_empty (data : Data) : dict TaskList :=
  match lists data with
  | Some ls => ls
  | None => []
  end.

(** [data.get("current_list_id", "default")] *)
Definition current_or_default (data : Data) : pystr :=
  match current_list_id data with
  | Some c => c
  | None => str "default"
  end.

(** [d["lists"][current_id]["items"]] *)
Definition get_items (d : Data) (current_id : pystr) : M (list Item) :=
  ls <- subscript (str "lists") (lists d) ;;
  l <- subscript current_id (dict_get current_id ls) ;;
  ret (items l).

(** [d] after [d["lists"][current_id]["items"] = v] (or after an in-place
    mutation of that list which leaves it equal to [v]). *)
Definition set_items (d : Data) (current_id : pystr) (v : list Item) : M Data :=
  ls <- subscript (str "lists") (lists d) ;;
  l <- subscript current_id (dict_get current_id ls) ;;
  ret (with_lists (Some (dict_set current_id (with_items v l) ls)) d).

(** The loop of [update_task_status]: the first task named [task_name]
    gets the flag, then [break]. *)
Fixpoint set_first_completed (task_name : pystr) (v : bool) (l : list Item)
  : list Item :=
  match l with
  | [] => []
  | task :: rest =>
      if str_eqb (name task) task_name then with_is_completed v task :: rest
      else task :: set_first_completed task_name v rest
  end.

(** The display names the normalization of the shopping list replaces, as
    the source file spells them (the last two by their code points). *)
Definition LEGACY_SHOPPING_NAMES : list pystr :=
  [ str "Einkaufsliste"; str "Shopping List";
    [203; 165; 8800; 193; 226; 169; 202; 8719; 214; 194; 231; 239]%N;
    [203; 8804; 8721; 8222; 197; 209; 193; 226; 169; 8222; 201; 8482; 8222;
     199; 960; 8222; 201; 224]%N ].

(** The glyphs of [get_list_as_text], by their code points in the source
    file. *)
Definition GLYPH_TITLE : pystr := [63743; 252; 236; 249]%N.
Definition GLYPH_DONE : pystr := [8218; 250; 214]%N.
Definition GLYPH_OPEN : pystr := [8218; 168; 250]%N.

(** The files of the legacy format: absent ([None]), present but not JSON
    ([Some None]), or present with a value. *)
Record Files := mkFiles {
  todo_file : option (option Data);
  shopping_file : option (option Data)
}.

(** [load_json_file(filepath, default)] on a file that exists *)
Definition load_json_file (content : option Data) (default : Data) : Data :=
  match content with
  | Some d => d
  | None => default
  end.

(** [client_storage.get(k)], for a key that holds a collection, and for the
    key of the learned list. *)
Definition storage_get_data (k : pystr) (cs : list (pystr * stored))
  : option Data :=
  match dict_get k cs with
  | Some (StoredData d) => Some d
  | _ => None
  end.

Definition storage_get_list (k : pystr) (cs : list (pystr * stored))
  : option (list pystr) :=
  match dict_get k cs with
  | Some (StoredList l) => Some l
  | _ => None
  end.

Section Methods.

(** [utils/suggestions.py], the static vocabulary, is not part of the
    sources at hand: the store is taken over any list [SUGGESTIONS]. *)
Variable SUGGESTIONS : list pystr.

Definition learn_suggestion (item_name : pystr) : M unit :=
  if match item_name with [] => true | _ => false end
     || (length item_name <? 2) then ret tt
  else if existsb (fun s => same_lower s item_name) SUGGESTIONS then ret tt
  else
    user <- gets user_suggestions_data ;;
    if existsb (fun s => same_lower s item_name) user then ret tt
    else
      modify (with_user_suggestions_data (sorted (user ++ [item_name]))) ;;
      save_user_suggestions.

Definition get_all_suggestions : M (list pystr) :=
  user <- gets user_suggestions_data ;;
  ret (sorted (set_of (SUGGESTIONS ++ user))).

(* --- Settings --- *)

Definition get_settings : M (dict pystr) :=
  d <- gets todo_data ;;
  match settings d with
  | Some v => ret v
  | None =>
      subscript (str "settings") (settings DEFAULT_TODO_DATA)
  end.

Definition update_setting (key value : pystr) : M unit :=
  d <- gets todo_data ;;
  st <- subscript (str "settings") (settings d) ;;
  modify (with_todo_data (with_settings (Some (dict_set key value st)) d)) ;;
  save_todo.

(* --- Generic list management --- *)

Definition _get_lists (mode : pystr) : M (dict pystr) :=
  data <- gets (data_of mode) ;;
  ret (map (fun kv => (fst kv, list_name (snd kv))) (lists_or_empty data)).

Definition _get_current_list_id (mode : pystr) : M pystr :=
  data <- gets (data_of mode) ;;
  ret (current_or_default data).

Definition _set_current_list_id (list_id mode : pystr) : M unit :=
  data <- gets (data_of mode) ;;
  match lists data with
  | Some ls =>
      if dict_mem list_id ls then
        set_data mode (with_current_list_id (Some list_id) data) ;;
        save mode
      else ret tt
  | None => ret tt
  end.

(** [new_id] is the draw [str(uuid.uuid4())[:8]]. *)
Definition _create_list (new_id : pystr) (name mode : pystr) : M pystr :=
  data <- gets (data_of mode) ;;
  set_data mode
    (with_lists
       (Some (dict_set new_id {| list_name := name; items := [] |}
                (lists_or_empty data))) data) ;;
  _set_current_list_id new_id mode ;;
  save mode ;;
  ret new_id.

Definition _rename_list (list_id new_name mode : pystr) : M unit :=
  data <- gets (data_of mode) ;;
  match lists data with
  | Some ls =>
      if dict_mem list_id ls then
        l <- subscript list_id (dict_get list_id ls) ;;
        set_data mode
          (with_lists (Some (dict_set list_id (with_name new_name l) ls))
                      data) ;;
        save mode
      else ret tt
  | None => ret tt
  end.

Definition _delete_list (list_id mode : pystr) : M bool :=
  if str_eqb list_id (str "default") then ret false
  else
    data <- gets (data_of mode) ;;
    if length (lists_or_empty data) <=? 1 then ret false
    else
      match lists data with
      | Some ls =>
          if dict_mem list_id ls then
            let ls' := dict_del list_id ls in
            let data' := with_lists (Some ls') data in
            set_data mode data' ;;
            (match current_list_id data with
             | Some c =>
                 if str_eqb c list_id then
                   match first_key ls' with
                   | Some k =>
                       set_data mode (with_current_list_id (Some k) data')
                   | None => raise StopIteration
                   end
                 else ret tt
             | None => ret tt
             end) ;;
            save mode ;;
            ret true
          else ret false
      | None => ret false
      end.

(* --- Public list management API --- *)

Definition get_shopping_lists := _get_lists (str "shopping").
Definition create_shopping_list (new_id name : pystr) :=
  _create_list new_id name (str "shopping").
Definition get_current_shopping_list_id :=
  _get_current_list_id (str "shopping").
Definition set_current_shopping_list_id (list_id : pystr) :=
  _set_current_list_id list_id (str "shopping").
Definition rename_shopping_list (list_id new_name : pystr) :=
  _rename_list list_id new_name (str "shopping").
Definition delete_shopping_list (list_id : pystr) :=
  _delete_list list_id (str "shopping").

Definition get_todo_lists := _get_lists (str "todo").
Definition create_todo_list (new_id name : pystr) :=
  _create_list new_id name (str "todo").
Definition get_current_todo_list_id := _get_current_list_id (str "todo").
Definition set_current_todo_list_id (list_id : pystr) :=
  _set_current_list_id list_id (str "todo").
Definition rename_todo_list (list_id new_name : pystr) :=
  _rename_list list_id new_name (str "todo").
Definition delete_todo_list (list_id : pystr) :=
  _delete_list list_id (str "todo").

Definition get_current_list_id := get_current_shopping_list_id.

(* --- Sharing --- *)

Definition get_list_as_text (mode : pystr) : M pystr :=
  l <- (if is_shopping mode then
          current_id <- get_current_shopping_list_id ;;
          d <- gets shopping_data ;;
          ls <- subscript (str "lists") (lists d) ;;
          subscript current_id (dict_get current_id ls)
        else
          current_id <- get_current_todo_list_id ;;
          d <- gets todo_data ;;
          ls <- subscript (str "lists") (lists d) ;;
          subscript current_id (dict_get current_id ls)) ;;
  ret (GLYPH_TITLE ++ str " " ++ list_name l ++ [10; 10]%N
       ++ flat_map (fun item =>
            (if is_completed item then GLYPH_DONE else GLYPH_OPEN)
            ++ str " " ++ name item ++ [10]%N) (items l)).

(* --- Tasks --- *)

Definition get_tasks (mode : pystr) : M (list Item) :=
  if is_shopping mode then
    current_id <- get_current_shopping_list_id ;;
    d <- gets shopping_data ;;
    ls <- subscript (str "lists") (lists d) ;;
    ret (match dict_get current_id ls with Some l => items l | None => [] end)
  else
    current_id <- get_current_todo_list_id ;;
    d <- gets todo_data ;;
    ls <- subscript (str "lists") (lists d) ;;
    ret (match dict_get current_id ls with Some l => items l | None => [] end).

(** The loop over [all_suggestions]: the first suggestion that matches
    [clean_name] up to case replaces it. *)
Definition normalize (all_suggestions : list pystr) (clean_name : pystr)
  : pystr :=
  match find (fun suggestion => same_lower suggestion clean_name)
             all_suggestions with
  | Some suggestion => suggestion
  | None => clean_name
  end.

Definition add_task (task_name priority : pystr) (is_completed : bool)
  (mode : pystr) : M (option Item) :=
  let clean_name := str_strip task_name in
  match clean_name with
  | [] => ret None
  | _ :: _ =>
    all_suggestions <- get_all_suggestions ;;
    let clean_name := normalize all_suggestions clean_name in
    (if is_shopping mode then learn_suggestion clean_name else ret tt) ;;
    ci <- (if is_shopping mode then
             current_id <- get_current_shopping_list_id ;;
             d <- gets shopping_data ;;
             current_items <- get_items d current_id ;;
             ret (current_id, current_items)
           else
             current_id <- get_current_todo_list_id ;;
             d <- gets todo_data ;;
             current_items <- get_items d current_id ;;
             ret (current_id, current_items)) ;;
    let current_id := fst ci in
    let current_items := snd ci in
    if existsb (fun item => same_lower (name item) clean_name) current_items
    then ret None
    else
      let new_task := {| name := clean_name; priority := priority;
                         is_completed := is_completed |} in
      (if is_shopping mode then
         d <- gets shopping_data ;;
         its <- get_items d current_id ;;
         d' <- set_items d current_id (its ++ [new_task]) ;;
         modify (with_shopping_data d') ;;
         save_shopping
       else
         d <- gets todo_data ;;
         its <- get_items d current_id ;;
         d' <- set_items d current_id (its ++ [new_task]) ;;
         modify (with_todo_data d') ;;
         save_todo) ;;
      ret (Some new_task)
  end.

Definition update_task_status (task_name : pystr) (is_completed : bool)
  (mode : pystr) : M unit :=
  ci <- (if is_shopping mode then
           current_id <- get_current_shopping_list_id ;;
           d <- gets shopping_data ;;
           tasks <- get_items d current_id ;;
           ret (current_id, tasks)
         else
           current_id <- get_current_todo_list_id ;;
           d <- gets todo_data ;;
           tasks <- get_items d current_id ;;
           ret (current_id, tasks)) ;;
  (* the loop mutates a task of the list just read, in place *)
  data <- gets (data_of mode) ;;
  data' <- set_items data (fst ci)
             (set_first_completed task_name is_completed (snd ci)) ;;
  set_data mode data' ;;
  (if is_shopping mode then save_shopping else save_todo).

Definition delete_task (task_name : pystr) (mode : pystr) : M unit :=
  if is_shopping mode then
    current_id <- get_current_shopping_list_id ;;
    d <- gets shopping_data ;;
    old_items <- get_items d current_id ;;
    d' <- set_items d current_id
            (filter (fun t => negb (str_eqb (name t) task_name)) old_items) ;;
    modify (with_shopping_data d') ;;
    save_shopping
  else
    current_id <- get_current_todo_list_id ;;
    d <- gets todo_data ;;
    old_items <- get_items d current_id ;;
    d' <- set_items d current_id
            (filter (fun t => negb (str_eqb (name t) task_name)) old_items) ;;
    modify (with_todo_data d') ;;
    save_todo.

Definition clear_shopping_cart : M unit :=
  current_id <- get_current_shopping_list_id ;;
  d <- gets shopping_data ;;
  ls <- subscript (str "lists") (lists d) ;;
  if dict_mem current_id ls then
    its <- get_items d current_id ;;
    d' <- set_items d current_id
            (filter (fun t => negb (is_completed t)) its) ;;
    modify (with_shopping_data d') ;;
    save_shopping
  else ret tt.

Definition clear_tasks (mode : pystr) : M unit :=
  if is_shopping mode then
    current_id <- get_current_shopping_list_id ;;
    d <- gets shopping_data ;;
    d' <- set_items d current_id [] ;;
    modify (with_shopping_data d') ;;
    save_shopping
  else
    current_id <- get_current_todo_list_id ;;
    d <- gets todo_data ;;
    d' <- set_items d current_id [] ;;
    modify (with_todo_data d') ;;
    save_todo.

Definition clear_completed_tasks (mode : pystr) : M unit :=
  current_id <- (if is_shopping mode then get_current_shopping_list_id
                 else get_current_todo_list_id) ;;
  data <- gets (data_of mode) ;;
  ls <- subscript (str "lists") (lists data) ;;
  if dict_mem current_id ls then
    its <- get_items data current_id ;;
    data' <- set_items data current_id
               (filter (fun t => negb (is_completed t)) its) ;;
    set_data mode data' ;;
    (if is_shopping mode then save_shopping else save_todo)
  else ret tt.

(* --- Initialization --- *)

(** The structural migration of one collection: the flat [tasks] array
    becomes the items of a [default] list and the legacy key goes. *)
Definition migrate_structure (d : Data) : Data :=
  let old_tasks := match tasks d with Some t => t | None => [] end in
  with_tasks None
    (with_lists
       (Some [(str "default",
               {| list_name := str "Allgemein"; items := old_tasks |})])
       (with_current_list_id (Some (str "default")) d)).

(** The data integrity checks that end [__init__], block by block. *)

(** "Migration Check for Shopping Data" *)
Definition migrate_shopping_structure : M unit :=
  shopping <- gets shopping_data ;;
  match lists shopping with
  | None => modify (with_shopping_data (migrate_structure shopping)) ;;
            save_shopping
  | Some _ => ret tt
  end.

(** "Migration Check for Todo Data" *)
Definition migrate_todo_structure : M unit :=
  todo <- gets todo_data ;;
  match lists todo with
  | None => modify (with_todo_data (migrate_structure todo)) ;;
            save_todo
  | Some _ => ret tt
  end.

(** "Ensure default list name is Allgemein", shopping: the names of
    [LEGACY_SHOPPING_NAMES] are replaced. *)
Definition normalize_shopping_name : M unit :=
  shopping <- gets shopping_data ;;
  match lists shopping with
  | Some ls =>
      if dict_mem (str "default") ls then
        l <- subscript (str "default") (dict_get (str "default") ls) ;;
        if existsb (str_eqb (list_name l)) LEGACY_SHOPPING_NAMES then
          modify (with_shopping_data
            (with_lists
               (Some (dict_set (str "default")
                        (with_name (str "Allgemein") l) ls)) shopping)) ;;
          save_shopping
        else ret tt
      else ret tt
  | None => ret tt
  end.

(** "Ensure default list name is Allgemein", todo: any other name is
    replaced. *)
Definition normalize_todo_name : M unit :=
  todo <- gets todo_data ;;
  match lists todo with
  | Some ls =>
      if dict_mem (str "default") ls then
        l <- subscript (str "default") (dict_get (str "default") ls) ;;
        if negb (str_eqb (list_name l) (str "Allgemein")) then
          modify (with_todo_data
            (with_lists
               (Some (dict_set (str "default")
                        (with_name (str "Allgemein") l) ls)) todo)) ;;
          save_todo
        else ret tt
      else ret tt
  | None => ret tt
  end.

Definition migrations : M unit :=
  migrate_shopping_structure ;;
  migrate_todo_structure ;;
  normalize_shopping_name ;;
  normalize_todo_name.

(** The first part of [__init__] on a client storage [cs] and the legacy
    files [fs]: the three values are read from the client storage, a
    collection that is not there is imported from its legacy file when that
    exists, and installed from the defaults otherwise; whatever is new is
    written. *)
Definition load (cs : list (pystr * stored)) (fs : Files) : DataManager :=
  let todo := storage_get_data TODO_KEY cs in
  let shopping := storage_get_data SHOPPING_KEY cs in
  let '(user, cs) :=
    match storage_get_list SUGGESTIONS_KEY cs with
    | Some l => (l, cs)
    | None => ([], (SUGGESTIONS_KEY, StoredList []) :: cs)
    end in
  let '(todo, cs) :=
    match todo, todo_file fs with
    | None, Some content =>
        let d := load_json_file content DEFAULT_TODO_DATA in
        (Some d, (TODO_KEY, StoredData d) :: cs)
    | _, _ => (todo, cs)
    end in
  let '(shopping, cs) :=
    match shopping, shopping_file fs with
    | None, Some content =>
        let d := load_json_file content DEFAULT_SHOPPING_DATA in
        (Some d, (SHOPPING_KEY, StoredData d) :: cs)
    | _, _ => (shopping, cs)
    end in
  let '(todo, cs) :=
    match todo with
    | Some d => (d, cs)
    | None => (DEFAULT_TODO_DATA,
               (TODO_KEY, StoredData DEFAULT_TODO_DATA) :: cs)
    end in
  let '(shopping, cs) :=
    match shopping with
    | Some d => (d, cs)
    | None => (DEFAULT_SHOPPING_DATA,
               (SHOPPING_KEY, StoredData DEFAULT_SHOPPING_DATA) :: cs)
    end in
  {| todo_data := todo; shopping_data := shopping;
     user_suggestions_data := user; client_storage := cs |}.

(** [DataManager(page)] *)
Definition __init__ (cs : list (pystr * stored)) (fs : Files)
  : DataManager * outcome unit :=
  migrations (load cs fs).

(* --- The calls a client of the store can make --- *)

Inductive Op :=
| CreateList (new_id name mode : pystr)
| SetCurrentListId (list_id mode : pystr)
| RenameList (list_id new_name mode : pystr)
| DeleteList (list_id mode : pystr)
| AddTask (task_name priority : pystr) (is_completed : bool) (mode : pystr)
| UpdateTaskStatus (task_name : pystr) (is_completed : bool) (mode : pystr)
| DeleteTask (task_name mode : pystr)
| ClearTasks (mode : pystr)
| ClearCompletedTasks (mode : pystr)
| ClearShoppingCart
| LearnSuggestion (item_name : pystr)
| UpdateSetting (key value : pystr)
| GetLists (mode : pystr)
| GetCurrentListId (mode : pystr)
| GetTasks (mode : pystr)
| GetListAsText (mode : pystr)
| GetAllSuggestions
| GetSettings.

(** The result of a call is dropped; what is left is the effect on [self]
    and whether the call raised. *)
Definition forget {A} (m : M A) : M unit := x <- m ;; ret tt.

Definition run (op : Op) : M unit :=
  match op with
  | CreateList new_id name mode => forget (_create_list new_id name mode)
  | SetCurrentListId list_id mode => _set_current_list_id list_id mode
  | RenameList list_id new_name mode => _rename_list list_id new_name mode
  | DeleteList list_id mode => forget (_delete_list list_id mode)
  | AddTask task_name priority is_completed mode =>
      forget (add_task task_name priority is_completed mode)
  | UpdateTaskStatus task_name is_completed mode =>
      update_task_status task_name is_completed mode
  | DeleteTask task_name mode => delete_task task_name mode
  | ClearTasks mode => clear_tasks mode
  | ClearCompletedTasks mode => clear_completed_tasks mode
  | ClearShoppingCart => clear_shopping_cart
  | LearnSuggestion item_name => learn_suggestion item_name
  | UpdateSetting key value => update_setting key value
  | GetLists mode => forget (_get_lists mode)
  | GetCurrentListId mode => forget (_get_current_list_id mode)
  | GetTasks mode => forget (get_tasks mode)
  | GetListAsText mode => forget (get_list_as_text mode)
  | GetAllSuggestions => forget get_all_suggestions
  | GetSettings => forget get_settings
  end.

End Methods.

(* ================================================================== *)
(** * Notions the properties are stated with *)
(* ================================================================== *)

(** [self] after a mutation of the collection [mode] selects. *)
Definition put_data (mode : pystr) (d : Data) (s : DataManager) : DataManager :=
  if is_shopping mode then with_shopping_data d s else with_todo_data d s.

(** [self] after the save of the collection [mode] selects: one more
    write, of that collection under its key. *)
Definition saved (mode : pystr) (s : DataManager) : DataManager :=
  with_client_storage
    ((if is_shopping mode then SHOPPING_KEY else TODO_KEY,
      StoredData (data_of mode s)) :: client_storage s) s.

(** The collection [mode] does not select. *)
Definition other_data (mode : pystr) (s : DataManager) : Data :=
  if is_shopping mode then todo_data s else shopping_data s.

(** The items of the current list of a collection, when it has one. *)
Definition current_items (d : Data) : option (list Item) :=
  match lists d with
  | Some ls =>
      match dict_get (current_or_default d) ls with
      | Some l => Some (items l)
      | None => None
      end
  | None => None
  end.

(** The invariant of a collection: the current list id is a key of
    [lists], and so is ["default"]. *)
Definition data_inv (d : Data) : Prop :=
  exists ls, lists d = Some ls
             /\ dict_mem (str "default") ls = true
             /\ dict_mem (current_or_default d) ls = true.

Definition store_inv (s : DataManager) : Prop :=
  data_inv (todo_data s) /\ data_inv (shopping_data s).

(** Whether [learn_suggestion] takes [item_name] in: it has two characters
    or more and nothing of the vocabulary matches it up to case. *)
Definition is_new_suggestion (SUGGESTIONS user : list pystr) (item_name : pystr)
  : bool :=
  (2 <=? length item_name)
  && negb (existsb (fun s => same_lower s item_name) (SUGGESTIONS ++ user)).

(** [self] after [learn_suggestion] has taken [item_name] in. *)
Definition learned (item_name : pystr) (s : DataManager) : DataManager :=
  let user := sorted (user_suggestions_data s ++ [item_name]) in
  with_client_storage ((SUGGESTIONS_KEY, StoredList user) :: client_storage s)
    (with_user_suggestions_data user s).

(** What the task methods that rewrite the current list have in common:
    the items of the current list of the collection become [f items], the
    collection is saved; a [KeyError] when the list is not there. *)
Definition update_current_items (f : list Item -> list Item) (mode : pystr)
  (s : DataManager) : DataManager * outcome unit :=
  let d := data_of mode s in
  match lists d with
  | None => (s, Raises (KeyError (str "lists")))
  | Some ls =>
      match dict_get (current_or_default d) ls with
      | None => (s, Raises (KeyError (current_or_default d)))
      | Some l =>
          (saved mode
             (put_data mode
                (with_lists
                   (Some (dict_set (current_or_default d)
                            (with_items (f (items l)) l) ls)) d) s),
           Returns tt)
      end
  end.

(* ================================================================== *)
(** * Stores the properties are tried on *)
(* ================================================================== *)

(** The store of a first run, as the tests set it up: both collections at
    their defaults, nothing learned, nothing written yet. *)
Definition fresh_store : DataManager :=
  {| todo_data := DEFAULT_TODO_DATA;
     shopping_data := DEFAULT_SHOPPING_DATA;
     user_suggestions_data := [];
     client_storage := [] |}.

(** A store whose todo collection has a second list, the current one,
    with two tasks of the same name. *)
Definition two_lists_store : DataManager :=
  with_todo_data
    (with_current_list_id (Some (str "ab12cd34"))
       (with_lists
          (Some [(str "default",
                  {| list_name := str "Allgemein"; items := [] |});
                 (str "ab12cd34",
                  {| list_name := str "Work";
                     items := [ {| name := str "Call"; priority := str "low";
                                   is_completed := false |};
                                {| name := str "Mail"; priority := str "low";
                                   is_completed := false |};
                                {| name := str "Mail"; priority := str "urgent";
                                   is_completed := false |} ] |})])
          DEFAULT_TODO_DATA))
    fresh_store.

(** The collection a list or task call is made on. *)
Definition op_mode (op : Op) : option pystr :=
  match op with
  | CreateList _ _ mode | SetCurrentListId _ mode | RenameList _ _ mode
  | DeleteList _ mode | AddTask _ _ _ mode | UpdateTaskStatus _ _ mode
  | DeleteTask _ mode | ClearTasks mode | ClearCompletedTasks mode => Some mode
  | ClearShoppingCart => Some (str "shopping")
  | _ => None
  end.

(** The one call among them that reaches [learn_suggestion]. *)
Definition may_learn (op : Op) : bool :=
  match op with
  | AddTask _ _ _ mode => is_shopping mode
  | _ => false
  end.

(** The storage key of the collection [mode] does not select. *)
Definition other_key (mode : pystr) : pystr :=
  if is_shopping mode then TODO_KEY else SHOPPING_KEY.

(** A call on the collection [mode] selects has left the other one alone:
    it is as it was in memory, and what the client storage holds under its
    key is as it was. *)
Definition untouched (mode : pystr) (s s' : DataManager) : Prop :=
  other_data mode s' = other_data mode s
  /\ dict_get (other_key mode) (client_storage s')
     = dict_get (other_key mode) (client_storage s).

(** A collection the migrations have nothing left to do on: it has its
    [lists], and its default list, when it has one, has a display name the
    normalization keeps ([keeps name = true]). *)
Definition settled (keeps : pystr -> bool) (d : Data) : Prop :=
  exists ls, lists d = Some ls
             /\ forall l, dict_get (str "default") ls = Some l ->
                          keeps (list_name l) = true.

(** The names the normalization of the shopping collection keeps, and of
    the todo collection. *)
Definition keeps_shopping (n : pystr) : bool :=
  negb (existsb (str_eqb n) LEGACY_SHOPPING_NAMES).

Definition keeps_todo (n : pystr) : bool := str_eqb n (str "Allgemein").

(** The normalization of a display name, for either collection: when the
    default list is there under a name that is not kept, it is renamed. *)
Definition renamed (keeps : pystr -> bool) (d : Data) : option Data :=
  match lists d with
  | Some ls =>
      match dict_get (str "default") ls with
      | Some l =>
          if keeps (list_name l) then None
          else Some (with_lists
                       (Some (dict_set (str "default")
                                (with_name (str "Allgemein") l) ls)) d)
      | None => None
      end
  | None => None
  end.

(** The client storage holds what the store has in memory. *)
Definition synced (s : DataManager) : Prop :=
  storage_get_data TODO_KEY (client_storage s) = Some (todo_data s)
  /\ storage_get_data SHOPPING_KEY (client_storage s) = Some (shopping_data s)
  /\ storage_get_list SUGGESTIONS_KEY (client_storage s)
     = Some (user_suggestions_data s).

(** A client storage in the legacy shape: a flat [tasks] array for the
    shopping collection, nothing else. *)
Definition legacy_storage : list (pystr * stored) :=
  [(SHOPPING_KEY,
    StoredData {| settings := None; current_list_id := None; lists := None;
                  tasks := Some [ {| name := str "Brot";
                                     priority := str "medium";
                                     is_completed := false |} ] |})].

Definition no_files : Files := {| todo_file := None; shopping_file := None |}.

(* ================================================================== *)
(** * The suggestion vocabulary, in the words of the specification *)
(* ================================================================== *)

(** "Deduplicated case-insensitively": no two entries are equal up to
    lowercasing. *)
Definition case_distinct (l : list pystr) : Prop :=
  forall a b, In a l -> In b l -> same_lower a b = true -> a = b.


(** A store that has learned "Apple". *)
Definition apple_store : DataManager :=
  with_user_suggestions_data [str "Apple"] fresh_store.

(** A store whose shopping list holds "Quinoa", a name the vocabulary does
    not have. *)
Definition quinoa_store : DataManager :=
  with_shopping_data
    (with_lists
       (Some [(str "default",
               {| list_name := str "Allgemein";
                  items := [ {| name := str "Quinoa"; priority := str "medium";
                                is_completed := false |} ] |})])
       DEFAULT_SHOPPING_DATA)
    fresh_store.

(** The sharp s, U+00DF; its upper-case form is "SS". *)
Definition sharp_s : pystr := [223%N].

(** The state a method call leaves, for chaining calls. *)
Definition after {A} (m : M A) (s : DataManager) : DataManager := fst (m s).

(** The stores a first run can reach: [__init__] on an empty client storage
    without legacy files, then any calls. *)
Inductive reachable (SUGGESTIONS : list pystr) : DataManager -> Prop :=
| reachable_init : reachable SUGGESTIONS (fst (__init__ [] no_files))
| reachable_run op s :
    reachable SUGGESTIONS s -> reachable SUGGESTIONS (fst (run SUGGESTIONS op s)).

(* ================================================================== *)
(** * Further notions: what the lists hold *)
(* ================================================================== *)

(** No two items of a list are equal up to case. *)
Definition names_distinct (its : list Item) : Prop :=
  NoDup (map (fun item => str_lower (name item)) its).

(** No list of a collection holds two items equal up to case. *)
Definition data_distinct (d : Data) : Prop :=
  forall k l, dict_get k (lists_or_empty d) = Some l -> names_distinct (items l).

Definition store_distinct (s : DataManager) : Prop :=
  data_distinct (todo_data s) /\ data_distinct (shopping_data s).

(** ["default"] is the first key of [lists]. *)
Definition default_first (d : Data) : Prop :=
  first_key (lists_or_empty d) = Some (str "default").

(** A store whose shopping list holds three items, the first and the last
    in the cart. *)
Definition cart_store : DataManager :=
  with_shopping_data
    (with_lists
       (Some [(str "default",
               {| list_name := str "Allgemein";
                  items := [ {| name := str "A"; priority := str "medium";
                                is_completed := true |};
                             {| name := str "B"; priority := str "medium";
                                is_completed := false |};
                             {| name := str "C"; priority := str "medium";
                                is_completed := true |} ] |})])
       DEFAULT_SHOPPING_DATA)
    fresh_store.

(** A collection whose current list, when it exists, has had its items
    replaced by [f items]. *)
Definition rewrite_items (f : list Item -> list Item) (d : Data) : Data :=
  match lists d with
  | Some ls =>
      match dict_get (current_or_default d) ls with
      | Some l =>
          with_lists
            (Some (dict_set (current_or_default d) (with_items (f (items l)) l)
                     ls)) d
      | None => d
      end
  | None => d
  end.

Definition store_default_first (s : DataManager) : Prop :=
  default_first (todo_data s) /\ default_first (shopping_data s).

(** What the migrations of [__init__] make of one collection: the
    structural migration when it has no [lists], then the normalization of
    the display name of its default list. *)
Definition migrated (keeps : pystr -> bool) (d : Data) : Data :=
  let d1 := match lists d with
            | None => migrate_structure d
            | Some _ => d
            end in
  match renamed keeps d1 with
  | Some d2 => d2
  | None => d1
  end.

(** A store whose todo collection is in the legacy shape, without
    settings: a flat array of tasks. *)
Definition legacy_todo_store : DataManager :=
  with_todo_data
    {| settings := None; current_list_id := None; lists := None;
       tasks := Some [ {| name := str "Call"; priority := str "low";
                          is_completed := false |} ] |}
    fresh_store.

(* ================================================================== *)
(** * utils/ai_assistant.py: the tools of the assistant *)
(* ================================================================== *)

(** The tools call the store and answer with a fixed sentence around their
    arguments.  The [print] of a tool goes to the console and is left out. *)
Section Tools.

Variable SUGGESTIONS : list pystr.

Definition _add_item_tool (item_name mode priority : pystr) : M pystr :=
  add_task SUGGESTIONS item_name priority false mode ;;
  ret (str "Added '" ++ item_name ++ str "' to " ++ mode ++ str " list.").

Definition _remove_item_tool (item_name mode : pystr) : M pystr :=
  delete_task item_name mode ;;
  ret (str "Removed '" ++ item_name ++ str "' from " ++ mode ++ str " list.").

End Tools.

(* ================================================================== *)
(** * views/todo_view.py: the suggestions under the input field *)
(* ================================================================== *)

(** [s.startswith(prefix)] *)
Fixpoint startswith (s prefix : pystr) : bool :=
  match prefix, s with
  | [], _ => true
  | p :: prefix', c :: s' => (c =? p)%N && startswith s' prefix'
  | _ :: _, [] => false
  end.

Module TodoView.
Section View.

Variable SUGGESTIONS : list pystr.

(** [update_suggestions], on the text of the input field: the texts of the
    controls it leaves in [suggestions_list], in order, and the value it
    leaves in [suggestions_container.visible]. *)
Definition update_suggestions (input : pystr) : M (list pystr * bool) :=
  let query := str_lower input in
  st <- get_settings ;;
  mode <- subscript (str "mode") (dict_get (str "mode") st) ;;
  if is_shopping mode && (0 <? length query) then
    all_suggestions <- get_all_suggestions SUGGESTIONS ;;
    let matches :=
      filter (fun s => startswith (str_lower s) query) all_suggestions in
    let controls := firstn 5 matches in
    ret (controls, 0 <? length controls)
  else ret ([], false).

End View.
End TodoView.

(* ================================================================== *)
(** * utils/ai_assistant.py: the choice of a model *)
(* ================================================================== *)

(** [s.endswith(suffix)] *)
Definition endswith (s suffix : pystr) : bool :=
  startswith (rev s) (rev suffix).

(** [sub in s] on strings *)
Fixpoint contains (s sub : pystr) : bool :=
  startswith s sub
  || match s with
     | [] => false
     | _ :: s' => contains s' sub
     end.

(** What [genai.list_models()] yields for one model, as far as
    [_resolve_model] reads it. *)
Record Model := mkModel {
  model_name : pystr;
  supported_generation_methods : list pystr
}.

Definition FALLBACK_MODEL : pystr := str "gemini-1.5-flash-latest".

Definition priorities : list pystr :=
  [str "gemini-1.5-flash-002"; str "gemini-1.5-flash-001";
   str "gemini-1.5-flash"; str "gemini-1.5-pro"; str "gemini-pro"].

(** The names of the listed models that support ["generateContent"]. *)
Definition valid_models (listed : list Model) : list pystr :=
  map model_name
    (filter (fun m => existsb (str_eqb (str "generateContent"))
                        (supported_generation_methods m)) listed).

(** [for p in priorities: for m in valid_models: if ...: return m] *)
Fixpoint first_by_priority (ps valid : list pystr) : option pystr :=
  match ps with
  | [] => None
  | p :: ps' =>
      match find (fun m => endswith m p || str_eqb m (str "models/" ++ p))
              valid with
      | Some m => Some m
      | None => first_by_priority ps' valid
      end
  end.

(** [_resolve_model], on what [genai.list_models()] yields; [None] when
    listing raises, which the [except] clause turns into the fallback. *)
Definition _resolve_model (listed : option (list Model)) : pystr :=
  match listed with
  | None => FALLBACK_MODEL
  | Some ms =>
      match valid_models ms with
      | [] => FALLBACK_MODEL
      | first :: _ =>
          match first_by_priority priorities (valid_models ms) with
          | Some m => m
          | None =>
              match find (fun m => contains m (str "flash")
                                   && negb (contains m (str "exp")))
                      (valid_models ms) with
              | Some m => m
              | None => first
              end
          end
      end
  end.

(* ================================================================== *)
(** * Strings: equality, case, order *)
(* ================================================================== *)

Unset Implicit Arguments.

Lemma str_eqb_eq (a b : pystr) : str_eqb a b = true <-> a = b.
Proof.
  revert b; induction a as [|x a IH]; intros [|y b]; simpl; split;
    try congruence; try reflexivity.
  - rewrite andb_true_iff, N.eqb_eq, IH. intros [-> ->]; reflexivity.
  - intros E; injection E as -> ->.
    rewrite N.eqb_refl; simpl. apply IH; reflexivity.
Qed.

Lemma str_eqb_refl (a : pystr) : str_eqb a a = true.
Proof. apply str_eqb_eq; reflexivity. Qed.

Lemma str_eqb_neq (a b : pystr) : str_eqb a b = false <-> a <> b.
Proof.
  rewrite <- str_eqb_eq. destruct (str_eqb a b); split; congruence.
Qed.

Lemma str_eqb_sym (a b : pystr) : str_eqb a b = str_eqb b a.
Proof.
  destruct (str_eqb a b) eqn:E; symmetry.
  - apply str_eqb_eq in E; subst; apply str_eqb_refl.
  - apply str_eqb_neq. apply str_eqb_neq in E. congruence.
Qed.

Lemma same_lower_iff (a b : pystr) :
  same_lower a b = true <-> str_lower a = str_lower b.
Proof. apply str_eqb_eq. Qed.

Lemma same_lower_refl (a : pystr) : same_lower a a = true.
Proof. apply str_eqb_refl. Qed.

Lemma same_lower_sym (a b : pystr) : same_lower a b = same_lower b a.
Proof. apply str_eqb_sym. Qed.

(** Matching up to case depends on the lowercase form only. *)
Lemma same_lower_congr (a b c : pystr) :
  str_lower a = str_lower b -> same_lower c a = same_lower c b.
Proof. unfold same_lower; intros ->; reflexivity. Qed.

Lemma existsb_same_lower_congr {A} (f : A -> pystr) (a b : pystr) (l : list A) :
  str_lower a = str_lower b ->
  existsb (fun x => same_lower (f x) a) l = existsb (fun x => same_lower (f x) b) l.
Proof.
  intros E; induction l as [|x l IH]; simpl; [reflexivity|].
  rewrite IH, (same_lower_congr a b (f x) E); reflexivity.
Qed.

Lemma str_ltb_irrefl (a : pystr) : str_ltb a a = false.
Proof.
  induction a as [|x a IH]; simpl; [reflexivity|].
  rewrite N.ltb_irrefl, N.eqb_refl, IH; reflexivity.
Qed.

Lemma str_ltb_trans (a b c : pystr) :
  str_ltb a b = true -> str_ltb b c = true -> str_ltb a c = true.
Proof.
  revert b c; induction a as [|x a IH]; intros [|y b] [|z c]; simpl;
    try congruence.
  rewrite !orb_true_iff, !andb_true_iff, !N.ltb_lt, !N.eqb_eq.
  intros [H1|[H1 H1']] [H2|[H2 H2']]; subst.
  - left; lia.
  - left; assumption.
  - left; assumption.
  - right; split; [reflexivity|eauto].
Qed.

(** The order on strings is total: of two different strings one is below
    the other. *)
Lemma str_ltb_total (a b : pystr) :
  str_ltb a b = false -> str_ltb b a = false -> a = b.
Proof.
  revert b; induction a as [|x a IH]; intros [|y b]; simpl;
    try congruence.
  rewrite !orb_false_iff, !andb_false_iff, !N.ltb_ge, !N.eqb_neq.
  intros [H1 H1'] [H2 H2'].
  assert (x = y) by lia; subst y.
  f_equal. apply IH.
  - destruct H1' as [?|?]; [congruence|assumption].
  - destruct H2' as [?|?]; [congruence|assumption].
Qed.

Lemma str_ltb_leb (a b : pystr) : str_ltb a b = true -> str_leb a b = true.
Proof.
  unfold str_leb; intros H. destruct (str_ltb b a) eqn:E; [|reflexivity].
  pose proof (str_ltb_trans _ _ _ H E) as C.
  rewrite str_ltb_irrefl in C; discriminate.
Qed.

Lemma str_leb_cases (a b : pystr) :
  str_leb a b = true <-> str_ltb a b = true \/ a = b.
Proof.
  unfold str_leb; split.
  - intros H. apply negb_true_iff in H.
    destruct (str_ltb a b) eqn:E; [left; reflexivity|right].
    apply str_ltb_total; assumption.
  - intros [H| ->].
    + apply (str_ltb_leb _ _ H).
    + rewrite str_ltb_irrefl; reflexivity.
Qed.

Lemma str_leb_trans (a b c : pystr) :
  str_leb a b = true -> str_leb b c = true -> str_leb a c = true.
Proof.
  rewrite !str_leb_cases. intros [H1| ->] [H2| ->]; eauto using str_ltb_trans.
Qed.

Lemma str_leb_false (a b : pystr) : str_leb a b = false -> str_ltb b a = true.
Proof. unfold str_leb. intros H; apply negb_false_iff in H; exact H. Qed.

(* ================================================================== *)
(** * [sorted] and [set] *)
(* ================================================================== *)

Lemma in_insert_sorted (x y : pystr) (l : list pystr) :
  In y (insert_sorted x l) <-> y = x \/ In y l.
Proof.
  induction l as [|z l IH]; simpl.
  - intuition congruence.
  - destruct (str_leb x z); simpl; rewrite ?IH; intuition congruence.
Qed.

Lemma in_sorted (x : pystr) (l : list pystr) : In x (sorted l) <-> In x l.
Proof.
  induction l as [|y l IH]; simpl; [reflexivity|].
  rewrite in_insert_sorted, IH. intuition congruence.
Qed.

Lemma insert_sorted_perm (x : pystr) (l : list pystr) :
  Permutation (x :: l) (insert_sorted x l).
Proof.
  induction l as [|y l IH]; simpl; [apply Permutation_refl|].
  destruct (str_leb x y); [apply Permutation_refl|].
  eapply perm_trans; [apply perm_swap|]. apply perm_skip, IH.
Qed.

Lemma sorted_perm (l : list pystr) : Permutation l (sorted l).
Proof.
  induction l as [|x l IH]; simpl; [apply perm_nil|].
  eapply perm_trans; [apply perm_skip, IH|apply insert_sorted_perm].
Qed.

Lemma insert_sorted_ok (x : pystr) (l : list pystr) :
  StronglySorted str_le l -> StronglySorted str_le (insert_sorted x l).
Proof.
  induction 1 as [|y l Hs IH Hall]; simpl.
  - repeat constructor.
  - destruct (str_leb x y) eqn:E.
    + constructor; [constructor; assumption|].
      constructor; [exact E|].
      rewrite Forall_forall in *. intros z Hz.
      eapply str_leb_trans; [exact E|apply Hall, Hz].
    + constructor; [exact IH|].
      rewrite Forall_forall in *. intros z Hz.
      apply in_insert_sorted in Hz. destruct Hz as [->|Hz]; [|auto].
      apply str_ltb_leb, str_leb_false, E.
Qed.

Lemma sorted_ok (l : list pystr) : StronglySorted str_le (sorted l).
Proof.
  induction l as [|x l IH]; simpl; [constructor|].
  apply insert_sorted_ok, IH.
Qed.

Lemma existsb_str_eqb (x : pystr) (l : list pystr) :
  existsb (str_eqb x) l = true <-> In x l.
Proof.
  rewrite existsb_exists; split.
  - intros [y [Hy E]]. apply str_eqb_eq in E; subst; assumption.
  - intros H; exists x; split; [assumption|apply str_eqb_refl].
Qed.

Lemma in_set_of (x : pystr) (l : list pystr) : In x (set_of l) <-> In x l.
Proof.
  induction l as [|y l IH]; simpl; [reflexivity|].
  destruct (existsb (str_eqb y) l) eqn:E; simpl; rewrite IH.
  - apply existsb_str_eqb in E. intuition congruence.
  - reflexivity.
Qed.

Lemma set_of_nodup (l : list pystr) : NoDup (set_of l).
Proof.
  induction l as [|y l IH]; simpl; [constructor|].
  destruct (existsb (str_eqb y) l) eqn:E; [assumption|].
  constructor; [|assumption].
  rewrite in_set_of, <- existsb_str_eqb, E; discriminate.
Qed.

(** A sorted list without repetition is strictly ascending. *)
Lemma sorted_nodup_strict (l : list pystr) :
  NoDup l -> StronglySorted str_le l -> StronglySorted str_lt l.
Proof.
  induction 2 as [|x l Hs IH Hall]; [constructor|].
  inversion H; subst. constructor; [auto|].
  rewrite Forall_forall in *. intros y Hy.
  destruct (proj1 (str_leb_cases x y) (Hall y Hy)) as [L|E]; [exact L|].
  subst; contradiction.
Qed.

(** In a sorted list, [find] returns the least element that passes. *)
Lemma find_sorted_least (p : pystr -> bool) (l : list pystr) (x : pystr) :
  StronglySorted str_le l -> find p l = Some x ->
  forall y, In y l -> p y = true -> str_le x y.
Proof.
  induction 1 as [|z l Hs IH Hall]; simpl; [discriminate|].
  destruct (p z) eqn:E.
  - intros [= ->] y [->|Hy] _.
    + apply str_leb_cases; right; reflexivity.
    + rewrite Forall_forall in Hall; auto.
  - intros Hf y [->|Hy] Hp; [congruence|eauto].
Qed.

(* ================================================================== *)
(** * Case mappings *)
(* ================================================================== *)

Lemma lookup_special_in t c l : lookup_special t c = Some l -> In (c, l) t.
Proof.
  induction t as [|[k l0] t IH]; cbn [lookup_special]; [discriminate|].
  destruct (c =? k)%N eqn:E.
  - apply N.eqb_eq in E. subst k. intros [= ->]. left. reflexivity.
  - intros H. right. apply IH, H.
Qed.

Lemma lookup_run_in t c d :
  lookup_run t c = Some d ->
  exists lo hi step to,
    In (lo, hi, step, to) t
    /\ (lo <= c)%N /\ (c <= hi)%N /\ d = (to + (c - lo))%N.
Proof.
  induction t as [|[[[lo hi] step] to] t IH]; cbn [lookup_run];
    [discriminate|].
  destruct (in_range lo hi c && ((c - lo) mod step =? 0)%N) eqn:E.
  - intros [= <-]. exists lo, hi, step, to.
    apply andb_true_iff in E. destruct E as [E _].
    unfold in_range in E. split; [left; reflexivity|]. lia.
  - intros H. destruct (IH H) as (lo' & hi' & step' & to' & Hin & R).
    exists lo', hi', step', to'. split; [right; exact Hin|exact R].
Qed.

Lemma no_space_between_ok a b x :
  no_space_between a b = true -> (a <= x)%N -> (x <= b)%N ->
  isspace x = false.
Proof.
  unfold no_space_between, isspace, in_range. cbn [forallb fst snd]. lia.
Qed.

(** The case forms of a code point that is not white space have no white
    space, and no case form is empty. *)
Lemma full_case_nonspace special runs c x :
  special_no_space special = true ->
  runs_no_space runs = true ->
  isspace c = false -> In x (full_case special runs c) -> isspace x = false.
Proof.
  intros Hs Hr Hc. unfold full_case.
  destruct (lookup_special special c) as [l|] eqn:E.
  - apply lookup_special_in in E.
    unfold special_no_space in Hs. rewrite forallb_forall in Hs.
    specialize (Hs _ E). cbn [snd] in Hs.
    destruct l as [|y l]; [discriminate|].
    rewrite forallb_forall in Hs. intros Hx.
    apply negb_true_iff, Hs, Hx.
  - destruct (lookup_run runs c) as [d|] eqn:E'.
    + apply lookup_run_in in E'.
      destruct E' as (lo & hi & step & to & Hin & H1 & H2 & ->).
      unfold runs_no_space in Hr. rewrite forallb_forall in Hr.
      specialize (Hr _ Hin). cbv beta iota in Hr.
      intros [<-|[]]. apply (no_space_between_ok _ _ _ Hr); lia.
    + intros [<-|[]]. exact Hc.
Qed.

Lemma full_case_nonempty special runs c :
  special_no_space special = true -> full_case special runs c <> [].
Proof.
  intros Hs. unfold full_case.
  destruct (lookup_special special c) as [l|] eqn:E.
  - apply lookup_special_in in E.
    unfold special_no_space in Hs. rewrite forallb_forall in Hs.
    specialize (Hs _ E). cbn [snd] in Hs.
    destruct l; [discriminate Hs|discriminate].
  - destruct (lookup_run runs c); discriminate.
Qed.

Lemma upper_special_checked : special_no_space UPPER_SPECIAL = true.
Proof. vm_compute. reflexivity. Qed.

Lemma upper_runs_checked : runs_no_space UPPER_RUNS = true.
Proof. vm_compute. reflexivity. Qed.

Lemma lower_special_checked : special_no_space LOWER_SPECIAL = true.
Proof. vm_compute. reflexivity. Qed.

Lemma char_upper_nonspace c x :
  isspace c = false -> In x (char_upper c) -> isspace x = false.
Proof.
  apply full_case_nonspace;
    [apply upper_special_checked|apply upper_runs_checked].
Qed.

Lemma char_upper_nonempty c : char_upper c <> [].
Proof. apply full_case_nonempty, upper_special_checked. Qed.

Lemma char_lower_nonempty c : char_lower c <> [].
Proof. apply full_case_nonempty, lower_special_checked. Qed.

(** Only the empty string has an empty lower-case form. *)
Lemma str_lower_nil s : str_lower s = [] <-> s = [].
Proof.
  split; [|intros ->; reflexivity].
  unfold str_lower. destruct s as [|c s]; [reflexivity|].
  cbn [lower_from]. intros H. apply app_eq_nil in H. destruct H as [H _].
  destruct (c =? 931)%N; [discriminate|].
  destruct (char_lower_nonempty c H).
Qed.

(* ================================================================== *)
(** * Dictionaries *)
(* ================================================================== *)

Section DictFacts.
Context {V : Type}.
Implicit Types (d : dict V) (k : pystr) (v : V).

Lemma dict_mem_in k d : dict_mem k d = true <-> In k (keys d).
Proof. apply existsb_str_eqb. Qed.

Lemma dict_mem_get k d : dict_mem k d = true <-> exists v, dict_get k d = Some v.
Proof.
  unfold dict_mem. induction d as [|[k' v'] d IH]; simpl.
  - split; [discriminate|intros [v H]; discriminate].
  - destruct (str_eqb k k'); simpl; [|exact IH].
    split; eauto.
Qed.

Lemma dict_get_none k d : dict_mem k d = false <-> dict_get k d = None.
Proof.
  pose proof (dict_mem_get k d) as H.
  destruct (dict_mem k d), (dict_get k d) as [v|]; split; try congruence.
  - intros _. destruct (proj1 H eq_refl); discriminate.
  - intros _. assert (false = true) by (apply (proj2 H); eauto). discriminate.
Qed.

Lemma dict_mem_set k' k v d :
  dict_mem k' (dict_set k v d) = str_eqb k' k || dict_mem k' d.
Proof.
  unfold dict_mem. induction d as [|[k0 v0] d IH]; simpl.
  - reflexivity.
  - destruct (str_eqb k k0) eqn:E; simpl.
    + apply str_eqb_eq in E; subst k0.
      destruct (str_eqb k' k); reflexivity.
    + rewrite IH. destruct (str_eqb k' k), (str_eqb k' k0); reflexivity.
Qed.

Lemma dict_get_set_eq k v d : dict_get k (dict_set k v d) = Some v.
Proof.
  induction d as [|[k0 v0] d IH]; simpl.
  - rewrite str_eqb_refl; reflexivity.
  - destruct (str_eqb k k0) eqn:E; simpl.
    + rewrite str_eqb_refl; reflexivity.
    + rewrite E; exact IH.
Qed.

Lemma dict_get_set_ne k' k v d :
  k' <> k -> dict_get k' (dict_set k v d) = dict_get k' d.
Proof.
  intros N. apply str_eqb_neq in N.
  induction d as [|[k0 v0] d IH]; simpl.
  - rewrite N; reflexivity.
  - destruct (str_eqb k k0) eqn:E; simpl.
    + apply str_eqb_eq in E; subst k0. rewrite N; reflexivity.
    + rewrite IH; reflexivity.
Qed.

(** Storing the value a key already has changes nothing. *)
Lemma dict_set_same k v d : dict_get k d = Some v -> dict_set k v d = d.
Proof.
  induction d as [|[k0 v0] d IH]; simpl; [discriminate|].
  destruct (str_eqb k k0) eqn:E.
  - apply str_eqb_eq in E; subst k0. intros [= ->]; reflexivity.
  - intros H; rewrite (IH H); reflexivity.
Qed.

Lemma keys_dict_set k v d :
  dict_mem k d = true -> keys (dict_set k v d) = keys d.
Proof.
  unfold dict_mem. induction d as [|[k0 v0] d IH]; simpl; [discriminate|].
  destruct (str_eqb k k0) eqn:E; simpl.
  - apply str_eqb_eq in E; subst; reflexivity.
  - intros H; rewrite (IH H); reflexivity.
Qed.

Lemma dict_mem_del k' k d :
  dict_mem k' (dict_del k d) = negb (str_eqb k' k) && dict_mem k' d.
Proof.
  unfold dict_mem, dict_del. induction d as [|[k0 v0] d IH]; simpl.
  - rewrite andb_false_r; reflexivity.
  - destruct (str_eqb k k0) eqn:E; simpl.
    + apply str_eqb_eq in E; subst k0. rewrite IH.
      destruct (str_eqb k' k); reflexivity.
    + rewrite IH. destruct (str_eqb k' k) eqn:E'; simpl; [|reflexivity].
      apply str_eqb_eq in E'; subst k'. rewrite E; reflexivity.
Qed.

Lemma dict_get_del_eq k d : dict_get k (dict_del k d) = None.
Proof.
  apply dict_get_none. rewrite dict_mem_del, str_eqb_refl; reflexivity.
Qed.

Lemma dict_get_del_ne k' k d :
  k' <> k -> dict_get k' (dict_del k d) = dict_get k' d.
Proof.
  intros N. apply str_eqb_neq in N.
  unfold dict_del. induction d as [|[k0 v0] d IH]; simpl; [reflexivity|].
  destruct (str_eqb k k0) eqn:E; simpl.
  - apply str_eqb_eq in E; subst k0. rewrite N; exact IH.
  - rewrite IH; reflexivity.
Qed.

Lemma dict_del_absent k d : dict_mem k d = false -> dict_del k d = d.
Proof.
  unfold dict_mem, dict_del. induction d as [|[k0 v0] d IH]; simpl; [reflexivity|].
  rewrite orb_false_iff. intros [E H]. rewrite E; simpl.
  rewrite (IH H); reflexivity.
Qed.

(** Deleting a key of a well-formed dictionary removes one entry. *)
Lemma length_dict_del k d :
  dict_ok d -> dict_mem k d = true -> S (length (dict_del k d)) = length d.
Proof.
  unfold dict_ok. induction d as [|[k0 v0] d IH]; simpl; [discriminate|].
  intros ND. inversion ND as [|? ? Hnotin ND']; subst.
  unfold dict_mem; simpl.
  destruct (str_eqb k k0) eqn:E; simpl.
  - intros _. apply str_eqb_eq in E; subst k0.
    fold (dict_del k d). rewrite dict_del_absent; [reflexivity|].
    destruct (dict_mem k d) eqn:M; [|reflexivity].
    apply dict_mem_in in M; contradiction.
  - intros H. f_equal. apply IH; assumption.
Qed.

Lemma dict_ok_del k d : dict_ok d -> dict_ok (dict_del k d).
Proof.
  unfold dict_ok, dict_del. induction d as [|[k0 v0] d IH]; simpl; [auto|].
  intros ND. inversion ND as [|? ? Hnotin ND']; subst.
  destruct (str_eqb k k0); simpl; [auto|].
  constructor; [|auto].
  intros Hin. apply Hnotin.
  apply dict_mem_in. apply dict_mem_in in Hin.
  fold (dict_del k d) in Hin. rewrite dict_mem_del in Hin.
  apply andb_true_iff in Hin; tauto.
Qed.

Lemma first_key_mem k d : first_key d = Some k -> dict_mem k d = true.
Proof.
  destruct d as [|[k0 v0] d]; simpl; [discriminate|].
  intros [= ->]. unfold dict_mem; simpl. rewrite str_eqb_refl; reflexivity.
Qed.

Lemma first_key_none d : first_key d = None -> d = [].
Proof. destruct d as [|[k0 v0] d]; simpl; [reflexivity|discriminate]. Qed.

End DictFacts.

(* ================================================================== *)
(** * The primitive steps *)
(* ================================================================== *)

Arguments str : simpl never.

Lemma is_shopping_shopping : is_shopping (str "shopping") = true.
Proof. reflexivity. Qed.

Lemma is_shopping_todo : is_shopping (str "todo") = false.
Proof. reflexivity. Qed.

Lemma data_of_shopping s : data_of (str "shopping") s = shopping_data s.
Proof. reflexivity. Qed.

Lemma data_of_todo s : data_of (str "todo") s = todo_data s.
Proof. reflexivity. Qed.

Lemma set_data_eq mode d s : set_data mode d s = (put_data mode d s, Returns tt).
Proof. unfold set_data, put_data; destruct (is_shopping mode); reflexivity. Qed.

Lemma save_eq mode s : save mode s = (saved mode s, Returns tt).
Proof.
  unfold save, saved, data_of; destruct (is_shopping mode); reflexivity.
Qed.

Lemma data_of_put_data mode d s : data_of mode (put_data mode d s) = d.
Proof. unfold data_of, put_data; destruct (is_shopping mode); reflexivity. Qed.

Lemma other_data_put_data mode d s :
  other_data mode (put_data mode d s) = other_data mode s.
Proof. unfold other_data, put_data; destruct (is_shopping mode); reflexivity. Qed.

Lemma data_of_saved mode mode' s : data_of mode (saved mode' s) = data_of mode s.
Proof. reflexivity. Qed.

Lemma put_data_put_data mode d d' s :
  put_data mode d' (put_data mode d s) = put_data mode d' s.
Proof. unfold put_data; destruct (is_shopping mode); reflexivity. Qed.

Lemma get_current_list_id_eq mode s :
  _get_current_list_id mode s = (s, Returns (current_or_default (data_of mode s))).
Proof. reflexivity. Qed.

Lemma existsb_app_str (p : pystr -> bool) (l1 l2 : list pystr) :
  existsb p (l1 ++ l2) = existsb p l1 || existsb p l2.
Proof. apply existsb_app. Qed.

(** [learn_suggestion] never raises; it takes the name in or does
    nothing. *)
Lemma learn_suggestion_eq SUGGESTIONS item_name s :
  learn_suggestion SUGGESTIONS item_name s =
  (if is_new_suggestion SUGGESTIONS (user_suggestions_data s) item_name
   then learned item_name s else s, Returns tt).
Proof.
  unfold learn_suggestion, is_new_suggestion, learned.
  rewrite existsb_app_str.
  destruct item_name as [|c [|c' n]]; simpl; try reflexivity.
  destruct (existsb _ SUGGESTIONS); simpl; [reflexivity|].
  unfold bind, gets; simpl.
  destruct (existsb _ (user_suggestions_data s)); reflexivity.
Qed.

Lemma learned_data mode item_name s :
  data_of mode (learned item_name s) = data_of mode s.
Proof. reflexivity. Qed.

(** What [learn_suggestion] leaves alone. *)
Lemma learn_suggestion_data SUGGESTIONS item_name s :
  todo_data (fst (learn_suggestion SUGGESTIONS item_name s)) = todo_data s
  /\ shopping_data (fst (learn_suggestion SUGGESTIONS item_name s))
     = shopping_data s.
Proof.
  rewrite learn_suggestion_eq.
  destruct (is_new_suggestion _ _ _); split; reflexivity.
Qed.

Lemma bind_eq {A B} (m : M A) (k : A -> M B) s :
  bind m k s = match m s with
               | (s', Returns a) => k a s'
               | (s', Raises e) => (s', Raises e)
               end.
Proof. reflexivity. Qed.

Lemma ret_eq {A} (a : A) s : ret a s = (s, Returns a).
Proof. reflexivity. Qed.

Lemma raise_eq {A} e s : @raise A e s = (s, Raises e).
Proof. reflexivity. Qed.

Lemma gets_eq {A} (f : DataManager -> A) s : gets f s = (s, Returns (f s)).
Proof. reflexivity. Qed.

Lemma modify_eq f s : modify f s = (f s, Returns tt).
Proof. reflexivity. Qed.

Lemma subscript_eq {A} k (o : option A) s :
  subscript k o s = match o with
                    | Some a => (s, Returns a)
                    | None => (s, Raises (KeyError k))
                    end.
Proof. destruct o; reflexivity. Qed.

Lemma save_todo_eq s : save_todo s = (saved (str "todo") s, Returns tt).
Proof. reflexivity. Qed.

Lemma save_shopping_eq s : save_shopping s = (saved (str "shopping") s, Returns tt).
Proof. reflexivity. Qed.

Lemma get_items_eq d current_id s :
  get_items d current_id s =
  match lists d with
  | None => (s, Raises (KeyError (str "lists")))
  | Some ls =>
      match dict_get current_id ls with
      | None => (s, Raises (KeyError current_id))
      | Some l => (s, Returns (items l))
      end
  end.
Proof.
  unfold get_items. rewrite bind_eq, subscript_eq.
  destruct (lists d) as [ls|]; [|reflexivity].
  rewrite bind_eq, subscript_eq.
  destruct (dict_get current_id ls); reflexivity.
Qed.

Lemma set_items_eq d current_id v s :
  set_items d current_id v s =
  match lists d with
  | None => (s, Raises (KeyError (str "lists")))
  | Some ls =>
      match dict_get current_id ls with
      | None => (s, Raises (KeyError current_id))
      | Some l =>
          (s, Returns (with_lists
                         (Some (dict_set current_id (with_items v l) ls)) d))
      end
  end.
Proof.
  unfold set_items. rewrite bind_eq, subscript_eq.
  destruct (lists d) as [ls|]; [|reflexivity].
  rewrite bind_eq, subscript_eq.
  destruct (dict_get current_id ls); reflexivity.
Qed.

(** Runs the steps of a method body on the state it is applied to; [tac]
    rewrites with what is known of the lookups on the way. *)
Ltac mexec_using tac :=
  repeat first
    [ rewrite bind_eq
    | rewrite ret_eq
    | rewrite raise_eq
    | rewrite gets_eq
    | rewrite modify_eq
    | rewrite subscript_eq
    | rewrite set_data_eq
    | rewrite save_eq
    | rewrite save_todo_eq
    | rewrite save_shopping_eq
    | rewrite get_current_list_id_eq
    | rewrite get_items_eq
    | rewrite set_items_eq
    | progress tac
    | progress cbv beta iota
    | progress cbn [fst snd] ].

Ltac mexec := mexec_using idtac.

(* ================================================================== *)
(** * [add_task], in one equation *)
(* ================================================================== *)

(** What [add_task] does, for either collection: the name is trimmed and
    normalized, learned in shopping mode, looked up in the current list up
    to case and appended when it is not there. *)
Lemma add_task_eq SUGGESTIONS task_name priority is_completed mode s :
  add_task SUGGESTIONS task_name priority is_completed mode s =
  match str_strip task_name with
  | [] => (s, Returns None)
  | _ :: _ =>
    let clean_name :=
      normalize (sorted (set_of (SUGGESTIONS ++ user_suggestions_data s)))
                (str_strip task_name) in
    let s1 := if is_shopping mode
              then fst (learn_suggestion SUGGESTIONS clean_name s) else s in
    let d := data_of mode s in
    match lists d with
    | None => (s1, Raises (KeyError (str "lists")))
    | Some ls =>
      match dict_get (current_or_default d) ls with
      | None => (s1, Raises (KeyError (current_or_default d)))
      | Some l =>
        if existsb (fun item => same_lower (name item) clean_name) (items l)
        then (s1, Returns None)
        else
          let new_task := {| name := clean_name; priority := priority;
                             is_completed := is_completed |} in
          (saved mode
             (put_data mode
                (with_lists
                   (Some (dict_set (current_or_default d)
                            (with_items (items l ++ [new_task]) l) ls)) d) s1),
           Returns (Some new_task))
      end
    end
  end.
Proof.
  unfold add_task.
  destruct (str_strip task_name) as [|c n] eqn:Hn; [reflexivity|].
  rewrite bind_eq. unfold get_all_suggestions at 1.
  rewrite bind_eq, gets_eq, ret_eq. cbv beta iota zeta.
  set (clean_name := normalize _ _).
  unfold get_current_shopping_list_id, get_current_todo_list_id.
  unfold saved, put_data, data_of.
  destruct (is_shopping mode) eqn:Hm.
  - rewrite bind_eq, learn_suggestion_eq. cbn [fst].
    set (s1 := if is_new_suggestion _ _ _ then _ else _).
    assert (Hd : shopping_data s1 = shopping_data s).
    { unfold s1. destruct (is_new_suggestion _ _ _); reflexivity. }
    destruct (lists (shopping_data s)) as [ls|] eqn:Hls;
      [|mexec_using ltac:(rewrite ?data_of_shopping, ?Hd, ?Hls); reflexivity].
    destruct (dict_get (current_or_default (shopping_data s)) ls) as [l|] eqn:Hl;
      [|mexec_using ltac:(rewrite ?data_of_shopping, ?Hd, ?Hls, ?Hl); reflexivity].
    mexec_using ltac:(rewrite ?data_of_shopping, ?Hd, ?Hls, ?Hl).
    destruct (existsb _ (items l));
      mexec_using ltac:(rewrite ?data_of_shopping, ?Hd, ?Hls, ?Hl);
      reflexivity.
  - rewrite bind_eq, ret_eq. cbv beta iota.
    destruct (lists (todo_data s)) as [ls|] eqn:Hls;
      [|mexec_using ltac:(rewrite ?data_of_todo, ?Hls); reflexivity].
    destruct (dict_get (current_or_default (todo_data s)) ls) as [l|] eqn:Hl;
      [|mexec_using ltac:(rewrite ?data_of_todo, ?Hls, ?Hl); reflexivity].
    mexec_using ltac:(rewrite ?data_of_todo, ?Hls, ?Hl).
    destruct (existsb _ (items l));
      mexec_using ltac:(rewrite ?data_of_todo, ?Hls, ?Hl);
      reflexivity.
Qed.

(* ================================================================== *)
(** * The other methods, each in one equation *)
(* ================================================================== *)

Ltac by_mode mode s :=
  unfold update_current_items, saved, put_data, data_of,
    get_current_shopping_list_id, get_current_todo_list_id;
  let Hm := fresh "Hm" in
  let Hls := fresh "Hls" in
  let Hl := fresh "Hl" in
  destruct (is_shopping mode) eqn:Hm;
  [ destruct (lists (shopping_data s)) as [?ls|] eqn:Hls;
    [ match type of Hls with _ = Some ?ls =>
        destruct (dict_get (current_or_default (shopping_data s)) ls)
          as [?l|] eqn:Hl end | ]
  | destruct (lists (todo_data s)) as [?ls|] eqn:Hls;
    [ match type of Hls with _ = Some ?ls =>
        destruct (dict_get (current_or_default (todo_data s)) ls)
          as [?l|] eqn:Hl end | ] ];
  mexec_using ltac:(rewrite ?data_of_shopping, ?data_of_todo, ?Hls, ?Hl);
  unfold saved, put_data, data_of; rewrite ?Hm;
  try reflexivity.

Lemma update_task_status_eq task_name is_completed mode s :
  update_task_status task_name is_completed mode s =
  update_current_items (set_first_completed task_name is_completed) mode s.
Proof. unfold update_task_status. by_mode mode s. Qed.

Lemma delete_task_eq task_name mode s :
  delete_task task_name mode s =
  update_current_items
    (filter (fun t => negb (str_eqb (name t) task_name))) mode s.
Proof. unfold delete_task. by_mode mode s. Qed.

Lemma clear_tasks_eq mode s :
  clear_tasks mode s = update_current_items (fun _ => []) mode s.
Proof. unfold clear_tasks. by_mode mode s. Qed.

Lemma clear_completed_tasks_eq mode s :
  clear_completed_tasks mode s =
  match lists (data_of mode s) with
  | Some ls =>
      if dict_mem (current_or_default (data_of mode s)) ls
      then update_current_items
             (filter (fun t => negb (is_completed t))) mode s
      else (s, Returns tt)
  | None => (s, Raises (KeyError (str "lists")))
  end.
Proof.
  unfold clear_completed_tasks. by_mode mode s.
  - rewrite (proj2 (dict_mem_get _ _) (ex_intro _ _ Hl)).
    mexec_using ltac:(rewrite ?Hls, ?Hl).
    unfold saved, put_data, data_of; rewrite ?Hm; reflexivity.
  - rewrite (proj2 (dict_get_none _ _) Hl). reflexivity.
  - rewrite (proj2 (dict_mem_get _ _) (ex_intro _ _ Hl)).
    mexec_using ltac:(rewrite ?Hls, ?Hl).
    unfold saved, put_data, data_of; rewrite ?Hm; reflexivity.
  - rewrite (proj2 (dict_get_none _ _) Hl). reflexivity.
Qed.

Lemma clear_shopping_cart_eq s :
  clear_shopping_cart s = clear_completed_tasks (str "shopping") s.
Proof.
  rewrite clear_completed_tasks_eq.
  unfold clear_shopping_cart, update_current_items, get_current_shopping_list_id.
  rewrite !data_of_shopping.
  destruct (lists (shopping_data s)) as [ls|] eqn:Hls;
    [|mexec_using ltac:(rewrite ?data_of_shopping, ?Hls); reflexivity].
  destruct (dict_get (current_or_default (shopping_data s)) ls) as [l|] eqn:Hl.
  - rewrite (proj2 (dict_mem_get _ _) (ex_intro _ _ Hl)).
    mexec_using ltac:(rewrite ?data_of_shopping, ?Hls, ?Hl).
    rewrite (proj2 (dict_mem_get _ _) (ex_intro _ _ Hl)).
    mexec_using ltac:(rewrite ?data_of_shopping, ?Hls, ?Hl). reflexivity.
  - rewrite (proj2 (dict_get_none _ _) Hl).
    mexec_using ltac:(rewrite ?data_of_shopping, ?Hls, ?Hl).
    rewrite (proj2 (dict_get_none _ _) Hl). reflexivity.
Qed.

Lemma set_current_list_id_eq list_id mode s :
  _set_current_list_id list_id mode s =
  (if dict_mem list_id (lists_or_empty (data_of mode s))
   then saved mode
          (put_data mode
             (with_current_list_id (Some list_id) (data_of mode s)) s)
   else s, Returns tt).
Proof.
  unfold _set_current_list_id, lists_or_empty. mexec.
  destruct (lists (data_of mode s)) as [ls|]; [|reflexivity].
  destruct (dict_mem list_id ls); mexec; reflexivity.
Qed.

Lemma rename_list_eq list_id new_name mode s :
  _rename_list list_id new_name mode s =
  (match dict_get list_id (lists_or_empty (data_of mode s)) with
   | Some l =>
       saved mode
         (put_data mode
            (with_lists
               (Some (dict_set list_id (with_name new_name l)
                        (lists_or_empty (data_of mode s))))
               (data_of mode s)) s)
   | None => s
   end, Returns tt).
Proof.
  unfold _rename_list, lists_or_empty. mexec.
  destruct (lists (data_of mode s)) as [ls|]; [|reflexivity].
  destruct (dict_get list_id ls) as [l|] eqn:Hl.
  - rewrite (proj2 (dict_mem_get _ _) (ex_intro _ _ Hl)).
    mexec_using ltac:(rewrite ?Hl). reflexivity.
  - rewrite (proj2 (dict_get_none _ _) Hl). reflexivity.
Qed.

Lemma create_list_eq new_id name mode s :
  _create_list new_id name mode s =
  (saved mode
     (saved mode
        (put_data mode
           (with_current_list_id (Some new_id)
              (with_lists
                 (Some (dict_set new_id {| list_name := name; items := [] |}
                          (lists_or_empty (data_of mode s))))
                 (data_of mode s))) s)),
   Returns new_id).
Proof.
  unfold _create_list. mexec.
  rewrite set_current_list_id_eq, data_of_put_data.
  unfold lists_or_empty at 1. cbn [lists with_lists].
  rewrite dict_mem_set, str_eqb_refl. cbn [orb].
  mexec. rewrite put_data_put_data. reflexivity.
Qed.

Lemma delete_list_eq list_id mode s :
  _delete_list list_id mode s =
  let d := data_of mode s in
  if str_eqb list_id (str "default") then (s, Returns false)
  else if length (lists_or_empty d) <=? 1 then (s, Returns false)
  else if dict_mem list_id (lists_or_empty d) then
    let d' := with_lists (Some (dict_del list_id (lists_or_empty d))) d in
    match current_list_id d with
    | Some c =>
        if str_eqb c list_id then
          match first_key (dict_del list_id (lists_or_empty d)) with
          | Some k =>
              (saved mode
                 (put_data mode (with_current_list_id (Some k) d') s),
               Returns true)
          | None => (put_data mode d' s, Raises StopIteration)
          end
        else (saved mode (put_data mode d' s), Returns true)
    | None => (saved mode (put_data mode d' s), Returns true)
    end
  else (s, Returns false).
Proof.
  unfold _delete_list. cbv zeta.
  destruct (str_eqb list_id (str "default")); [reflexivity|].
  mexec.
  destruct (length (lists_or_empty (data_of mode s)) <=? 1); [reflexivity|].
  unfold lists_or_empty.
  destruct (lists (data_of mode s)) as [ls|]; [|reflexivity].
  destruct (dict_mem list_id ls); [|reflexivity].
  mexec.
  destruct (current_list_id (data_of mode s)) as [c|]; [|mexec; reflexivity].
  destruct (str_eqb c list_id); [|mexec; reflexivity].
  destruct (first_key (dict_del list_id ls)); mexec;
    rewrite ?put_data_put_data; reflexivity.
Qed.

Lemma update_setting_eq key value s :
  update_setting key value s =
  match settings (todo_data s) with
  | Some st =>
      (saved (str "todo")
         (with_todo_data
            (with_settings (Some (dict_set key value st)) (todo_data s)) s),
       Returns tt)
  | None => (s, Raises (KeyError (str "settings")))
  end.
Proof.
  unfold update_setting. mexec.
  destruct (settings (todo_data s)); mexec; reflexivity.
Qed.

(* ================================================================== *)
(** * Validation no-ops *)
(* ================================================================== *)

(** C9.  An [add_task] whose name is empty once trimmed returns [None] and
    leaves the whole state as it was, the log of writes included; and no
    expected condition raises: selecting, renaming or deleting a list id
    that is not in [lists], deleting ["default"], and deleting when one list
    or none is left all return their sentinel on an unchanged state. *)
Theorem validation_noops_return_sentinels SUGGESTIONS mode s :
  (forall task_name priority is_completed,
      str_strip task_name = [] ->
      add_task SUGGESTIONS task_name priority is_completed mode s
      = (s, Returns None))
  /\ (forall list_id new_name,
         dict_mem list_id (lists_or_empty (data_of mode s)) = false ->
         _set_current_list_id list_id mode s = (s, Returns tt)
         /\ _rename_list list_id new_name mode s = (s, Returns tt)
         /\ _delete_list list_id mode s = (s, Returns false))
  /\ _delete_list (str "default") mode s = (s, Returns false)
  /\ (forall list_id,
         length (lists_or_empty (data_of mode s)) <= 1 ->
         _delete_list list_id mode s = (s, Returns false)).
Proof.
  split; [|split; [|split]].
  - intros task_name priority is_completed H.
    rewrite add_task_eq, H. reflexivity.
  - intros list_id new_name H. split; [|split].
    + rewrite set_current_list_id_eq, H. reflexivity.
    + rewrite rename_list_eq.
      rewrite (proj1 (dict_get_none _ _) H). reflexivity.
    + rewrite delete_list_eq. cbv zeta. rewrite H.
      destruct (str_eqb list_id (str "default")); [reflexivity|].
      destruct (length _ <=? 1); reflexivity.
  - rewrite delete_list_eq. reflexivity.
  - intros list_id H. rewrite delete_list_eq. cbv zeta.
    destruct (str_eqb list_id (str "default")); [reflexivity|].
    rewrite (proj2 (Nat.leb_le _ _) H). reflexivity.
Qed.

Lemma validation_noops_witness :
  add_task [] (str "   ") (str "medium") false (str "shopping") fresh_store
  = (fresh_store, Returns None)
  /\ _set_current_list_id (str "nolist") (str "shopping") fresh_store
     = (fresh_store, Returns tt)
  /\ _rename_list (str "nolist") (str "New") (str "shopping") fresh_store
     = (fresh_store, Returns tt)
  /\ _delete_list (str "nolist") (str "shopping") fresh_store
     = (fresh_store, Returns false)
  /\ _delete_list (str "default") (str "shopping") fresh_store
     = (fresh_store, Returns false).
Proof.
  destruct (validation_noops_return_sentinels [] (str "shopping") fresh_store)
    as (H1 & H2 & H3 & H4).
  split; [apply H1; reflexivity|].
  destruct (H2 (str "nolist") (str "New") eq_refl) as (H5 & H6 & H7).
  split; [exact H5|]. split; [exact H6|].
  split; [apply H4; vm_compute; lia|exact H3].
Defined.

(* ================================================================== *)
(** * Deleting a list *)
(* ================================================================== *)

(** C2.  [_delete_list] returns [False] on an unchanged state for
    ["default"] and when the collection has one list or none; for another
    id that is a key of [lists], with two lists or more, it returns [True]
    and [lists] has lost that entry and no other. *)
Theorem delete_list_guarded mode s list_id :
  (list_id = str "default"
   \/ length (lists_or_empty (data_of mode s)) <= 1 ->
   _delete_list list_id mode s = (s, Returns false))
  /\ (forall ls,
         list_id <> str "default" ->
         lists (data_of mode s) = Some ls ->
         dict_ok ls ->
         dict_mem list_id ls = true ->
         2 <= length ls ->
         exists s',
           _delete_list list_id mode s = (s', Returns true)
           /\ lists (data_of mode s') = Some (dict_del list_id ls)
           /\ dict_get list_id (dict_del list_id ls) = None
           /\ (forall k, k <> list_id ->
                 dict_get k (dict_del list_id ls) = dict_get k ls)
           /\ S (length (dict_del list_id ls)) = length ls).
Proof.
  split.
  - rewrite delete_list_eq. cbv zeta. intros [->|H]; [reflexivity|].
    destruct (str_eqb list_id (str "default")); [reflexivity|].
    rewrite (proj2 (Nat.leb_le _ _) H). reflexivity.
  - intros ls Hne Hls Hok Hmem Hlen.
    pose proof (length_dict_del list_id ls Hok Hmem) as Hdel.
    rewrite delete_list_eq. cbv zeta.
    rewrite (proj2 (str_eqb_neq _ _) Hne).
    unfold lists_or_empty. rewrite Hls, Hmem.
    destruct (length ls <=? 1) eqn:E; [apply Nat.leb_le in E; lia|].
    assert (Hrest : forall s' : DataManager,
      lists (data_of mode s') = Some (dict_del list_id ls) ->
      lists (data_of mode s') = Some (dict_del list_id ls)
      /\ dict_get list_id (dict_del list_id ls) = None
      /\ (forall k, k <> list_id ->
            dict_get k (dict_del list_id ls) = dict_get k ls)
      /\ S (length (dict_del list_id ls)) = length ls).
    { intros s' H. repeat split; auto using dict_get_del_eq, dict_get_del_ne. }
    destruct (current_list_id (data_of mode s)) as [c|].
    + destruct (str_eqb c list_id).
      * destruct (first_key (dict_del list_id ls)) as [k|] eqn:Hk.
        -- eexists; split; [reflexivity|]. apply Hrest.
           rewrite data_of_saved, data_of_put_data. reflexivity.
        -- apply first_key_none in Hk. rewrite Hk in Hdel. simpl in Hdel. lia.
      * eexists; split; [reflexivity|]. apply Hrest.
        rewrite data_of_saved, data_of_put_data. reflexivity.
    + eexists; split; [reflexivity|]. apply Hrest.
      rewrite data_of_saved, data_of_put_data. reflexivity.
Qed.

Lemma delete_list_guarded_witness :
  _delete_list (str "default") (str "todo") two_lists_store
  = (two_lists_store, Returns false)
  /\ _delete_list (str "default") (str "shopping") fresh_store
     = (fresh_store, Returns false)
  /\ exists s',
       _delete_list (str "ab12cd34") (str "todo") two_lists_store
       = (s', Returns true)
       /\ lists (todo_data s')
          = Some [(str "default",
                   {| list_name := str "Allgemein"; items := [] |})].
Proof.
  split; [|split].
  - apply (proj1 (delete_list_guarded (str "todo") two_lists_store
                    (str "default"))).
    left; reflexivity.
  - apply (proj1 (delete_list_guarded (str "shopping") fresh_store
                    (str "default"))).
    right; vm_compute; lia.
  - destruct (proj2 (delete_list_guarded (str "todo") two_lists_store
                       (str "ab12cd34"))
                _ ltac:(discriminate) eq_refl
                ltac:(repeat constructor; simpl; intuition discriminate)
                eq_refl ltac:(simpl; lia))
      as (s' & H1 & H2 & _).
    exists s'. split; [exact H1|exact H2].
Defined.

(* ================================================================== *)
(** * Completing a task *)
(* ================================================================== *)

Lemma with_items_same l : with_items (items l) l = l.
Proof. destruct l; reflexivity. Qed.

Lemma with_lists_same d ls : lists d = Some ls -> with_lists (Some ls) d = d.
Proof. destruct d; simpl; intros ->; reflexivity. Qed.

Lemma set_first_completed_found task_name v pre t post :
  name t = task_name ->
  (forall x, In x pre -> name x <> task_name) ->
  set_first_completed task_name v (pre ++ t :: post)
  = pre ++ with_is_completed v t :: post.
Proof.
  intros Ht Hpre. induction pre as [|x pre IH]; simpl.
  - rewrite (proj2 (str_eqb_eq _ _) Ht). reflexivity.
  - rewrite (proj2 (str_eqb_neq _ _) (Hpre x (or_introl eq_refl))).
    rewrite IH; [reflexivity|]. intros y Hy; apply Hpre; right; exact Hy.
Qed.

Lemma set_first_completed_absent task_name v l :
  (forall x, In x l -> name x <> task_name) ->
  set_first_completed task_name v l = l.
Proof.
  intros H. induction l as [|x l IH]; simpl; [reflexivity|].
  rewrite (proj2 (str_eqb_neq _ _) (H x (or_introl eq_refl))).
  rewrite IH; [reflexivity|]. intros y Hy; apply H; right; exact Hy.
Qed.

Lemma current_items_with_lists d ls l v :
  dict_get (current_or_default d) ls = Some l ->
  current_items
    (with_lists (Some (dict_set (current_or_default d) (with_items v l) ls)) d)
  = Some v.
Proof.
  intros _. unfold current_items. cbn [lists with_lists].
  change (current_or_default (with_lists _ d)) with (current_or_default d).
  rewrite dict_get_set_eq. reflexivity.
Qed.

(** C8.  On a collection whose current list exists,
    [update_task_status] returns, having set the flag of the first task
    whose name is exactly [task_name] and of no other; when no task has
    that name the collection is as before; either way one write of the
    collection is made. *)
Theorem update_task_status_first_match task_name flag mode s ls l :
  lists (data_of mode s) = Some ls ->
  dict_get (current_or_default (data_of mode s)) ls = Some l ->
  exists s',
    update_task_status task_name flag mode s = (s', Returns tt)
    /\ current_items (data_of mode s')
       = Some (set_first_completed task_name flag (items l))
    /\ (forall pre t post,
           items l = pre ++ t :: post ->
           name t = task_name ->
           (forall x, In x pre -> name x <> task_name) ->
           current_items (data_of mode s')
           = Some (pre ++ with_is_completed flag t :: post))
    /\ ((forall x, In x (items l) -> name x <> task_name) ->
        data_of mode s' = data_of mode s)
    /\ (forall k, k <> current_or_default (data_of mode s) ->
          dict_get k (lists_or_empty (data_of mode s')) = dict_get k ls)
    /\ client_storage s'
       = (if is_shopping mode then SHOPPING_KEY else TODO_KEY,
          StoredData (data_of mode s')) :: client_storage s.
Proof.
  intros Hls Hl.
  rewrite update_task_status_eq. unfold update_current_items.
  rewrite Hls, Hl.
  eexists; split; [reflexivity|].
  rewrite data_of_saved, data_of_put_data.
  split; [apply current_items_with_lists; exact Hl|].
  split; [|split; [|split]].
  - intros pre t post Hitems Ht Hpre.
    rewrite current_items_with_lists by exact Hl.
    rewrite Hitems, set_first_completed_found by assumption. reflexivity.
  - intros Habsent.
    rewrite set_first_completed_absent by assumption.
    rewrite with_items_same, dict_set_same by exact Hl.
    apply with_lists_same; exact Hls.
  - intros k Hk. unfold lists_or_empty. cbn [lists with_lists].
    apply dict_get_set_ne; exact Hk.
  - unfold saved. cbn [client_storage with_client_storage].
    rewrite data_of_put_data.
    unfold put_data; destruct (is_shopping mode); reflexivity.
Qed.

Lemma update_task_status_witness :
  exists s',
    update_task_status (str "Mail") true (str "todo") two_lists_store
    = (s', Returns tt)
    /\ current_items (todo_data s')
       = Some [ {| name := str "Call"; priority := str "low";
                   is_completed := false |};
                {| name := str "Mail"; priority := str "low";
                   is_completed := true |};
                {| name := str "Mail"; priority := str "urgent";
                   is_completed := false |} ].
Proof.
  destruct (update_task_status_first_match (str "Mail") true (str "todo")
              two_lists_store _ _ eq_refl eq_refl)
    as (s' & H1 & H2 & _).
  exists s'. split; [exact H1|exact H2].
Defined.

(* ================================================================== *)
(** * The invariant of the collections *)
(* ================================================================== *)

Lemma data_inv_set_list d ls k v :
  lists d = Some ls -> data_inv d ->
  data_inv (with_lists (Some (dict_set k v ls)) d).
Proof.
  intros Hls (ls' & Hls' & Hdef & Hcur).
  rewrite Hls in Hls'; injection Hls' as <-.
  exists (dict_set k v ls). split; [reflexivity|].
  change (current_or_default (with_lists _ d)) with (current_or_default d).
  rewrite !dict_mem_set, Hdef, Hcur, !orb_true_r. auto.
Qed.

Lemma data_inv_set_current d k :
  data_inv d -> dict_mem k (lists_or_empty d) = true ->
  data_inv (with_current_list_id (Some k) d).
Proof.
  intros (ls & Hls & Hdef & Hcur) Hk.
  unfold lists_or_empty in Hk. rewrite Hls in Hk.
  exists ls. auto.
Qed.

Lemma store_inv_put mode d s :
  store_inv s -> data_inv d -> store_inv (put_data mode d s).
Proof.
  intros [Ht Hs] Hd. unfold put_data.
  destruct (is_shopping mode); split; assumption.
Qed.

Lemma store_inv_saved mode s : store_inv s -> store_inv (saved mode s).
Proof. intros H; exact H. Qed.

Lemma store_inv_data_of mode s : store_inv s -> data_inv (data_of mode s).
Proof. intros [Ht Hs]. unfold data_of. destruct (is_shopping mode); assumption. Qed.

Lemma store_inv_learn SUGGESTIONS item_name s :
  store_inv s -> store_inv (fst (learn_suggestion SUGGESTIONS item_name s)).
Proof.
  intros H. rewrite learn_suggestion_eq.
  destruct (is_new_suggestion _ _ _); exact H.
Qed.

Lemma update_current_items_inv f mode s :
  store_inv s -> store_inv (fst (update_current_items f mode s)).
Proof.
  intros H. unfold update_current_items.
  destruct (lists (data_of mode s)) as [ls|] eqn:Hls; [|exact H].
  destruct (dict_get _ ls) as [l|]; [|exact H].
  cbn [fst]. apply store_inv_saved, store_inv_put; [exact H|].
  apply data_inv_set_list; [exact Hls|]. apply store_inv_data_of, H.
Qed.

Lemma fst_forget {A} (m : M A) s : fst (forget m s) = fst (m s).
Proof.
  unfold forget. rewrite bind_eq. destruct (m s) as [s' [a|e]]; reflexivity.
Qed.

Lemma get_tasks_state mode s : fst (get_tasks mode s) = s.
Proof.
  unfold get_tasks, get_current_shopping_list_id, get_current_todo_list_id.
  destruct (is_shopping mode); mexec;
    match goal with |- context [lists ?d] => destruct (lists d) end;
    reflexivity.
Qed.

Lemma get_list_as_text_state mode s : fst (get_list_as_text mode s) = s.
Proof.
  unfold get_list_as_text, get_current_shopping_list_id,
    get_current_todo_list_id.
  destruct (is_shopping mode); mexec;
    (match goal with |- context [lists ?d] => destruct (lists d) end;
     [|reflexivity]);
    (match goal with |- context [dict_get ?k ?d] => destruct (dict_get k d) end;
     reflexivity).
Qed.

Lemma get_settings_state s : fst (get_settings s) = s.
Proof.
  unfold get_settings. mexec. destruct (settings (todo_data s)); reflexivity.
Qed.

Lemma add_task_inv SUGGESTIONS task_name priority is_completed mode s :
  store_inv s ->
  store_inv (fst (add_task SUGGESTIONS task_name priority is_completed mode s)).
Proof.
  intros H. rewrite add_task_eq.
  destruct (str_strip task_name) as [|c n]; [exact H|]. cbv zeta.
  set (clean_name := normalize _ _).
  assert (H1 : store_inv
            (if is_shopping mode
             then fst (learn_suggestion SUGGESTIONS clean_name s) else s)).
  { destruct (is_shopping mode); [apply store_inv_learn|]; exact H. }
  destruct (lists (data_of mode s)) as [ls|] eqn:Hls; [|exact H1].
  destruct (dict_get _ ls) as [l|]; [|exact H1].
  destruct (existsb _ (items l)); [exact H1|].
  cbn [fst]. apply store_inv_saved, store_inv_put; [exact H1|].
  apply data_inv_set_list; [exact Hls|]. apply store_inv_data_of, H.
Qed.

Lemma delete_list_inv list_id mode s :
  store_inv s -> store_inv (fst (_delete_list list_id mode s)).
Proof.
  intros H. rewrite delete_list_eq. cbv zeta.
  destruct (str_eqb list_id (str "default")) eqn:Hne; [exact H|].
  destruct (length _ <=? 1); [exact H|].
  destruct (dict_mem list_id _) eqn:Hmem; [|exact H].
  destruct (store_inv_data_of mode s H) as (ls & Hls & Hdef & Hcur).
  unfold lists_or_empty in *. rewrite Hls in *.
  assert (Hdef' : dict_mem (str "default") (dict_del list_id ls) = true).
  { rewrite dict_mem_del, Hdef, str_eqb_sym, Hne. reflexivity. }
  assert (Hkeep : current_or_default (data_of mode s) <> list_id ->
    data_inv (with_lists (Some (dict_del list_id ls)) (data_of mode s))).
  { intros Hc. exists (dict_del list_id ls). split; [reflexivity|].
    split; [exact Hdef'|].
    change (current_or_default (with_lists _ ?d)) with (current_or_default d).
    rewrite dict_mem_del, Hcur, (proj2 (str_eqb_neq _ _) Hc). reflexivity. }
  unfold current_or_default in Hkeep.
  destruct (current_list_id (data_of mode s)) as [c|] eqn:Hc.
  - destruct (str_eqb c list_id) eqn:Hcl.
    + destruct (first_key (dict_del list_id ls)) as [k|] eqn:Hk.
      * cbn [fst]. apply store_inv_saved, store_inv_put; [exact H|].
        exists (dict_del list_id ls). split; [reflexivity|].
        split; [exact Hdef'|]. apply first_key_mem, Hk.
      * apply first_key_none in Hk. rewrite Hk in Hdef'. discriminate.
    + cbn [fst]. apply store_inv_saved, store_inv_put; [exact H|].
      apply Hkeep. apply str_eqb_neq, Hcl.
  - cbn [fst]. apply store_inv_saved, store_inv_put; [exact H|].
    apply Hkeep. apply str_eqb_neq. rewrite str_eqb_sym. exact Hne.
Qed.

Lemma run_inv SUGGESTIONS op s :
  store_inv s -> store_inv (fst (run SUGGESTIONS op s)).
Proof.
  intros H. pose proof (store_inv_data_of) as Hd.
  destruct op; cbn [run]; rewrite ?fst_forget.
  - (* CreateList *)
    rewrite create_list_eq. cbn [fst].
    apply store_inv_saved, store_inv_saved, store_inv_put; [exact H|].
    destruct (Hd mode s H) as (ls & Hls & Hdef & Hcur).
    unfold lists_or_empty. rewrite Hls.
    eexists. split; [reflexivity|].
    cbn [current_or_default current_list_id with_current_list_id].
    rewrite !dict_mem_set, Hdef, str_eqb_refl, orb_true_r. auto.
  - (* SetCurrentListId *)
    rewrite set_current_list_id_eq. cbn [fst].
    destruct (dict_mem list_id _) eqn:Hmem; [|exact H].
    apply store_inv_saved, store_inv_put; [exact H|].
    apply data_inv_set_current; [apply Hd, H|exact Hmem].
  - (* RenameList *)
    rewrite rename_list_eq. cbn [fst].
    destruct (dict_get list_id _) as [l|]; [|exact H].
    apply store_inv_saved, store_inv_put; [exact H|].
    destruct (Hd mode s H) as (ls & Hls & Hdef & Hcur).
    unfold lists_or_empty. rewrite Hls.
    apply data_inv_set_list; [exact Hls|apply Hd, H].
  - apply delete_list_inv, H.
  - apply add_task_inv, H.
  - rewrite update_task_status_eq. apply update_current_items_inv, H.
  - rewrite delete_task_eq. apply update_current_items_inv, H.
  - rewrite clear_tasks_eq. apply update_current_items_inv, H.
  - rewrite clear_completed_tasks_eq.
    destruct (lists (data_of mode s)) as [ls|]; [|exact H].
    destruct (dict_mem _ ls); [apply update_current_items_inv|]; exact H.
  - rewrite clear_shopping_cart_eq, clear_completed_tasks_eq.
    destruct (lists (data_of (str "shopping") s)) as [ls|]; [|exact H].
    destruct (dict_mem _ ls); [apply update_current_items_inv|]; exact H.
  - apply store_inv_learn, H.
  - rewrite update_setting_eq.
    destruct (settings (todo_data s)) as [st|]; [|exact H].
    destruct H as [(ls & Hls & Hdef & Hcur) Hs].
    split; [|exact Hs]. exists ls. auto.
  - exact H.
  - exact H.
  - rewrite get_tasks_state. exact H.
  - rewrite get_list_as_text_state. exact H.
  - exact H.
  - rewrite get_settings_state. exact H.
Qed.

(** Under the invariant the current list of either collection exists, so
    the task methods do not raise a [KeyError] on it. *)
Lemma store_inv_current_items mode s :
  store_inv s -> exists its, current_items (data_of mode s) = Some its.
Proof.
  intros H. destruct (store_inv_data_of mode s H) as (ls & Hls & _ & Hcur).
  apply dict_mem_get in Hcur. destruct Hcur as [l Hl].
  exists (items l). unfold current_items. rewrite Hls, Hl. reflexivity.
Qed.

(** Every store a first run can reach satisfies the invariant. *)
Lemma reachable_inv SUGGESTIONS s : reachable SUGGESTIONS s -> store_inv s.
Proof.
  induction 1 as [|op s _ IH].
  - split; eexists; repeat split; reflexivity.
  - apply run_inv, IH.
Qed.

(** C1.  Every call on the store keeps the invariant of both collections,
    whether it returns or raises: the current list id is a key of [lists]
    and so is ["default"].  In particular, when [_delete_list] has removed
    the list that was current, the current list id it leaves is a key of
    what is left of [lists] (and is not the id removed). *)
Theorem operations_preserve_invariant SUGGESTIONS s :
  store_inv s ->
  (forall op, store_inv (fst (run SUGGESTIONS op s)))
  /\ (forall list_id mode s',
        current_or_default (data_of mode s) = list_id ->
        _delete_list list_id mode s = (s', Returns true) ->
        dict_mem (current_or_default (data_of mode s'))
                 (lists_or_empty (data_of mode s')) = true
        /\ dict_mem list_id (lists_or_empty (data_of mode s')) = false).
Proof.
  intros H. split; [intros op; apply run_inv, H|].
  intros list_id mode s' Hcur Hdel.
  pose proof (delete_list_inv list_id mode s H) as Hinv.
  rewrite Hdel in Hinv. cbn [fst] in Hinv.
  destruct (store_inv_data_of mode s' Hinv) as (ls' & Hls' & _ & Hcur').
  unfold lists_or_empty. rewrite Hls'. split; [exact Hcur'|].
  rewrite delete_list_eq in Hdel. cbv zeta in Hdel.
  destruct (str_eqb list_id (str "default")); [discriminate|].
  destruct (length _ <=? 1); [discriminate|].
  destruct (dict_mem list_id _); [|discriminate].
  assert (Hl : lists (data_of mode s')
               = Some (dict_del list_id (lists_or_empty (data_of mode s)))).
  { destruct (current_list_id (data_of mode s)) as [c|].
    - destruct (str_eqb c list_id).
      + destruct (first_key _); [|discriminate].
        injection Hdel as <-. rewrite data_of_saved, data_of_put_data.
        reflexivity.
      + injection Hdel as <-. rewrite data_of_saved, data_of_put_data.
        reflexivity.
    - injection Hdel as <-. rewrite data_of_saved, data_of_put_data.
      reflexivity. }
  rewrite Hl in Hls'. injection Hls' as <-.
  rewrite dict_mem_del, str_eqb_refl. reflexivity.
Qed.

Lemma operations_preserve_invariant_witness :
  store_inv two_lists_store
  /\ store_inv (fst (run [] (DeleteList (str "ab12cd34") (str "todo"))
                       two_lists_store))
  /\ dict_mem
       (current_or_default
          (todo_data (fst (_delete_list (str "ab12cd34") (str "todo")
                             two_lists_store))))
       (lists_or_empty
          (todo_data (fst (_delete_list (str "ab12cd34") (str "todo")
                             two_lists_store)))) = true.
Proof.
  assert (H : store_inv two_lists_store)
    by (split; eexists; repeat split; reflexivity).
  split; [exact H|].
  destruct (operations_preserve_invariant [] two_lists_store H) as [H1 H2].
  split; [apply H1|].
  apply (H2 (str "ab12cd34") (str "todo") _ eq_refl eq_refl).
Defined.

(* ================================================================== *)
(** * The two collections are independent *)
(* ================================================================== *)

Lemma untouched_refl mode s : untouched mode s s.
Proof. split; reflexivity. Qed.

Lemma untouched_saved_put mode d s s1 :
  untouched mode s s1 -> untouched mode s (saved mode (put_data mode d s1)).
Proof.
  intros [H1 H2]. split.
  - change (other_data mode (saved mode ?x)) with (other_data mode x).
    rewrite other_data_put_data. exact H1.
  - rewrite <- H2. unfold saved, put_data, other_key.
    destruct (is_shopping mode); reflexivity.
Qed.

Lemma untouched_saved mode s s1 :
  untouched mode s s1 -> untouched mode s (saved mode s1).
Proof.
  intros [H1 H2]. split; [exact H1|].
  rewrite <- H2. unfold saved, other_key.
  destruct (is_shopping mode); reflexivity.
Qed.

Lemma untouched_learn SUGGESTIONS mode item_name s :
  untouched mode s (fst (learn_suggestion SUGGESTIONS item_name s)).
Proof.
  rewrite learn_suggestion_eq. cbn [fst].
  destruct (is_new_suggestion _ _ _); [|apply untouched_refl].
  split; [reflexivity|].
  unfold learned, other_key. destruct (is_shopping mode); reflexivity.
Qed.

Lemma update_current_items_frame f mode s :
  untouched mode s (fst (update_current_items f mode s))
  /\ user_suggestions_data (fst (update_current_items f mode s))
     = user_suggestions_data s.
Proof.
  unfold update_current_items.
  destruct (lists (data_of mode s)) as [ls|];
    [|split; [apply untouched_refl|reflexivity]].
  destruct (dict_get _ ls) as [l|];
    [|split; [apply untouched_refl|reflexivity]].
  cbn [fst]. split; [apply untouched_saved_put, untouched_refl|].
  unfold saved, put_data. destruct (is_shopping mode); reflexivity.
Qed.

Lemma user_suggestions_saved_put mode d s :
  user_suggestions_data (saved mode (put_data mode d s))
  = user_suggestions_data s.
Proof. unfold saved, put_data. destruct (is_shopping mode); reflexivity. Qed.

Lemma add_task_frame SUGGESTIONS task_name priority is_completed mode s :
  untouched mode s
    (fst (add_task SUGGESTIONS task_name priority is_completed mode s))
  /\ (is_shopping mode = false ->
      user_suggestions_data
        (fst (add_task SUGGESTIONS task_name priority is_completed mode s))
      = user_suggestions_data s).
Proof.
  rewrite add_task_eq.
  destruct (str_strip task_name) as [|c n];
    [split; [apply untouched_refl|reflexivity]|].
  cbv zeta. set (clean_name := normalize _ _).
  set (s1 := if is_shopping mode then _ else s).
  assert (H1 : untouched mode s s1).
  { unfold s1. destruct (is_shopping mode);
      [apply untouched_learn|apply untouched_refl]. }
  assert (H2 : is_shopping mode = false ->
               user_suggestions_data s1 = user_suggestions_data s).
  { unfold s1. intros ->. reflexivity. }
  destruct (lists (data_of mode s)) as [ls|]; [|split; assumption].
  destruct (dict_get _ ls) as [l|]; [|split; assumption].
  destruct (existsb _ (items l)); [split; assumption|].
  cbn [fst]. split; [apply untouched_saved_put, H1|].
  rewrite user_suggestions_saved_put. exact H2.
Qed.

(** C10.  A list or task call made on one collection ([clear_shopping_cart]
    among them) leaves the other collection as it was, its settings
    included, in memory and in the client storage, whether it returns or
    raises; and of these calls only [add_task] in shopping mode can change
    the learned suggestions. *)
Theorem operations_frame SUGGESTIONS op mode s :
  op_mode op = Some mode ->
  untouched mode s (fst (run SUGGESTIONS op s))
  /\ (may_learn op = false ->
      user_suggestions_data (fst (run SUGGESTIONS op s))
      = user_suggestions_data s).
Proof.
  destruct op; cbn [op_mode run may_learn]; try discriminate;
    intros [= <-]; rewrite ?fst_forget.
  - rewrite create_list_eq. cbn [fst].
    split; [apply untouched_saved, untouched_saved_put, untouched_refl|].
    intros _. apply (user_suggestions_saved_put mode0).
  - rewrite set_current_list_id_eq. cbn [fst].
    destruct (dict_mem _ _); [|split; [apply untouched_refl|reflexivity]].
    split; [apply untouched_saved_put, untouched_refl|].
    intros _. apply user_suggestions_saved_put.
  - rewrite rename_list_eq. cbn [fst].
    destruct (dict_get _ _); [|split; [apply untouched_refl|reflexivity]].
    split; [apply untouched_saved_put, untouched_refl|].
    intros _. apply user_suggestions_saved_put.
  - rewrite delete_list_eq. cbv zeta.
    repeat match goal with
           | |- context [if ?b then _ else _] => destruct b
           | |- context [match ?o with Some _ => _ | None => _ end] =>
               destruct o
           end; cbn [fst];
      (split; [first [apply untouched_saved_put, untouched_refl
                     |apply untouched_refl
                     |split; [apply other_data_put_data
                             |unfold put_data; destruct (is_shopping mode0);
                              reflexivity]]
              |intros _;
               first [apply user_suggestions_saved_put
                     |reflexivity
                     |unfold put_data; destruct (is_shopping mode0);
                      reflexivity]]).
  - apply add_task_frame.
  - rewrite update_task_status_eq.
    split; [|intros _]; apply update_current_items_frame.
  - rewrite delete_task_eq.
    split; [|intros _]; apply update_current_items_frame.
  - rewrite clear_tasks_eq.
    split; [|intros _]; apply update_current_items_frame.
  - rewrite clear_completed_tasks_eq.
    destruct (lists (data_of mode0 s)) as [ls|];
      [|split; [apply untouched_refl|reflexivity]].
    destruct (dict_mem _ ls); [|split; [apply untouched_refl|reflexivity]].
    split; [|intros _]; apply update_current_items_frame.
  - rewrite clear_shopping_cart_eq, clear_completed_tasks_eq.
    destruct (lists (data_of (str "shopping") s)) as [ls|];
      [|split; [apply untouched_refl|reflexivity]].
    destruct (dict_mem _ ls); [|split; [apply untouched_refl|reflexivity]].
    split; [|intros _]; apply update_current_items_frame.
Qed.

Lemma operations_frame_witness :
  todo_data (fst (run [] (AddTask (str "Apples") (str "medium") false
                            (str "shopping")) fresh_store))
  = todo_data fresh_store
  /\ shopping_data (fst (run [] (DeleteList (str "ab12cd34") (str "todo"))
                           two_lists_store))
     = shopping_data two_lists_store
  /\ user_suggestions_data
       (fst (run [] (DeleteList (str "ab12cd34") (str "todo"))
               two_lists_store))
     = user_suggestions_data two_lists_store.
Proof.
  split; [|split].
  - apply (operations_frame []
             (AddTask (str "Apples") (str "medium") false (str "shopping"))
             (str "shopping") fresh_store eq_refl).
  - apply (operations_frame [] (DeleteList (str "ab12cd34") (str "todo"))
             (str "todo") two_lists_store eq_refl).
  - apply (operations_frame [] (DeleteList (str "ab12cd34") (str "todo"))
             (str "todo") two_lists_store eq_refl).
    reflexivity.
Defined.

(* ================================================================== *)
(** * The migrations of [__init__] *)
(* ================================================================== *)

Lemma migrate_shopping_structure_eq s :
  migrate_shopping_structure s =
  (match lists (shopping_data s) with
   | None => saved (str "shopping")
               (with_shopping_data (migrate_structure (shopping_data s)) s)
   | Some _ => s
   end, Returns tt).
Proof.
  unfold migrate_shopping_structure. mexec.
  destruct (lists (shopping_data s)); mexec; reflexivity.
Qed.

Lemma migrate_todo_structure_eq s :
  migrate_todo_structure s =
  (match lists (todo_data s) with
   | None => saved (str "todo")
               (with_todo_data (migrate_structure (todo_data s)) s)
   | Some _ => s
   end, Returns tt).
Proof.
  unfold migrate_todo_structure. mexec.
  destruct (lists (todo_data s)); mexec; reflexivity.
Qed.

Lemma normalize_shopping_name_eq s :
  normalize_shopping_name s =
  (match renamed keeps_shopping (shopping_data s) with
   | Some d => saved (str "shopping") (with_shopping_data d s)
   | None => s
   end, Returns tt).
Proof.
  unfold normalize_shopping_name, renamed, keeps_shopping. mexec.
  destruct (lists (shopping_data s)) as [ls|]; [|reflexivity].
  destruct (dict_get (str "default") ls) as [l|] eqn:Hl.
  - rewrite (proj2 (dict_mem_get _ _) (ex_intro _ _ Hl)).
    mexec_using ltac:(rewrite ?Hl).
    destruct (existsb _ LEGACY_SHOPPING_NAMES); mexec; reflexivity.
  - rewrite (proj2 (dict_get_none _ _) Hl). reflexivity.
Qed.

Lemma normalize_todo_name_eq s :
  normalize_todo_name s =
  (match renamed keeps_todo (todo_data s) with
   | Some d => saved (str "todo") (with_todo_data d s)
   | None => s
   end, Returns tt).
Proof.
  unfold normalize_todo_name, renamed, keeps_todo. mexec.
  destruct (lists (todo_data s)) as [ls|]; [|reflexivity].
  destruct (dict_get (str "default") ls) as [l|] eqn:Hl.
  - rewrite (proj2 (dict_mem_get _ _) (ex_intro _ _ Hl)).
    mexec_using ltac:(rewrite ?Hl).
    destruct (str_eqb (list_name l) (str "Allgemein")); mexec; reflexivity.
  - rewrite (proj2 (dict_get_none _ _) Hl). reflexivity.
Qed.

Lemma renamed_settled keeps d :
  settled keeps d -> renamed keeps d = None.
Proof.
  intros (ls & Hls & Hk). unfold renamed. rewrite Hls.
  destruct (dict_get (str "default") ls) as [l|] eqn:Hl; [|reflexivity].
  rewrite (Hk l eq_refl). reflexivity.
Qed.

(** After the structural migration, the normalization leaves a settled
    collection, provided the canonical name is one it keeps. *)
Lemma settled_after keeps d :
  keeps (str "Allgemein") = true ->
  lists d <> None ->
  settled keeps (match renamed keeps d with Some d' => d' | None => d end).
Proof.
  intros Hcanon Hls. unfold renamed.
  destruct (lists d) as [ls|] eqn:E; [|congruence].
  destruct (dict_get (str "default") ls) as [l|] eqn:Hl.
  - destruct (keeps (list_name l)) eqn:Hk.
    + exists ls. split; [exact E|]. intros l' Hl'.
      rewrite Hl in Hl'. injection Hl' as <-. exact Hk.
    + eexists. split; [reflexivity|]. intros l'.
      rewrite dict_get_set_eq. intros [= <-]. exact Hcanon.
  - exists ls. split; [exact E|]. intros l' Hl'. congruence.
Qed.

Lemma migrate_structure_lists d : lists (migrate_structure d) <> None.
Proof. discriminate. Qed.

Lemma migrations_settled s :
  settled keeps_shopping (shopping_data s) ->
  settled keeps_todo (todo_data s) ->
  migrations s = (s, Returns tt).
Proof.
  intros Hs Ht. unfold migrations.
  rewrite bind_eq, migrate_shopping_structure_eq.
  destruct Hs as (ls & Hls & Hk). rewrite Hls.
  rewrite bind_eq, migrate_todo_structure_eq.
  destruct Ht as (lt & Hlt & Hk'). rewrite Hlt.
  rewrite bind_eq, normalize_shopping_name_eq, renamed_settled
    by (exists ls; auto).
  rewrite normalize_todo_name_eq, renamed_settled by (exists lt; auto).
  reflexivity.
Qed.

Lemma migrations_twice s :
  exists s',
    migrations s = (s', Returns tt)
    /\ migrations s' = (s', Returns tt).
Proof.
  unfold migrations at 1.
  rewrite bind_eq, migrate_shopping_structure_eq.
  set (s1 := match lists (shopping_data s) with None => _ | Some _ => s end).
  rewrite bind_eq, migrate_todo_structure_eq.
  set (s2 := match lists (todo_data s1) with None => _ | Some _ => s1 end).
  rewrite bind_eq, normalize_shopping_name_eq.
  set (s3 := match renamed keeps_shopping (shopping_data s2) with
             | Some d => _ | None => s2 end).
  rewrite normalize_todo_name_eq.
  set (s4 := match renamed keeps_todo (todo_data s3) with
             | Some d => _ | None => s3 end).
  exists s4. split; [reflexivity|].
  assert (H1 : lists (shopping_data s2) <> None).
  { unfold s2, s1.
    destruct (lists (shopping_data s)) eqn:E1;
      destruct (lists (todo_data _)) eqn:E2; cbn; congruence. }
  assert (H2 : lists (todo_data s3) <> None).
  { unfold s3. 
    assert (lists (todo_data s2) <> None).
    { unfold s2. destruct (lists (todo_data s1)) eqn:E; cbn; congruence. }
    destruct (renamed keeps_shopping (shopping_data s2)); exact H. }
  assert (H3 : settled keeps_shopping (shopping_data s3)).
  { pose proof (settled_after keeps_shopping (shopping_data s2) eq_refl H1) as S.
    unfold s3. destruct (renamed keeps_shopping (shopping_data s2)); exact S. }
  apply migrations_settled.
  - unfold s4. destruct (renamed keeps_todo (todo_data s3)); exact H3.
  - pose proof (settled_after keeps_todo (todo_data s3) eq_refl H2) as S.
    unfold s4. destruct (renamed keeps_todo (todo_data s3)); exact S.
Qed.

Lemma key_todo_shopping : str_eqb TODO_KEY SHOPPING_KEY = false.
Proof. reflexivity. Qed.
Lemma key_todo_suggestions : str_eqb TODO_KEY SUGGESTIONS_KEY = false.
Proof. reflexivity. Qed.
Lemma key_shopping_todo : str_eqb SHOPPING_KEY TODO_KEY = false.
Proof. reflexivity. Qed.
Lemma key_shopping_suggestions : str_eqb SHOPPING_KEY SUGGESTIONS_KEY = false.
Proof. reflexivity. Qed.
Lemma key_suggestions_todo : str_eqb SUGGESTIONS_KEY TODO_KEY = false.
Proof. reflexivity. Qed.
Lemma key_suggestions_shopping : str_eqb SUGGESTIONS_KEY SHOPPING_KEY = false.
Proof. reflexivity. Qed.

Create Rewrite HintDb keys.
#[local] Hint Rewrite key_todo_shopping key_todo_suggestions key_shopping_todo
  key_shopping_suggestions key_suggestions_todo key_suggestions_shopping
  str_eqb_refl : keys.

Ltac storage_lookup :=
  unfold storage_get_data, storage_get_list in *;
  repeat (cbn [dict_get client_storage]; autorewrite with keys).

(** What [load] leaves in memory is what the client storage holds. *)
Lemma load_synced cs fs : synced (load cs fs).
Proof.
  unfold load, synced, storage_get_data, storage_get_list.
  destruct (dict_get TODO_KEY cs) as [[dt|lt]|] eqn:Et;
    destruct (dict_get SHOPPING_KEY cs) as [[ds|ls]|] eqn:Es;
    destruct (dict_get SUGGESTIONS_KEY cs) as [[du|lu]|] eqn:Eu;
    destruct (todo_file fs) as [ct|];
    destruct (shopping_file fs) as [csf|];
    repeat (cbn [dict_get client_storage todo_data shopping_data
                 user_suggestions_data];
            autorewrite with keys);
    rewrite ?Et, ?Es, ?Eu; auto.
Qed.

(** On a client storage that holds what the store has in memory, [load]
    gives that store back, whatever the legacy files. *)
Lemma load_again s fs : synced s -> load (client_storage s) fs = s.
Proof.
  intros (Ht & Hs & Hu). unfold load. rewrite Ht, Hs, Hu.
  destruct s; reflexivity.
Qed.

Lemma synced_saved_shopping d s :
  synced s -> synced (saved (str "shopping") (with_shopping_data d s)).
Proof.
  intros (Ht & Hs & Hu). unfold synced, saved in *.
  rewrite is_shopping_shopping, data_of_shopping. storage_lookup. auto.
Qed.

Lemma synced_saved_todo d s :
  synced s -> synced (saved (str "todo") (with_todo_data d s)).
Proof.
  intros (Ht & Hs & Hu). unfold synced, saved in *.
  rewrite is_shopping_todo, data_of_todo. storage_lookup. auto.
Qed.

Lemma migrations_synced s : synced s -> synced (fst (migrations s)).
Proof.
  intros H. unfold migrations.
  rewrite bind_eq, migrate_shopping_structure_eq.
  set (s1 := match lists (shopping_data s) with None => _ | Some _ => s end).
  assert (H1 : synced s1).
  { unfold s1. destruct (lists (shopping_data s));
      [exact H|apply synced_saved_shopping, H]. }
  rewrite bind_eq, migrate_todo_structure_eq.
  set (s2 := match lists (todo_data s1) with None => _ | Some _ => s1 end).
  assert (H2 : synced s2).
  { unfold s2. destruct (lists (todo_data s1));
      [exact H1|apply synced_saved_todo, H1]. }
  rewrite bind_eq, normalize_shopping_name_eq.
  set (s3 := match renamed keeps_shopping (shopping_data s2) with
             | Some d => _ | None => s2 end).
  assert (H3 : synced s3).
  { unfold s3. destruct (renamed keeps_shopping (shopping_data s2));
      [apply synced_saved_shopping, H2|exact H2]. }
  rewrite normalize_todo_name_eq. cbn [fst].
  destruct (renamed keeps_todo (todo_data s3));
    [apply synced_saved_todo, H3|exact H3].
Qed.

(** C7.  The structural migration and the name normalization always
    return, and a second run on the state they leave changes nothing: the
    same collections, and no further write.  The same holds of [__init__]
    as a whole: run again on the client storage the first run has left,
    whatever the legacy files then, it ends in the same state. *)
Theorem migrations_idempotent :
  (forall s, exists s',
      migrations s = (s', Returns tt)
      /\ migrations s' = (s', Returns tt))
  /\ (forall cs fs fs', exists s',
        __init__ cs fs = (s', Returns tt)
        /\ __init__ (client_storage s') fs' = (s', Returns tt)).
Proof.
  split; [exact migrations_twice|].
  intros cs fs fs'. unfold __init__.
  destruct (migrations_twice (load cs fs)) as (s' & H1 & H2).
  exists s'. split; [exact H1|].
  rewrite load_again; [exact H2|].
  pose proof (migrations_synced (load cs fs) (load_synced cs fs)) as S.
  rewrite H1 in S. exact S.
Qed.

(** The legacy shape, migrated: the flat array has become the items of
    the default list, under the canonical name. *)
Example migrations_legacy_example :
  shopping_data (fst (__init__ legacy_storage no_files))
  = {| settings := None;
       current_list_id := Some (str "default");
       lists := Some [(str "default",
                       {| list_name := str "Allgemein";
                          items := [ {| name := str "Brot";
                                        priority := str "medium";
                                        is_completed := false |} ] |})];
       tasks := None |}.
Proof. reflexivity. Qed.

(* ================================================================== *)
(** * The suggestion vocabulary *)
(* ================================================================== *)

Lemma in_all_suggestions SUGGESTIONS user x :
  In x (sorted (set_of (SUGGESTIONS ++ user))) <-> In x (SUGGESTIONS ++ user).
Proof. rewrite in_sorted, in_set_of. reflexivity. Qed.

Lemma all_suggestions_strict SUGGESTIONS user :
  StronglySorted str_lt (sorted (set_of (SUGGESTIONS ++ user))).
Proof.
  apply sorted_nodup_strict; [|apply sorted_ok].
  eapply Permutation_NoDup; [apply sorted_perm|apply set_of_nodup].
Qed.

(** When no two entries of the vocabulary are equal up to lowercasing,
    [learn_suggestion] keeps it so. *)
Lemma learn_suggestion_case_distinct SUGGESTIONS item_name s :
  case_distinct (SUGGESTIONS ++ user_suggestions_data s) ->
  case_distinct
    (SUGGESTIONS
     ++ user_suggestions_data (fst (learn_suggestion SUGGESTIONS item_name s))).
Proof.
  intros H. rewrite learn_suggestion_eq. cbn [fst].
  destruct (is_new_suggestion _ _ _) eqn:Hnew; [|exact H].
  unfold is_new_suggestion in Hnew.
  apply andb_true_iff in Hnew. destruct Hnew as [_ Hnone].
  apply negb_true_iff in Hnone.
  assert (Hold : forall e, In e (SUGGESTIONS ++ user_suggestions_data s) ->
                           same_lower e item_name = false).
  { intros e He. destruct (same_lower e item_name) eqn:E; [|reflexivity].
    rewrite <- Hnone. symmetry. apply existsb_exists. eauto. }
  assert (Hmem : forall e,
    In e (SUGGESTIONS
          ++ sorted (user_suggestions_data s ++ [item_name])) ->
    e = item_name \/ In e (SUGGESTIONS ++ user_suggestions_data s)).
  { intros e He. apply in_app_or in He. destruct He as [He|He].
    - right. apply in_or_app. left; exact He.
    - apply in_sorted, in_app_or in He. destruct He as [He|[<-|[]]].
      + right. apply in_or_app. right; exact He.
      + left; reflexivity. }
  unfold learned. cbn [user_suggestions_data with_client_storage
                       with_user_suggestions_data].
  intros a b Ha Hb Hab.
  destruct (Hmem a Ha) as [->|Ha']; destruct (Hmem b Hb) as [->|Hb'].
  - reflexivity.
  - rewrite same_lower_sym, (Hold b Hb') in Hab. discriminate.
  - rewrite (Hold a Ha') in Hab. discriminate.
  - apply H; assumption.
Qed.

Lemma user_suggestions_saved mode s :
  user_suggestions_data (saved mode s) = user_suggestions_data s.
Proof. reflexivity. Qed.

Lemma user_suggestions_put mode d s :
  user_suggestions_data (put_data mode d s) = user_suggestions_data s.
Proof. unfold put_data. destruct (is_shopping mode); reflexivity. Qed.

(** A call on the store leaves the learned list as it was or as
    [learn_suggestion] makes it. *)
Lemma run_user_suggestions SUGGESTIONS op s :
  user_suggestions_data (fst (run SUGGESTIONS op s)) = user_suggestions_data s
  \/ exists item_name,
       user_suggestions_data (fst (run SUGGESTIONS op s))
       = user_suggestions_data (fst (learn_suggestion SUGGESTIONS item_name s)).
Proof.
  destruct op; cbn [run]; rewrite ?fst_forget.
  - left. rewrite create_list_eq. cbn [fst].
    rewrite user_suggestions_saved. apply user_suggestions_saved_put.
  - left. rewrite set_current_list_id_eq. cbn [fst].
    destruct (dict_mem _ _); [apply user_suggestions_saved_put|reflexivity].
  - left. rewrite rename_list_eq. cbn [fst].
    destruct (dict_get list_id _); [apply user_suggestions_saved_put|reflexivity].
  - left. rewrite delete_list_eq. cbv zeta.
    destruct (str_eqb list_id (str "default")); [reflexivity|].
    destruct (length _ <=? 1); [reflexivity|].
    destruct (dict_mem list_id _); [|reflexivity].
    destruct (current_list_id (data_of mode s)) as [c|];
      [|apply user_suggestions_saved_put].
    destruct (str_eqb c list_id); [|apply user_suggestions_saved_put].
    destruct (first_key _); [apply user_suggestions_saved_put|].
    apply user_suggestions_put.
  - rewrite add_task_eq.
    destruct (str_strip task_name) as [|c n]; [left; reflexivity|]. cbv zeta.
    set (clean_name := normalize _ _).
    assert (H1 : user_suggestions_data
                   (if is_shopping mode
                    then fst (learn_suggestion SUGGESTIONS clean_name s)
                    else s) = user_suggestions_data s
                 \/ exists item_name,
                      user_suggestions_data
                        (if is_shopping mode
                         then fst (learn_suggestion SUGGESTIONS clean_name s)
                         else s)
                      = user_suggestions_data
                          (fst (learn_suggestion SUGGESTIONS item_name s))).
    { destruct (is_shopping mode); [right; eauto|left; reflexivity]. }
    destruct (lists (data_of mode s)) as [ls|]; [|exact H1].
    destruct (dict_get _ ls) as [l|]; [|exact H1].
    destruct (existsb _ (items l)); [exact H1|].
    cbn [fst]. rewrite user_suggestions_saved_put. exact H1.
  - left. rewrite update_task_status_eq. apply update_current_items_frame.
  - left. rewrite delete_task_eq. apply update_current_items_frame.
  - left. rewrite clear_tasks_eq. apply update_current_items_frame.
  - left. rewrite clear_completed_tasks_eq.
    destruct (lists (data_of mode s)) as [ls|]; [|reflexivity].
    destruct (dict_mem _ ls); [|reflexivity].
    apply update_current_items_frame.
  - left. rewrite clear_shopping_cart_eq, clear_completed_tasks_eq.
    destruct (lists (data_of (str "shopping") s)) as [ls|]; [|reflexivity].
    destruct (dict_mem _ ls); [|reflexivity].
    apply update_current_items_frame.
  - right. eauto.
  - left. rewrite update_setting_eq.
    destruct (settings (todo_data s)); reflexivity.
  - left; reflexivity.
  - left; reflexivity.
  - left. rewrite get_tasks_state. reflexivity.
  - left. rewrite get_list_as_text_state. reflexivity.
  - left; reflexivity.
  - left. rewrite get_settings_state. reflexivity.
Qed.

Lemma run_case_distinct SUGGESTIONS op s :
  case_distinct (SUGGESTIONS ++ user_suggestions_data s) ->
  case_distinct
    (SUGGESTIONS ++ user_suggestions_data (fst (run SUGGESTIONS op s))).
Proof.
  intros H. destruct (run_user_suggestions SUGGESTIONS op s) as [->|[n ->]];
    [exact H|apply learn_suggestion_case_distinct, H].
Qed.

(** The learned list is built against the static one: in every store a
    first run can reach, no two entries of the vocabulary are equal up to
    lowercasing, when the static list has no two such entries. *)
Lemma reachable_case_distinct SUGGESTIONS s :
  case_distinct SUGGESTIONS ->
  reachable SUGGESTIONS s ->
  case_distinct (SUGGESTIONS ++ user_suggestions_data s).
Proof.
  intros Hs Hr. induction Hr as [|op s Hr IH].
  - replace (user_suggestions_data (fst (__init__ [] no_files)))
      with (@nil pystr) by reflexivity.
    rewrite app_nil_r. exact Hs.
  - apply run_case_distinct, IH.
Qed.

(** C6.  In every store a first run can reach, with a static list that has
    no two entries equal up to lowercasing, [get_all_suggestions] returns
    the union of the static and the learned list in strictly ascending
    order, nothing else, and no two returned entries are equal up to
    lowercasing: every member of the union has exactly one case variant in
    the result, itself. *)
Theorem all_suggestions_case_insensitive_union SUGGESTIONS s :
  case_distinct SUGGESTIONS ->
  reachable SUGGESTIONS s ->
  exists r,
    get_all_suggestions SUGGESTIONS s = (s, Returns r)
    /\ StronglySorted str_lt r
    /\ (forall x, In x r <-> In x (SUGGESTIONS ++ user_suggestions_data s))
    /\ case_distinct r
    /\ (forall x,
          In x (SUGGESTIONS ++ user_suggestions_data s) ->
          In x r
          /\ forall y, In y r -> same_lower y x = true -> y = x).
Proof.
  intros Hs Hr.
  pose proof (reachable_case_distinct SUGGESTIONS s Hs Hr) as Hcd.
  eexists. split; [reflexivity|].
  split; [apply all_suggestions_strict|].
  split; [intros x; apply in_all_suggestions|].
  split.
  - intros a b Ha Hb. apply Hcd; apply in_all_suggestions; assumption.
  - intros x Hx. split; [apply in_all_suggestions, Hx|].
    intros y Hy. apply Hcd; [apply in_all_suggestions, Hy|exact Hx].
Qed.

Lemma all_suggestions_witness :
  exists s r,
    s = fst (run [str "Milch"; str "Brot"] (LearnSuggestion (str "MILCH"))
               (fst (run [str "Milch"; str "Brot"]
                       (AddTask (str "Apple") (str "medium") false
                          (str "shopping"))
                       (fst (__init__ [] no_files)))))
    /\ get_all_suggestions [str "Milch"; str "Brot"] s = (s, Returns r)
    /\ r = [str "Apple"; str "Brot"; str "Milch"]
    /\ case_distinct r.
Proof.
  eexists.
  destruct (all_suggestions_case_insensitive_union [str "Milch"; str "Brot"]
              (fst (run [str "Milch"; str "Brot"]
                      (LearnSuggestion (str "MILCH"))
                      (fst (run [str "Milch"; str "Brot"]
                              (AddTask (str "Apple") (str "medium") false
                                 (str "shopping"))
                              (fst (__init__ [] no_files)))))))
    as (r & H1 & _ & _ & H4 & _).
  - intros a b Ha Hb. simpl in Ha, Hb.
    destruct Ha as [<-|[<-|[]]]; destruct Hb as [<-|[<-|[]]];
      intros E; try reflexivity; vm_compute in E; discriminate E.
  - apply reachable_run, reachable_run, reachable_init.
  - exists r. split; [reflexivity|]. split; [exact H1|].
    split; [|exact H4].
    apply (f_equal snd) in H1. vm_compute in H1. injection H1 as <-.
    vm_compute. reflexivity.
Defined.

(* ================================================================== *)
(** * The casing [add_task] stores *)
(* ================================================================== *)

Lemma normalize_cases all_suggestions clean_name :
  (In (normalize all_suggestions clean_name) all_suggestions
   /\ same_lower (normalize all_suggestions clean_name) clean_name = true
   /\ find (fun e => same_lower e clean_name) all_suggestions
      = Some (normalize all_suggestions clean_name))
  \/ (normalize all_suggestions clean_name = clean_name
      /\ forall e, In e all_suggestions -> same_lower e clean_name = false).
Proof.
  unfold normalize.
  destruct (find _ all_suggestions) as [e|] eqn:F.
  - left. destruct (find_some _ _ F) as [Hin Hm]. auto.
  - right. split; [reflexivity|]. intros e He. exact (find_none _ _ F e He).
Qed.

(** Normalizing keeps the name up to case. *)
Lemma normalize_lower all_suggestions clean_name :
  str_lower (normalize all_suggestions clean_name) = str_lower clean_name.
Proof.
  destruct (normalize_cases all_suggestions clean_name) as [(_ & H & _)|[-> _]];
    [apply same_lower_iff, H|reflexivity].
Qed.

(** What [add_task] stores when it returns a task. *)
Lemma add_task_returns_item SUGGESTIONS task_name priority is_completed mode s t :
  snd (add_task SUGGESTIONS task_name priority is_completed mode s)
  = Returns (Some t) ->
  t = {| name := normalize
                   (sorted (set_of (SUGGESTIONS ++ user_suggestions_data s)))
                   (str_strip task_name);
         priority := priority; is_completed := is_completed |}
  /\ exists its,
       current_items (data_of mode s) = Some its
       /\ current_items
            (data_of mode
               (fst (add_task SUGGESTIONS task_name priority is_completed mode s)))
          = Some (its ++ [t]).
Proof.
  rewrite add_task_eq.
  destruct (str_strip task_name) as [|c n]; [discriminate|]. cbv zeta.
  unfold current_items.
  destruct (lists (data_of mode s)) as [ls|]; [|discriminate].
  destruct (dict_get _ ls) as [l|] eqn:Hl; [|discriminate].
  destruct (existsb _ (items l)); [discriminate|].
  cbn [fst snd]. intros [= <-]. split; [reflexivity|].
  exists (items l). split; [reflexivity|].
  rewrite data_of_saved, data_of_put_data.
  apply (current_items_with_lists (data_of mode s) ls l _ Hl).
Qed.





(* ================================================================== *)
(** * Learning in shopping mode *)
(* ================================================================== *)

(** A normalized name that is not in the vocabulary matches nothing of it
    up to case. *)
Lemma normalize_not_in SUGGESTIONS user clean_name :
  ~ In (normalize (sorted (set_of (SUGGESTIONS ++ user))) clean_name)
       (SUGGESTIONS ++ user) ->
  normalize (sorted (set_of (SUGGESTIONS ++ user))) clean_name = clean_name
  /\ existsb (fun e => same_lower e clean_name) (SUGGESTIONS ++ user) = false.
Proof.
  intros Hnot.
  destruct (normalize_cases (sorted (set_of (SUGGESTIONS ++ user))) clean_name)
    as [(Hin & _ & _)|[Heq Hnone]].
  - contradiction Hnot. apply in_all_suggestions, Hin.
  - split; [exact Heq|].
    destruct (existsb _ (SUGGESTIONS ++ user)) eqn:E; [|reflexivity].
    apply existsb_exists in E. destruct E as (e & He & Hm).
    rewrite (Hnone e) in Hm; [discriminate|]. apply in_all_suggestions, He.
Qed.

(** C5.  In shopping mode [add_task] learns the normalized name before it
    looks for a duplicate: when that name is not in the vocabulary and has
    two characters or more, the learned list has it afterwards (appended,
    then sorted) and is written to the client storage, whatever the add
    itself does; in particular when the current list has a duplicate up to
    case, the add returns [None], the shopping collection is as before, and
    the name has been learned all the same. *)
Theorem shopping_add_learns_first
  SUGGESTIONS task_name priority is_completed mode s :
  is_shopping mode = true ->
  str_strip task_name <> [] ->
  ~ In (normalize (sorted (set_of (SUGGESTIONS ++ user_suggestions_data s)))
                  (str_strip task_name))
       (SUGGESTIONS ++ user_suggestions_data s) ->
  2 <= length (normalize
                 (sorted (set_of (SUGGESTIONS ++ user_suggestions_data s)))
                 (str_strip task_name)) ->
  let clean_name :=
    normalize (sorted (set_of (SUGGESTIONS ++ user_suggestions_data s)))
              (str_strip task_name) in
  let r := add_task SUGGESTIONS task_name priority is_completed mode s in
  user_suggestions_data (fst r)
  = sorted (user_suggestions_data s ++ [clean_name])
  /\ In clean_name (user_suggestions_data (fst r))
  /\ storage_get_list SUGGESTIONS_KEY (client_storage (fst r))
     = Some (user_suggestions_data (fst r))
  /\ (forall its,
         current_items (shopping_data s) = Some its ->
         existsb (fun item => same_lower (name item) clean_name) its = true ->
         snd r = Returns None
         /\ shopping_data (fst r) = shopping_data s).
Proof.
  intros Hm Hne Hnot Hlen. cbv zeta.
  destruct (normalize_not_in _ _ _ Hnot) as [Hclean Hnomatch].
  set (clean_name := normalize _ _) in *.
  assert (Hnew : is_new_suggestion SUGGESTIONS (user_suggestions_data s)
                   clean_name = true).
  { unfold is_new_suggestion.
    rewrite (proj2 (Nat.leb_le _ _) Hlen).
    rewrite Hclean, Hnomatch. reflexivity. }
  rewrite add_task_eq.
  destruct (str_strip task_name) as [|c n] eqn:Hn; [congruence|]. cbv zeta.
  fold clean_name.
  rewrite Hm, learn_suggestion_eq, Hnew. cbn [fst].
  unfold data_of, current_items. rewrite Hm.
  assert (Hin : In clean_name (sorted (user_suggestions_data s ++ [clean_name]))).
  { apply in_sorted, in_or_app. right; left; reflexivity. }
  destruct (lists (shopping_data s)) as [ls|].
  2:{ cbn [fst snd]. split; [reflexivity|]. split; [exact Hin|].
      split; [reflexivity|]. intros its [=]. }
  destruct (dict_get _ ls) as [l|].
  2:{ cbn [fst snd]. split; [reflexivity|]. split; [exact Hin|].
      split; [reflexivity|]. intros its [=]. }
  destruct (existsb _ (items l)) eqn:Hdup.
  - cbn [fst snd]. split; [reflexivity|]. split; [exact Hin|].
    split; [reflexivity|]. intros its _ _. split; reflexivity.
  - cbn [fst snd]. unfold saved, put_data. rewrite Hm.
    split; [reflexivity|]. split; [exact Hin|]. split; [reflexivity|].
    intros its [= <-] Hd. rewrite Hd in Hdup. discriminate.
Qed.

Lemma shopping_add_learns_first_witness :
  user_suggestions_data
    (fst (add_task [] (str "quinoa") (str "medium") false (str "shopping")
            quinoa_store)) = [str "quinoa"]
  /\ snd (add_task [] (str "quinoa") (str "medium") false (str "shopping")
            quinoa_store) = Returns None.
Proof.
  destruct (shopping_add_learns_first [] (str "quinoa") (str "medium") false
              (str "shopping") quinoa_store eq_refl
              ltac:(discriminate) ltac:(intros []) ltac:(vm_compute; lia))
    as (H1 & _ & _ & H4).
  split; [exact H1|].
  apply (H4 _ eq_refl eq_refl).
Defined.

(* ================================================================== *)
(** * Trimming and upper case *)
(* ================================================================== *)

Lemma length_lstrip s : length (lstrip s) <= length s.
Proof.
  induction s as [|c s IH]; simpl; [lia|].
  destruct (isspace c); simpl; lia.
Qed.

Lemma lstrip_head c s : isspace c = false -> lstrip (c :: s) = c :: s.
Proof. simpl; intros ->; reflexivity. Qed.

Lemma lstrip_fixed c s : lstrip (c :: s) = c :: s -> isspace c = false.
Proof.
  simpl. destruct (isspace c); [|reflexivity].
  intros H. pose proof (length_lstrip s) as L.
  rewrite H in L. simpl in L. lia.
Qed.

Lemma length_strip s : length (str_strip s) <= length (lstrip s).
Proof.
  unfold str_strip. rewrite length_rev.
  etransitivity; [apply length_lstrip|]. rewrite length_rev. lia.
Qed.

(** A trimmed, non-empty string starts and ends with a character that is
    not white space, and conversely. *)
Lemma strip_fixed_ends s :
  str_strip s = s -> s <> [] ->
  (exists c r, s = c :: r /\ isspace c = false)
  /\ (exists c r, rev s = c :: r /\ isspace c = false).
Proof.
  intros Hs Hne. destruct s as [|c r]; [congruence|].
  assert (Hc : isspace c = false).
  { destruct (isspace c) eqn:E; [|reflexivity].
    pose proof (length_strip (c :: r)) as L. rewrite Hs in L.
    simpl in L. rewrite E in L. pose proof (length_lstrip r). lia. }
  split; [eauto|].
  unfold str_strip in Hs. rewrite (lstrip_head c r Hc) in Hs.
  apply (f_equal (@rev char)) in Hs. rewrite rev_involutive in Hs.
  destruct (rev (c :: r)) as [|c' r'] eqn:E.
  - apply (f_equal (@length char)) in E. rewrite length_rev in E. discriminate.
  - exists c', r'. split; [reflexivity|]. apply (lstrip_fixed _ _ Hs).
Qed.

Lemma strip_of_ends s c r c' r' :
  s = c :: r -> isspace c = false ->
  rev s = c' :: r' -> isspace c' = false ->
  str_strip s = s.
Proof.
  intros -> Hc Hr Hc'. unfold str_strip.
  rewrite (lstrip_head c r Hc), Hr, (lstrip_head c' r' Hc'), <- Hr.
  apply rev_involutive.
Qed.

(** Upper case keeps a trimmed string trimmed. *)
Lemma strip_upper s :
  str_strip s = s -> s <> [] ->
  str_strip (str_upper s) = str_upper s /\ str_upper s <> [].
Proof.
  intros Hs Hne.
  destruct (strip_fixed_ends s Hs Hne)
    as [(c & r & E & Hc) (c' & r' & E' & Hc')].
  assert (H1 : exists x xs, str_upper s = x :: xs /\ isspace x = false).
  { subst s. unfold str_upper. simpl.
    pose proof (char_upper_nonempty c) as Hn.
    pose proof (char_upper_nonspace c) as Hsp.
    destruct (char_upper c) as [|x xs]; [congruence|].
    exists x, (xs ++ flat_map char_upper r). split; [reflexivity|].
    apply Hsp; [exact Hc|left; reflexivity]. }
  assert (H2 : exists y ys, rev (str_upper s) = y :: ys /\ isspace y = false).
  { apply (f_equal (@rev char)) in E'. rewrite rev_involutive in E'.
    rewrite E'. simpl. unfold str_upper. rewrite flat_map_app. simpl.
    rewrite app_nil_r, rev_app_distr.
    pose proof (char_upper_nonempty c') as Hn.
    pose proof (char_upper_nonspace c') as Hsp.
    destruct (rev (char_upper c')) as [|y ys] eqn:Er.
    - apply (f_equal (@length char)) in Er. rewrite length_rev in Er.
      destruct (char_upper c'); [congruence|discriminate].
    - exists y, (ys ++ rev (flat_map char_upper (rev r'))).
      split; [reflexivity|]. apply Hsp; [exact Hc'|].
      apply in_rev. rewrite Er. left; reflexivity. }
  destruct H1 as (x & xs & Ex & Hx). destruct H2 as (y & ys & Ey & Hy).
  split; [exact (strip_of_ends _ x xs y ys Ex Hx Ey Hy)|].
  rewrite Ex; discriminate.
Qed.

(* ================================================================== *)
(** * Duplicates up to case *)
(* ================================================================== *)

Lemma current_items_some d its :
  current_items d = Some its ->
  exists ls l, lists d = Some ls
               /\ dict_get (current_or_default d) ls = Some l
               /\ items l = its.
Proof.
  unfold current_items.
  destruct (lists d) as [ls|]; [|discriminate].
  destruct (dict_get _ ls) as [l|] eqn:Hl; [|discriminate].
  intros [= <-]. exists ls, l. auto.
Qed.

Lemma data_of_learn SUGGESTIONS mode item_name s :
  data_of mode (fst (learn_suggestion SUGGESTIONS item_name s)) = data_of mode s.
Proof.
  rewrite learn_suggestion_eq. destruct (is_new_suggestion _ _ _); reflexivity.
Qed.

(** [add_task] returns [None] exactly when the current list has an item
    that matches the normalized name up to case, and then the collection
    is as before. *)
Lemma add_task_none_iff
  SUGGESTIONS task_name priority is_completed mode s its :
  current_items (data_of mode s) = Some its ->
  str_strip task_name <> [] ->
  (snd (add_task SUGGESTIONS task_name priority is_completed mode s)
   = Returns None
   <-> existsb (fun item =>
         same_lower (name item)
           (normalize (sorted (set_of (SUGGESTIONS ++ user_suggestions_data s)))
                      (str_strip task_name))) its = true)
  /\ (snd (add_task SUGGESTIONS task_name priority is_completed mode s)
      = Returns None ->
      data_of mode (fst (add_task SUGGESTIONS task_name priority is_completed
                           mode s)) = data_of mode s).
Proof.
  intros Hits Hne.
  destruct (current_items_some _ _ Hits) as (ls & l & Hls & Hl & <-).
  rewrite add_task_eq.
  destruct (str_strip task_name) as [|c n]; [congruence|]. cbv zeta.
  rewrite Hls, Hl.
  destruct (existsb _ (items l)); cbn [fst snd].
  - split; [split; reflexivity|]. intros _.
    destruct (is_shopping mode); [apply data_of_learn|reflexivity].
  - split; [split; discriminate|discriminate].
Qed.

(** After [add_task] on a collection whose current list exists, that list
    holds an item that matches the name up to case; it is the only item
    when the list was empty.  *)
Lemma add_task_leaves_match
  SUGGESTIONS task_name priority is_completed mode s its :
  current_items (data_of mode s) = Some its ->
  str_strip task_name <> [] ->
  exists its1,
    current_items
      (data_of mode
         (fst (add_task SUGGESTIONS task_name priority is_completed mode s)))
    = Some its1
    /\ existsb (fun item => same_lower (name item) (str_strip task_name)) its1
       = true
    /\ (its = [] ->
        exists t,
          snd (add_task SUGGESTIONS task_name priority is_completed mode s)
          = Returns (Some t)
          /\ its1 = [t]).
Proof.
  intros Hits Hne.
  destruct (current_items_some _ _ Hits) as (ls & l & Hls & Hl & <-).
  rewrite add_task_eq.
  destruct (str_strip task_name) as [|c n] eqn:Hn; [congruence|]. cbv zeta.
  set (clean_name := normalize _ _).
  assert (Hlow : str_lower clean_name = str_lower (c :: n))
    by apply normalize_lower.
  rewrite Hls, Hl.
  destruct (existsb _ (items l)) eqn:Hdup; cbn [fst snd].
  - exists (items l). split; [|split].
    + replace (data_of mode _) with (data_of mode s);
        [exact Hits|].
      destruct (is_shopping mode); [symmetry; apply data_of_learn|reflexivity].
    + rewrite <- (existsb_same_lower_congr name _ _ (items l) Hlow).
      exact Hdup.
    + intros E. rewrite E in Hdup. discriminate.
  - eexists. rewrite data_of_saved, data_of_put_data.
    split; [apply (current_items_with_lists (data_of mode s) ls l _ Hl)|].
    split.
    + rewrite existsb_app. cbn [existsb name].
      rewrite (proj2 (same_lower_iff _ _) Hlow). rewrite !orb_true_r.
      reflexivity.
    + intros ->. eexists. split; reflexivity.
Qed.

(** C3, as the code has it.  On a collection whose current list exists,
    for a trimmed, non-empty name whose upper-case form lowers to the same
    string as the name itself: after [add_task] of the name, [add_task] of
    its upper-case form returns [None] and leaves the collection as it
    is, so that a list that was empty holds exactly one item.  And for any
    name that is not empty once trimmed, an add returns [None], with the
    collection as before, exactly when an item of the current list matches
    the normalized name up to case. *)
Theorem add_twice_case_insensitive
  SUGGESTIONS n priority is_completed priority' is_completed' mode s its :
  str_strip n = n ->
  n <> [] ->
  str_lower (str_upper n) = str_lower n ->
  current_items (data_of mode s) = Some its ->
  (exists s1 r1 s2,
      add_task SUGGESTIONS n priority is_completed mode s = (s1, r1)
      /\ add_task SUGGESTIONS (str_upper n) priority' is_completed' mode s1
         = (s2, Returns None)
      /\ data_of mode s2 = data_of mode s1
      /\ (its = [] ->
          exists t, r1 = Returns (Some t)
                    /\ current_items (data_of mode s2) = Some [t]))
  /\ (forall other_name p c,
         str_strip other_name <> [] ->
         (snd (add_task SUGGESTIONS other_name p c mode s) = Returns None
          <-> existsb (fun item =>
                same_lower (name item)
                  (normalize
                     (sorted (set_of (SUGGESTIONS ++ user_suggestions_data s)))
                     (str_strip other_name))) its = true)
         /\ (snd (add_task SUGGESTIONS other_name p c mode s) = Returns None ->
             data_of mode (fst (add_task SUGGESTIONS other_name p c mode s))
             = data_of mode s)).
Proof.
  intros Htrim Hne Hcase Hits.
  split; [|intros other_name p c H; apply add_task_none_iff; assumption].
  destruct (strip_upper n Htrim Hne) as [Hup Hupne].
  assert (Hne' : str_strip n <> []) by (rewrite Htrim; exact Hne).
  destruct (add_task_leaves_match SUGGESTIONS n priority is_completed mode s
              its Hits Hne') as (its1 & Hits1 & Hmatch & Hone).
  destruct (add_task SUGGESTIONS n priority is_completed mode s)
    as [s1 r1] eqn:E1.
  cbn [fst snd] in Hits1, Hone.
  assert (Hne2 : str_strip (str_upper n) <> []) by (rewrite Hup; exact Hupne).
  destruct (add_task_none_iff SUGGESTIONS (str_upper n) priority'
              is_completed' mode s1 its1 Hits1 Hne2) as [Hiff Hsame].
  assert (Hnone : snd (add_task SUGGESTIONS (str_upper n) priority'
                         is_completed' mode s1) = Returns None).
  { apply Hiff.
    rewrite (existsb_same_lower_congr name _ (str_strip n) its1);
      [exact Hmatch|].
    rewrite normalize_lower, Hup, Htrim. exact Hcase. }
  specialize (Hsame Hnone).
  destruct (add_task SUGGESTIONS (str_upper n) priority' is_completed' mode s1)
    as [s2 r2] eqn:E2.
  cbn [fst snd] in Hnone, Hsame. subst r2.
  exists s1, r1, s2. split; [reflexivity|]. split; [exact E2|].
  split; [exact Hsame|].
  intros E. destruct (Hone E) as (t & Hr & ->).
  exists t. split; [exact Hr|]. rewrite Hsame. exact Hits1.
Qed.

Lemma add_twice_witness :
  exists s1 t s2,
    add_task [] (str "Banana") (str "medium") false (str "shopping") fresh_store
    = (s1, Returns (Some t))
    /\ add_task [] (str_upper (str "Banana")) (str "medium") false
         (str "shopping") s1 = (s2, Returns None)
    /\ current_items (shopping_data s2) = Some [t].
Proof.
  destruct (add_twice_case_insensitive [] (str "Banana") (str "medium") false
              (str "medium") false (str "shopping") fresh_store []
              eq_refl ltac:(discriminate) eq_refl eq_refl)
    as [(s1 & r1 & s2 & H1 & H2 & _ & H4) _].
  destruct (H4 eq_refl) as (t & -> & Ht).
  exists s1, t, s2. split; [exact H1|]. split; [exact H2|exact Ht].
Defined.

(** C3, as stated, fails: the upper-case form of the sharp s is "SS",
    which does not lower to the sharp s; the second add returns the task
    it has appended and the list holds both names. *)
Lemma sharp_s_added_twice :
  str_strip sharp_s = sharp_s
  /\ sharp_s <> []
  /\ str_upper sharp_s = str "SS"
  /\ snd (add_task [] (str_upper sharp_s) (str "medium") false (str "todo")
            (fst (add_task [] sharp_s (str "medium") false (str "todo")
                    fresh_store)))
     = Returns (Some {| name := str "SS"; priority := str "medium";
                        is_completed := false |})
  /\ current_items
       (todo_data
          (fst (add_task [] (str_upper sharp_s) (str "medium") false
                  (str "todo")
                  (fst (add_task [] sharp_s (str "medium") false (str "todo")
                          fresh_store)))))
     = Some [ {| name := sharp_s; priority := str "medium";
                 is_completed := false |};
              {| name := str "SS"; priority := str "medium";
                 is_completed := false |} ].
Proof.
  split; [reflexivity|]. split; [discriminate|]. split; [reflexivity|].
  split; vm_compute; reflexivity.
Qed.

(* ================================================================== *)
(** * The tests of the repository, on the model *)
(* ================================================================== *)

(** [tests/test_data_manager.py], with an empty static vocabulary. *)

Example test_add_todo_task :
  add_task [] (str "Buy Milk") (str "urgent") false (str "todo") fresh_store
  = (after (add_task [] (str "Buy Milk") (str "urgent") false (str "todo"))
       fresh_store,
     Returns (Some {| name := str "Buy Milk"; priority := str "urgent";
                      is_completed := false |}))
  /\ current_items
       (todo_data
          (after (add_task [] (str "Buy Milk") (str "urgent") false (str "todo"))
             fresh_store))
     = Some [ {| name := str "Buy Milk"; priority := str "urgent";
                 is_completed := false |} ].
Proof. split; reflexivity. Qed.

Example test_complete_task :
  current_items
    (todo_data
       (after (update_task_status (str "Run Test") true (str "todo"))
          (after (add_task [] (str "Run Test") (str "medium") false (str "todo"))
             fresh_store)))
  = Some [ {| name := str "Run Test"; priority := str "medium";
              is_completed := true |} ].
Proof. reflexivity. Qed.

Example test_clear_completed_tasks_todo :
  current_items
    (todo_data
       (after (clear_completed_tasks (str "todo"))
          (after (add_task [] (str "Task 3") (str "medium") true (str "todo"))
             (after (add_task [] (str "Task 2") (str "medium") false (str "todo"))
                (after (add_task [] (str "Task 1") (str "medium") true
                          (str "todo"))
                   fresh_store)))))
  = Some [ {| name := str "Task 2"; priority := str "medium";
              is_completed := false |} ].
Proof. reflexivity. Qed.

Example test_duplicate_prevention_shopping :
  snd (add_task [] (str "banana") (str "medium") false (str "shopping")
         (after (add_task [] (str "Banana") (str "medium") false
                   (str "shopping"))
            fresh_store))
  = Returns None
  /\ current_items
       (shopping_data
          (after (add_task [] (str "banana") (str "medium") false
                    (str "shopping"))
             (after (add_task [] (str "Banana") (str "medium") false
                       (str "shopping"))
                fresh_store)))
     = Some [ {| name := str "Banana"; priority := str "medium";
                 is_completed := false |} ].
Proof. split; reflexivity. Qed.

(* ================================================================== *)
(** * Write-through persistence *)
(* ================================================================== *)

Lemma synced_saved_put mode d s :
  synced s -> synced (saved mode (put_data mode d s)).
Proof.
  intros H. unfold put_data.
  destruct (is_shopping mode) eqn:Hm.
  - replace mode with (str "shopping") by (symmetry; apply str_eqb_eq, Hm).
    apply synced_saved_shopping, H.
  - pose proof (synced_saved_todo d s H) as S.
    destruct S as (St & Ss & Su). destruct H as (Ht & Hs & Hu).
    unfold synced, saved, data_of in *. rewrite Hm.
    rewrite is_shopping_todo in *. auto.
Qed.

Lemma synced_put_same mode s :
  put_data mode (data_of mode s) s = s.
Proof.
  unfold put_data, data_of. destruct (is_shopping mode); destruct s; reflexivity.
Qed.

Lemma synced_saved mode s : synced s -> synced (saved mode s).
Proof.
  intros H. rewrite <- (synced_put_same mode s) at 1.
  apply synced_saved_put, H.
Qed.

Lemma synced_learn SUGGESTIONS item_name s :
  synced s -> synced (fst (learn_suggestion SUGGESTIONS item_name s)).
Proof.
  intros H. rewrite learn_suggestion_eq. cbn [fst].
  destruct (is_new_suggestion _ _ _); [|exact H].
  destruct H as (Ht & Hs & Hu). unfold synced, learned. storage_lookup. auto.
Qed.

Lemma update_current_items_synced f mode s :
  synced s -> synced (fst (update_current_items f mode s)).
Proof.
  intros H. unfold update_current_items.
  destruct (lists (data_of mode s)) as [ls|]; [|exact H].
  destruct (dict_get _ ls) as [l|]; [|exact H].
  apply synced_saved_put, H.
Qed.

Lemma run_synced SUGGESTIONS op s :
  store_inv s -> synced s -> synced (fst (run SUGGESTIONS op s)).
Proof.
  intros Hinv H.
  destruct op; cbn [run]; rewrite ?fst_forget.
  - rewrite create_list_eq. apply synced_saved, synced_saved_put, H.
  - rewrite set_current_list_id_eq. cbn [fst].
    destruct (dict_mem _ _); [apply synced_saved_put, H|exact H].
  - rewrite rename_list_eq. cbn [fst].
    destruct (dict_get _ _); [apply synced_saved_put, H|exact H].
  - rewrite delete_list_eq. cbv zeta.
    destruct (str_eqb list_id (str "default")) eqn:Hne; [exact H|].
    destruct (length _ <=? 1); [exact H|].
    destruct (dict_mem list_id _) eqn:Hmem; [|exact H].
    destruct (current_list_id (data_of mode s)) as [c|];
      [|apply synced_saved_put, H].
    destruct (str_eqb c list_id); [|apply synced_saved_put, H].
    destruct (first_key _) as [k|] eqn:Hk; [apply synced_saved_put, H|].
    exfalso. apply first_key_none in Hk.
    destruct (store_inv_data_of mode s Hinv) as (ls & Hls & Hdef & _).
    unfold lists_or_empty in Hk. rewrite Hls in Hk.
    assert (Hd : dict_mem (str "default") (dict_del list_id ls) = true).
    { rewrite dict_mem_del, Hdef, str_eqb_sym, Hne. reflexivity. }
    rewrite Hk in Hd. discriminate.
  - rewrite add_task_eq.
    destruct (str_strip task_name) as [|c n]; [exact H|]. cbv zeta.
    set (clean_name := normalize _ _).
    assert (H1 : synced (if is_shopping mode
                         then fst (learn_suggestion SUGGESTIONS clean_name s)
                         else s)).
    { destruct (is_shopping mode); [apply synced_learn|]; exact H. }
    destruct (lists (data_of mode s)) as [ls|]; [|exact H1].
    destruct (dict_get _ ls) as [l|]; [|exact H1].
    destruct (existsb _ (items l)); [exact H1|].
    apply synced_saved_put, H1.
  - rewrite update_task_status_eq. apply update_current_items_synced, H.
  - rewrite delete_task_eq. apply update_current_items_synced, H.
  - rewrite clear_tasks_eq. apply update_current_items_synced, H.
  - rewrite clear_completed_tasks_eq.
    destruct (lists (data_of mode s)) as [ls|]; [|exact H].
    destruct (dict_mem _ ls); [apply update_current_items_synced|]; exact H.
  - rewrite clear_shopping_cart_eq, clear_completed_tasks_eq.
    destruct (lists (data_of (str "shopping") s)) as [ls|]; [|exact H].
    destruct (dict_mem _ ls); [apply update_current_items_synced|]; exact H.
  - apply synced_learn, H.
  - rewrite update_setting_eq.
    destruct (settings (todo_data s)) as [st|]; [|exact H].
    apply (synced_saved_todo _ s H).
  - exact H.
  - exact H.
  - rewrite get_tasks_state. exact H.
  - rewrite get_list_as_text_state. exact H.
  - exact H.
  - rewrite get_settings_state. exact H.
Qed.

(** X1.  Write-through persistence.  [__init__] leaves a client storage
    that holds exactly what the store has in memory (both collections and
    the learned list), on any client storage and any legacy files; and on a
    store that satisfies the invariant of the collections every call keeps
    it so, whether it returns or raises: no mutation stays unsaved. *)
Theorem storage_follows_memory SUGGESTIONS :
  (forall cs fs, synced (fst (__init__ cs fs)))
  /\ (forall op s,
         store_inv s -> synced s -> synced (fst (run SUGGESTIONS op s)))
  /\ (forall s, reachable SUGGESTIONS s -> synced s).
Proof.
  split; [|split].
  - intros cs fs. unfold __init__. apply migrations_synced, load_synced.
  - intros op s. apply run_synced.
  - induction 1 as [|op s Hr IH].
    + unfold __init__. apply migrations_synced, load_synced.
    + apply run_synced; [apply (reachable_inv SUGGESTIONS), Hr|exact IH].
Qed.

Lemma storage_follows_memory_witness :
  storage_get_data SHOPPING_KEY
    (client_storage
       (fst (run [] (AddTask (str "Brot") (str "medium") false (str "shopping"))
               (fst (__init__ [] no_files)))))
  = Some (shopping_data
            (fst (run [] (AddTask (str "Brot") (str "medium") false
                            (str "shopping"))
                    (fst (__init__ [] no_files))))).
Proof.
  destruct (storage_follows_memory []) as (H1 & H2 & _).
  apply (H2 (AddTask (str "Brot") (str "medium") false (str "shopping"))
            (fst (__init__ [] no_files))).
  - split; eexists; repeat split; reflexivity.
  - apply H1.
Defined.

(* ================================================================== *)
(** * Rewriting the current list *)
(* ================================================================== *)

Lemma update_current_items_some f mode s its :
  current_items (data_of mode s) = Some its ->
  exists s',
    update_current_items f mode s = (s', Returns tt)
    /\ current_items (data_of mode s') = Some (f its)
    /\ (forall k, k <> current_or_default (data_of mode s) ->
          dict_get k (lists_or_empty (data_of mode s'))
          = dict_get k (lists_or_empty (data_of mode s)))
    /\ current_list_id (data_of mode s') = current_list_id (data_of mode s)
    /\ client_storage s'
       = (if is_shopping mode then SHOPPING_KEY else TODO_KEY,
          StoredData (data_of mode s')) :: client_storage s
    /\ (f its = its -> data_of mode s' = data_of mode s).
Proof.
  intros Hits.
  destruct (current_items_some _ _ Hits) as (ls & l & Hls & Hl & <-).
  unfold update_current_items. rewrite Hls, Hl.
  eexists. split; [reflexivity|].
  rewrite data_of_saved, data_of_put_data.
  split; [apply current_items_with_lists; exact Hl|].
  split; [|split; [reflexivity|split]].
  - intros k Hk. unfold lists_or_empty. cbn [lists with_lists]. rewrite Hls.
    apply dict_get_set_ne; exact Hk.
  - unfold saved. cbn [client_storage with_client_storage].
    rewrite data_of_put_data.
    unfold put_data; destruct (is_shopping mode); reflexivity.
  - intros ->. rewrite with_items_same, dict_set_same by exact Hl.
    apply with_lists_same; exact Hls.
Qed.

Lemma update_current_items_none f mode s :
  current_items (data_of mode s) = None ->
  exists e, update_current_items f mode s = (s, Raises e).
Proof.
  unfold current_items, update_current_items.
  destruct (lists (data_of mode s)) as [ls|]; [|eauto].
  destruct (dict_get _ ls) as [l|]; [discriminate|eauto].
Qed.

Lemma filter_names_out task_name (its : list Item) t :
  In t (filter (fun t => negb (str_eqb (name t) task_name)) its)
  <-> In t its /\ name t <> task_name.
Proof.
  rewrite filter_In, negb_true_iff, str_eqb_neq. reflexivity.
Qed.

(** X2.  [delete_task] removes every item of the current list whose name
    is exactly [task_name] and no other: the items with another name, those
    that differ in case only among them, stay in their order, the other
    lists and the current list id are as before, and one write of the
    collection is made, also when no item had the name.  When the current
    list does not exist it raises and leaves the state as it was. *)
Theorem delete_task_removes_exact_matches task_name mode s :
  (forall its,
      current_items (data_of mode s) = Some its ->
      exists s',
        delete_task task_name mode s = (s', Returns tt)
        /\ current_items (data_of mode s')
           = Some (filter (fun t => negb (str_eqb (name t) task_name)) its)
        /\ (forall t its', current_items (data_of mode s') = Some its' ->
              (In t its' <-> In t its /\ name t <> task_name))
        /\ (forall k, k <> current_or_default (data_of mode s) ->
              dict_get k (lists_or_empty (data_of mode s'))
              = dict_get k (lists_or_empty (data_of mode s)))
        /\ current_list_id (data_of mode s') = current_list_id (data_of mode s)
        /\ client_storage s'
           = (if is_shopping mode then SHOPPING_KEY else TODO_KEY,
              StoredData (data_of mode s')) :: client_storage s
        /\ ((forall t, In t its -> name t <> task_name) ->
            data_of mode s' = data_of mode s))
  /\ (current_items (data_of mode s) = None ->
      exists e, delete_task task_name mode s = (s, Raises e)).
Proof.
  rewrite delete_task_eq. split.
  - intros its Hits.
    destruct (update_current_items_some
                (filter (fun t => negb (str_eqb (name t) task_name)))
                mode s its Hits) as (s' & H1 & H2 & H3 & H4 & H5 & H6).
    exists s'. split; [exact H1|]. split; [exact H2|].
    split; [|split; [exact H3|split; [exact H4|split; [exact H5|]]]].
    + intros t its' E. rewrite H2 in E. injection E as <-.
      apply filter_names_out.
    + intros Hnone. apply H6.
      apply forallb_filter_id. apply forallb_forall.
      intros t Ht. apply negb_true_iff, str_eqb_neq, Hnone, Ht.
  - apply update_current_items_none.
Qed.

Lemma delete_task_witness :
  exists s',
    delete_task (str "Mail") (str "todo") two_lists_store = (s', Returns tt)
    /\ current_items (todo_data s')
       = Some [ {| name := str "Call"; priority := str "low";
                   is_completed := false |} ].
Proof.
  destruct (proj1 (delete_task_removes_exact_matches (str "Mail") (str "todo")
                     two_lists_store) _ eq_refl) as (s' & H1 & H2 & _).
  exists s'. split; [exact H1|exact H2].
Defined.

Lemma filter_filter_same {A} (p : A -> bool) (l : list A) :
  filter p (filter p l) = filter p l.
Proof.
  induction l as [|x l IH]; simpl; [reflexivity|].
  destruct (p x) eqn:E; simpl; rewrite ?E, IH; reflexivity.
Qed.

(** X3.  [clear_completed_tasks] keeps exactly the items of the current
    list that are not completed, in their order, and a second run right
    after changes nothing in the collection.  Unlike [delete_task] it does
    not raise on a current list id that is no key of [lists]: it returns
    with the state as it was, without a write.  [clear_shopping_cart] does
    the same as [clear_completed_tasks] in shopping mode, on every
    state. *)
Theorem clear_completed_keeps_open_items mode s :
  (forall its,
      current_items (data_of mode s) = Some its ->
      exists s',
        clear_completed_tasks mode s = (s', Returns tt)
        /\ current_items (data_of mode s')
           = Some (filter (fun t => negb (is_completed t)) its)
        /\ (forall t its', current_items (data_of mode s') = Some its' ->
              (In t its' <-> In t its /\ is_completed t = false))
        /\ exists s'',
             clear_completed_tasks mode s' = (s'', Returns tt)
             /\ data_of mode s'' = data_of mode s')
  /\ (forall ls,
         lists (data_of mode s) = Some ls ->
         dict_mem (current_or_default (data_of mode s)) ls = false ->
         clear_completed_tasks mode s = (s, Returns tt))
  /\ clear_shopping_cart s = clear_completed_tasks (str "shopping") s.
Proof.
  assert (Hrun : forall s0 its,
    current_items (data_of mode s0) = Some its ->
    clear_completed_tasks mode s0
    = update_current_items (filter (fun t => negb (is_completed t))) mode s0).
  { intros s0 its Hits. rewrite clear_completed_tasks_eq.
    destruct (current_items_some _ _ Hits) as (ls & l & Hls & Hl & _).
    rewrite Hls, (proj2 (dict_mem_get _ _) (ex_intro _ _ Hl)). reflexivity. }
  split; [|split].
  - intros its Hits. rewrite (Hrun s its Hits).
    destruct (update_current_items_some
                (filter (fun t => negb (is_completed t))) mode s its Hits)
      as (s' & H1 & H2 & _).
    exists s'. split; [exact H1|]. split; [exact H2|]. split.
    + intros t its' E. rewrite H2 in E. injection E as <-.
      rewrite filter_In, negb_true_iff. reflexivity.
    + rewrite (Hrun s' _ H2).
      destruct (update_current_items_some
                  (filter (fun t => negb (is_completed t))) mode s' _ H2)
        as (s'' & K1 & _ & _ & _ & _ & K6).
      exists s''. split; [exact K1|]. apply K6, filter_filter_same.
  - intros ls Hls Hmem. rewrite clear_completed_tasks_eq, Hls, Hmem.
    reflexivity.
  - apply clear_shopping_cart_eq.
Qed.

Lemma clear_completed_witness :
  exists s',
    clear_shopping_cart cart_store = (s', Returns tt)
    /\ current_items (shopping_data s')
       = Some [ {| name := str "B"; priority := str "medium";
                   is_completed := false |} ].
Proof.
  destruct (clear_completed_keeps_open_items (str "shopping") cart_store)
    as (H1 & _ & H3).
  destruct (H1 _ eq_refl) as (s' & K1 & K2 & _).
  exists s'. split; [rewrite H3; exact K1|exact K2].
Defined.

(* ================================================================== *)
(** * How the task methods compose *)
(* ================================================================== *)

Lemma dict_set_twice {V} k (v w : V) (d : dict V) :
  dict_set k v (dict_set k w d) = dict_set k v d.
Proof.
  induction d as [|[k0 v0] d IH]; simpl.
  - rewrite str_eqb_refl. reflexivity.
  - destruct (str_eqb k k0) eqn:E; simpl.
    + rewrite str_eqb_refl. reflexivity.
    + rewrite E, IH. reflexivity.
Qed.

Lemma update_current_items_data f mode s :
  data_of mode (fst (update_current_items f mode s))
  = rewrite_items f (data_of mode s).
Proof.
  unfold update_current_items, rewrite_items.
  destruct (lists (data_of mode s)) as [ls|]; [|reflexivity].
  destruct (dict_get _ ls) as [l|]; [|reflexivity].
  cbn [fst]. rewrite data_of_saved, data_of_put_data. reflexivity.
Qed.

Lemma rewrite_items_compose f g d :
  rewrite_items g (rewrite_items f d) = rewrite_items (fun x => g (f x)) d.
Proof.
  unfold rewrite_items.
  destruct (lists d) as [ls|] eqn:Hls; [|rewrite Hls; reflexivity].
  destruct (dict_get (current_or_default d) ls) as [l|] eqn:Hl;
    [|rewrite Hls, Hl; reflexivity].
  cbn [lists with_lists].
  change (current_or_default (with_lists _ d)) with (current_or_default d).
  rewrite dict_get_set_eq, dict_set_twice. reflexivity.
Qed.

Lemma rewrite_items_same f d :
  (forall its, current_items d = Some its -> f its = its) ->
  rewrite_items f d = d.
Proof.
  unfold rewrite_items, current_items. intros H.
  destruct (lists d) as [ls|] eqn:Hls; [|reflexivity].
  destruct (dict_get (current_or_default d) ls) as [l|] eqn:Hl; [|reflexivity].
  rewrite (H (items l) eq_refl), with_items_same, dict_set_same by exact Hl.
  apply with_lists_same; exact Hls.
Qed.

Lemma add_task_data SUGGESTIONS task_name priority is_completed mode s t :
  snd (add_task SUGGESTIONS task_name priority is_completed mode s)
  = Returns (Some t) ->
  data_of mode (fst (add_task SUGGESTIONS task_name priority is_completed mode s))
  = rewrite_items (fun its => its ++ [t]) (data_of mode s)
  /\ exists its,
       current_items (data_of mode s) = Some its
       /\ existsb (fun item => same_lower (name item) (name t)) its = false.
Proof.
  rewrite add_task_eq.
  destruct (str_strip task_name) as [|c n]; [discriminate|]. cbv zeta.
  unfold rewrite_items, current_items.
  destruct (lists (data_of mode s)) as [ls|]; [|discriminate].
  destruct (dict_get _ ls) as [l|]; [|discriminate].
  destruct (existsb _ (items l)) eqn:Hdup; [discriminate|].
  cbn [fst snd]. intros [= <-].
  rewrite data_of_saved, data_of_put_data.
  split; [reflexivity|]. exists (items l). split; [reflexivity|exact Hdup].
Qed.

(** X4.  An item that [add_task] has appended is taken away again by
    [delete_task] of the name it was stored under, and the collection is
    then exactly as before the add: the same lists, items and order. *)
Theorem add_then_delete_restores
  SUGGESTIONS task_name priority is_completed mode s t :
  snd (add_task SUGGESTIONS task_name priority is_completed mode s)
  = Returns (Some t) ->
  exists s2,
    delete_task (name t) mode
      (fst (add_task SUGGESTIONS task_name priority is_completed mode s))
    = (s2, Returns tt)
    /\ data_of mode s2 = data_of mode s.
Proof.
  intros H. destruct (add_task_data _ _ _ _ _ _ _ H) as [Hd (its & Hits & Hno)].
  destruct (add_task_returns_item _ _ _ _ _ _ _ H) as [_ (its' & Hits' & H1)].
  rewrite Hits in Hits'. injection Hits' as <-.
  set (s1 := fst (add_task SUGGESTIONS task_name priority is_completed mode s))
    in *.
  rewrite delete_task_eq.
  destruct (update_current_items_some
              (filter (fun x => negb (str_eqb (name x) (name t))))
              mode s1 _ H1) as (s2 & K1 & _).
  exists s2. split; [exact K1|].
  replace s2 with (fst (update_current_items
                          (filter (fun x => negb (str_eqb (name x) (name t))))
                          mode s1)) by (rewrite K1; reflexivity).
  rewrite update_current_items_data, Hd, rewrite_items_compose.
  apply rewrite_items_same. intros its0 E.
  rewrite Hits in E. injection E as <-.
  rewrite filter_app. simpl. rewrite str_eqb_refl. simpl.
  rewrite app_nil_r. apply forallb_filter_id, forallb_forall.
  intros x Hx. apply negb_true_iff.
  destruct (str_eqb (name x) (name t)) eqn:E; [|reflexivity].
  apply str_eqb_eq in E.
  assert (existsb (fun item => same_lower (name item) (name t)) its = true).
  { apply existsb_exists. exists x. split; [exact Hx|].
    rewrite E. apply same_lower_refl. }
  congruence.
Qed.

Lemma add_then_delete_witness :
  exists s2,
    delete_task (str "Brot") (str "shopping")
      (fst (add_task [] (str " brot ") (str "medium") false (str "shopping")
              (with_user_suggestions_data [str "Brot"] cart_store)))
    = (s2, Returns tt)
    /\ shopping_data s2 = shopping_data cart_store.
Proof.
  apply (add_then_delete_restores [] (str " brot ") (str "medium") false
           (str "shopping")
           (with_user_suggestions_data [str "Brot"] cart_store)
           {| name := str "Brot"; priority := str "medium";
              is_completed := false |} eq_refl).
Defined.

Lemma set_first_completed_twice task_name c (l : list Item) :
  (forall t, find (fun t => str_eqb (name t) task_name) l = Some t ->
             is_completed t = c) ->
  set_first_completed task_name c
    (set_first_completed task_name (negb c) l) = l.
Proof.
  induction l as [|x l IH]; simpl; [reflexivity|].
  destruct (str_eqb (name x) task_name) eqn:E; simpl.
  - intros H. change (name (with_is_completed (negb c) x)) with (name x).
    rewrite E. specialize (H x eq_refl). subst c. destruct x; reflexivity.
  - intros H. rewrite E, (IH H). reflexivity.
Qed.

(** X5.  Toggling a task twice gives the collection back: when the first
    item of the current list named [task_name] has the flag [c] (or no item
    has the name), [update_task_status] with the inverted flag followed by
    [update_task_status] with [c] leaves the collection exactly as it
    was. *)
Theorem toggle_twice_restores task_name c mode s its :
  current_items (data_of mode s) = Some its ->
  (forall t, find (fun t => str_eqb (name t) task_name) its = Some t ->
             is_completed t = c) ->
  exists s1 s2,
    update_task_status task_name (negb c) mode s = (s1, Returns tt)
    /\ update_task_status task_name c mode s1 = (s2, Returns tt)
    /\ data_of mode s2 = data_of mode s.
Proof.
  intros Hits Hflag. rewrite update_task_status_eq.
  destruct (update_current_items_some
              (set_first_completed task_name (negb c)) mode s its Hits)
    as (s1 & H1 & H2 & _).
  exists s1. rewrite update_task_status_eq.
  destruct (update_current_items_some
              (set_first_completed task_name c) mode s1 _ H2)
    as (s2 & K1 & _).
  exists s2. split; [exact H1|]. split; [exact K1|].
  replace s2 with (fst (update_current_items
                          (set_first_completed task_name c) mode s1))
    by (rewrite K1; reflexivity).
  replace s1 with (fst (update_current_items
                          (set_first_completed task_name (negb c)) mode s))
    by (rewrite H1; reflexivity).
  rewrite !update_current_items_data, rewrite_items_compose.
  apply rewrite_items_same. intros its0 E.
  rewrite Hits in E. injection E as <-.
  apply set_first_completed_twice, Hflag.
Qed.

Lemma toggle_twice_witness :
  exists s1 s2,
    update_task_status (str "Mail") true (str "todo") two_lists_store
    = (s1, Returns tt)
    /\ update_task_status (str "Mail") false (str "todo") s1 = (s2, Returns tt)
    /\ todo_data s2 = todo_data two_lists_store.
Proof.
  apply (toggle_twice_restores (str "Mail") false (str "todo") two_lists_store
           _ eq_refl).
  intros t [= <-]. reflexivity.
Defined.

(** X6.  [clear_tasks] empties the current list and nothing else: the
    other lists and the current list id are as before; after it [add_task]
    of any name that is not empty once trimmed appends the item, which is
    then the only one of the list.  On a current list that does not exist
    [clear_tasks] raises and leaves the state as it was. *)
Theorem clear_tasks_then_add
  SUGGESTIONS task_name priority is_completed mode s :
  (forall its,
      current_items (data_of mode s) = Some its ->
      str_strip task_name <> [] ->
      exists s1,
        clear_tasks mode s = (s1, Returns tt)
        /\ current_items (data_of mode s1) = Some []
        /\ (forall k, k <> current_or_default (data_of mode s) ->
              dict_get k (lists_or_empty (data_of mode s1))
              = dict_get k (lists_or_empty (data_of mode s)))
        /\ current_list_id (data_of mode s1) = current_list_id (data_of mode s)
        /\ exists t,
             snd (add_task SUGGESTIONS task_name priority is_completed mode s1)
             = Returns (Some t)
             /\ current_items
                  (data_of mode
                     (fst (add_task SUGGESTIONS task_name priority is_completed
                             mode s1)))
                = Some [t])
  /\ (current_items (data_of mode s) = None ->
      exists e, clear_tasks mode s = (s, Raises e)).
Proof.
  rewrite clear_tasks_eq. split; [|apply update_current_items_none].
  intros its Hits Hne.
  destruct (update_current_items_some (fun _ => []) mode s its Hits)
    as (s1 & H1 & H2 & H3 & H4 & _).
  exists s1. split; [exact H1|]. split; [exact H2|].
  split; [exact H3|]. split; [exact H4|].
  destruct (add_task_leaves_match SUGGESTIONS task_name priority is_completed
              mode s1 [] H2 Hne) as (its1 & K1 & _ & K3).
  destruct (K3 eq_refl) as (t & Ht & ->).
  exists t. split; [exact Ht|exact K1].
Qed.

Lemma clear_tasks_witness :
  exists s1 t,
    clear_tasks (str "todo") two_lists_store = (s1, Returns tt)
    /\ snd (add_task [] (str "Mail") (str "low") false (str "todo") s1)
       = Returns (Some t)
    /\ name t = str "Mail".
Proof.
  destruct (proj1 (clear_tasks_then_add [] (str "Mail") (str "low") false
                     (str "todo") two_lists_store) _ eq_refl
              ltac:(discriminate))
    as (s1 & H1 & _ & _ & _ & t & Ht & _).
  exists s1, t. split; [exact H1|]. split; [exact Ht|].
  injection H1 as <-. injection Ht as <-. reflexivity.
Defined.

(* ================================================================== *)
(** * No list holds two items equal up to case *)
(* ================================================================== *)

Lemma names_distinct_filter p its :
  names_distinct its -> names_distinct (filter p its).
Proof.
  unfold names_distinct. induction its as [|x its IH]; simpl; [auto|].
  intros H. inversion H as [|? ? Hnotin Hnd]; subst.
  destruct (p x); simpl; [|auto].
  constructor; [|auto].
  intros Hin. apply Hnotin. apply in_map_iff in Hin.
  destruct Hin as (y & Ey & Hy). apply filter_In in Hy.
  apply in_map_iff. exists y. tauto.
Qed.

Lemma names_set_first_completed task_name v its :
  map (fun item => str_lower (name item))
      (set_first_completed task_name v its)
  = map (fun item => str_lower (name item)) its.
Proof.
  induction its as [|x its IH]; simpl; [reflexivity|].
  destruct (str_eqb (name x) task_name); simpl; [reflexivity|].
  rewrite IH. reflexivity.
Qed.

Lemma names_distinct_append its t :
  names_distinct its ->
  existsb (fun item => same_lower (name item) (name t)) its = false ->
  names_distinct (its ++ [t]).
Proof.
  unfold names_distinct. intros Hnd Hno.
  rewrite map_app. simpl.
  eapply Permutation_NoDup; [apply Permutation_cons_append|].
  constructor; [|exact Hnd].
  intros Hin. apply in_map_iff in Hin. destruct Hin as (y & Ey & Hy).
  assert (existsb (fun item => same_lower (name item) (name t)) its = true).
  { apply existsb_exists. exists y. split; [exact Hy|].
    apply same_lower_iff, Ey. }
  congruence.
Qed.

Lemma data_distinct_lists d d' :
  lists d' = lists d -> data_distinct d -> data_distinct d'.
Proof.
  unfold data_distinct, lists_or_empty. intros ->. auto.
Qed.

Lemma data_distinct_set_list d ls k v :
  lists d = Some ls -> data_distinct d -> names_distinct (items v) ->
  data_distinct (with_lists (Some (dict_set k v ls)) d).
Proof.
  unfold data_distinct, lists_or_empty. cbn [lists with_lists].
  intros Hls H Hv k' l'. rewrite Hls in H.
  destruct (str_eqb k' k) eqn:E.
  - apply str_eqb_eq in E. subst k'. rewrite dict_get_set_eq.
    intros [= <-]. exact Hv.
  - rewrite dict_get_set_ne by (apply str_eqb_neq, E). apply H.
Qed.

Lemma data_distinct_del d ls k :
  lists d = Some ls -> data_distinct d ->
  data_distinct (with_lists (Some (dict_del k ls)) d).
Proof.
  unfold data_distinct, lists_or_empty. cbn [lists with_lists].
  intros Hls H k' l'. rewrite Hls in H.
  destruct (str_eqb k' k) eqn:E.
  - apply str_eqb_eq in E. subst k'. rewrite dict_get_del_eq. discriminate.
  - rewrite dict_get_del_ne by (apply str_eqb_neq, E). apply H.
Qed.

Lemma data_distinct_lookup d ls k l :
  lists d = Some ls -> data_distinct d -> dict_get k ls = Some l ->
  names_distinct (items l).
Proof.
  unfold data_distinct, lists_or_empty. intros Hls H. rewrite Hls in H.
  apply H.
Qed.

Lemma store_distinct_put mode d s :
  store_distinct s -> data_distinct d -> store_distinct (put_data mode d s).
Proof.
  intros [Ht Hs] Hd. unfold put_data.
  destruct (is_shopping mode); split; assumption.
Qed.

Lemma store_distinct_data_of mode s :
  store_distinct s -> data_distinct (data_of mode s).
Proof.
  intros [Ht Hs]. unfold data_of. destruct (is_shopping mode); assumption.
Qed.

Lemma update_current_items_distinct f mode s :
  (forall its, names_distinct its -> names_distinct (f its)) ->
  store_distinct s -> store_distinct (fst (update_current_items f mode s)).
Proof.
  intros Hf H. unfold update_current_items.
  destruct (lists (data_of mode s)) as [ls|] eqn:Hls; [|exact H].
  destruct (dict_get _ ls) as [l|] eqn:Hl; [|exact H].
  cbn [fst]. change (store_distinct (saved mode ?x)) with (store_distinct x).
  apply store_distinct_put; [exact H|].
  pose proof (store_distinct_data_of mode s H) as Hd.
  apply data_distinct_set_list; [exact Hls|exact Hd|].
  apply Hf. apply (data_distinct_lookup _ _ _ _ Hls Hd Hl).
Qed.

Lemma run_distinct SUGGESTIONS op s :
  store_distinct s -> store_distinct (fst (run SUGGESTIONS op s)).
Proof.
  intros H. pose proof (store_distinct_data_of) as Hd.
  destruct op; cbn [run]; rewrite ?fst_forget.
  - rewrite create_list_eq. cbn [fst].
    change (store_distinct (saved ?m (saved ?m' ?x))) with (store_distinct x).
    apply store_distinct_put; [exact H|].
    apply (data_distinct_lists
             (with_lists
                (Some (dict_set new_id {| list_name := name0; items := [] |}
                         (lists_or_empty (data_of mode s))))
                (data_of mode s))); [reflexivity|].
    unfold lists_or_empty.
    destruct (lists (data_of mode s)) as [ls|] eqn:Hls.
    + apply data_distinct_set_list; [exact Hls|apply Hd, H|constructor].
    + intros k l. unfold lists_or_empty. cbn [lists with_lists dict_set dict_get].
      destruct (str_eqb k new_id); [|discriminate].
      intros [= <-]. constructor.
  - rewrite set_current_list_id_eq. cbn [fst].
    destruct (dict_mem _ _); [|exact H].
    change (store_distinct (saved ?m ?x)) with (store_distinct x).
    apply store_distinct_put; [exact H|].
    apply (data_distinct_lists (data_of mode s)); [reflexivity|apply Hd, H].
  - rewrite rename_list_eq. cbn [fst].
    destruct (dict_get list_id _) as [l|] eqn:Hl; [|exact H].
    change (store_distinct (saved ?m ?x)) with (store_distinct x).
    apply store_distinct_put; [exact H|].
    unfold lists_or_empty in *.
    destruct (lists (data_of mode s)) as [ls|] eqn:Hls; [|discriminate].
    apply data_distinct_set_list; [exact Hls|apply Hd, H|].
    apply (data_distinct_lookup _ _ _ _ Hls (Hd mode s H) Hl).
  - rewrite delete_list_eq. cbv zeta.
    destruct (str_eqb list_id (str "default")); [exact H|].
    destruct (length _ <=? 1); [exact H|].
    destruct (dict_mem list_id _) eqn:Hmem; [|exact H].
    unfold lists_or_empty in *.
    destruct (lists (data_of mode s)) as [ls|] eqn:Hls; [|discriminate].
    pose proof (data_distinct_del _ _ list_id Hls (Hd mode s H)) as Hdel.
    assert (Hput : forall d', lists d' = Some (dict_del list_id ls) ->
                              store_distinct (saved mode (put_data mode d' s))).
    { intros d' E.
      change (store_distinct (saved ?m ?x)) with (store_distinct x).
      apply store_distinct_put; [exact H|].
      apply (data_distinct_lists
               (with_lists (Some (dict_del list_id ls)) (data_of mode s)));
        [exact E|exact Hdel]. }
    destruct (current_list_id (data_of mode s)) as [c|];
      [|apply Hput; reflexivity].
    destruct (str_eqb c list_id); [|apply Hput; reflexivity].
    destruct (first_key _); [apply Hput; reflexivity|].
    cbn [fst]. apply store_distinct_put; [exact H|exact Hdel].
  - rewrite add_task_eq.
    destruct (str_strip task_name) as [|c n]; [exact H|]. cbv zeta.
    set (clean_name := normalize _ _).
    assert (H1 : store_distinct
              (if is_shopping mode
               then fst (learn_suggestion SUGGESTIONS clean_name s) else s)).
    { destruct (is_shopping mode); [|exact H].
      rewrite learn_suggestion_eq.
      destruct (is_new_suggestion _ _ _); exact H. }
    destruct (lists (data_of mode s)) as [ls|] eqn:Hls; [|exact H1].
    destruct (dict_get _ ls) as [l|] eqn:Hl; [|exact H1].
    destruct (existsb _ (items l)) eqn:Hdup; [exact H1|].
    cbn [fst]. change (store_distinct (saved ?m ?x)) with (store_distinct x).
    apply store_distinct_put; [exact H1|].
    apply data_distinct_set_list; [exact Hls|apply Hd, H|].
    cbn [items with_items].
    apply names_distinct_append; [|exact Hdup].
    apply (data_distinct_lookup _ _ _ _ Hls (Hd mode s H) Hl).
  - rewrite update_task_status_eq.
    apply update_current_items_distinct; [|exact H].
    intros its. unfold names_distinct.
    rewrite names_set_first_completed. auto.
  - rewrite delete_task_eq.
    apply update_current_items_distinct; [|exact H].
    intros its. apply names_distinct_filter.
  - rewrite clear_tasks_eq.
    apply update_current_items_distinct; [|exact H].
    intros its _. constructor.
  - rewrite clear_completed_tasks_eq.
    destruct (lists (data_of mode s)) as [ls|]; [|exact H].
    destruct (dict_mem _ ls); [|exact H].
    apply update_current_items_distinct; [|exact H].
    intros its. apply names_distinct_filter.
  - rewrite clear_shopping_cart_eq, clear_completed_tasks_eq.
    destruct (lists (data_of (str "shopping") s)) as [ls|]; [|exact H].
    destruct (dict_mem _ ls); [|exact H].
    apply update_current_items_distinct; [|exact H].
    intros its. apply names_distinct_filter.
  - rewrite learn_suggestion_eq.
    destruct (is_new_suggestion _ _ _); exact H.
  - rewrite update_setting_eq.
    destruct (settings (todo_data s)) as [st|]; [|exact H].
    destruct H as [Ht Hs]. split; [|exact Hs].
    apply (data_distinct_lists (todo_data s)); [reflexivity|exact Ht].
  - exact H.
  - exact H.
  - rewrite get_tasks_state. exact H.
  - rewrite get_list_as_text_state. exact H.
  - exact H.
  - rewrite get_settings_state. exact H.
Qed.

Lemma init_first_run :
  todo_data (fst (__init__ [] no_files)) = DEFAULT_TODO_DATA
  /\ shopping_data (fst (__init__ [] no_files))
     = with_lists
         (Some [(str "default",
                 {| list_name := str "Allgemein"; items := [] |})])
         DEFAULT_SHOPPING_DATA.
Proof. split; reflexivity. Qed.

Lemma init_distinct : store_distinct (fst (__init__ [] no_files)).
Proof.
  unfold store_distinct. destruct init_first_run as [-> ->].
  split; intros k l; unfold lists_or_empty;
    cbn [lists with_lists DEFAULT_TODO_DATA DEFAULT_SHOPPING_DATA dict_get];
    (destruct (str_eqb k (str "default")); [|discriminate]);
    intros [= <-]; constructor.
Qed.

(** X7.  Duplicate prevention as an invariant.  When no list of either
    collection holds two items equal up to case, no call on the store makes
    one that does, whether it returns or raises; so in every store a first
    run can reach, the names of the items of a list are pairwise different
    up to case. *)
Theorem lists_stay_free_of_duplicates SUGGESTIONS :
  (forall op s,
      store_distinct s -> store_distinct (fst (run SUGGESTIONS op s)))
  /\ (forall s mode its,
         reachable SUGGESTIONS s ->
         current_items (data_of mode s) = Some its ->
         names_distinct its).
Proof.
  split; [intros op s; apply run_distinct|].
  intros s mode its Hr.
  assert (H : store_distinct s).
  { induction Hr as [|op s Hr IH]; [apply init_distinct|].
    apply run_distinct, IH. }
  intros Hits.
  destruct (current_items_some _ _ Hits) as (ls & l & Hls & Hl & <-).
  apply (data_distinct_lookup _ _ _ _ Hls (store_distinct_data_of mode s H) Hl).
Qed.

Lemma lists_stay_free_of_duplicates_witness :
  current_items
    (data_of (str "shopping")
       (fst (run [] (AddTask (str "BROT") (str "medium") false
                       (str "shopping"))
               (fst (run [] (AddTask (str "Milch") (str "medium") false
                               (str "shopping"))
                       (fst (run [] (AddTask (str "Brot") (str "medium") false
                                       (str "shopping"))
                               (fst (__init__ [] no_files)))))))))
  = Some [ {| name := str "Brot"; priority := str "medium";
              is_completed := false |};
           {| name := str "Milch"; priority := str "medium";
              is_completed := false |} ]
  /\ names_distinct
       [ {| name := str "Brot"; priority := str "medium";
            is_completed := false |};
         {| name := str "Milch"; priority := str "medium";
            is_completed := false |} ].
Proof.
  split; [reflexivity|].
  apply (proj2 (lists_stay_free_of_duplicates [])
           (fst (run [] (AddTask (str "BROT") (str "medium") false
                           (str "shopping"))
                   (fst (run [] (AddTask (str "Milch") (str "medium") false
                                   (str "shopping"))
                           (fst (run [] (AddTask (str "Brot") (str "medium")
                                           false (str "shopping"))
                                   (fst (__init__ [] no_files))))))))
           (str "shopping")).
  - apply reachable_run, reachable_run, reachable_run, reachable_init.
  - reflexivity.
Defined.

(* ================================================================== *)
(** * Creating, selecting and renaming lists *)
(* ================================================================== *)

Lemma get_tasks_eq mode s :
  get_tasks mode s =
  match lists (data_of mode s) with
  | Some ls =>
      (s, Returns (match dict_get (current_or_default (data_of mode s)) ls with
                   | Some l => items l
                   | None => []
                   end))
  | None => (s, Raises (KeyError (str "lists")))
  end.
Proof. unfold get_tasks. by_mode mode s. Qed.

Lemma length_dict_set {V} k (v : V) (d : dict V) :
  length (dict_set k v d)
  = if dict_mem k d then length d else S (length d).
Proof.
  unfold dict_mem. induction d as [|[k0 v0] d IH]; simpl; [reflexivity|].
  destruct (str_eqb k k0); simpl; [reflexivity|].
  rewrite IH. destruct (existsb _ _); reflexivity.
Qed.

(** X8.  [_create_list] returns the id drawn for the new list, which is
    then the current list of the collection, under the given name and
    without items; every list under another id is as before, and two
    writes of the collection are made.  With an id that is not yet a key
    the collection has one list more; with an id that is a key already, the
    list under it is replaced by the new, empty one. *)
Theorem create_list_switches new_id name mode s :
  exists s',
    _create_list new_id name mode s = (s', Returns new_id)
    /\ current_or_default (data_of mode s') = new_id
    /\ dict_get new_id (lists_or_empty (data_of mode s'))
       = Some {| list_name := name; items := [] |}
    /\ get_tasks mode s' = (s', Returns [])
    /\ (forall k, k <> new_id ->
          dict_get k (lists_or_empty (data_of mode s'))
          = dict_get k (lists_or_empty (data_of mode s)))
    /\ length (lists_or_empty (data_of mode s'))
       = (if dict_mem new_id (lists_or_empty (data_of mode s))
          then length (lists_or_empty (data_of mode s))
          else S (length (lists_or_empty (data_of mode s))))
    /\ exists w,
         client_storage s' = w :: w :: client_storage s
         /\ w = (if is_shopping mode then SHOPPING_KEY else TODO_KEY,
                 StoredData (data_of mode s')).
Proof.
  rewrite create_list_eq. eexists. split; [reflexivity|].
  rewrite get_tasks_eq. rewrite !data_of_saved, data_of_put_data.
  unfold lists_or_empty at 1 2 3 4.
  cbn [lists with_lists with_current_list_id current_or_default
       current_list_id].
  rewrite dict_get_set_eq.
  split; [reflexivity|]. split; [reflexivity|]. split; [reflexivity|].
  split; [intros k Hk; apply dict_get_set_ne; exact Hk|].
  split; [apply length_dict_set|].
  eexists. split; [|reflexivity].
  unfold saved, put_data, data_of.
  destruct (is_shopping mode); reflexivity.
Qed.

Lemma create_list_witness :
  exists s',
    _create_list (str "0a1b2c3d") (str "Groceries") (str "shopping") fresh_store
    = (s', Returns (str "0a1b2c3d"))
    /\ length (lists_or_empty (shopping_data s')) = 2
    /\ get_tasks (str "shopping") s' = (s', Returns []).
Proof.
  destruct (create_list_switches (str "0a1b2c3d") (str "Groceries")
              (str "shopping") fresh_store)
    as (s' & H1 & _ & _ & H4 & _ & H6 & _).
  exists s'. split; [exact H1|]. split; [exact H6|exact H4].
Defined.

(** X9.  Selecting a list.  After [_set_current_list_id], the current list
    id is the given id when it is a key of [lists], and the one before
    otherwise (no write is made then); [lists] is as before either way, and
    after a selection that took, [get_tasks] returns the items of the
    selected list. *)
Theorem set_then_get_current_list_id list_id mode s :
  exists s',
    _set_current_list_id list_id mode s = (s', Returns tt)
    /\ _get_current_list_id mode s'
       = (s', Returns (if dict_mem list_id (lists_or_empty (data_of mode s))
                       then list_id
                       else current_or_default (data_of mode s)))
    /\ lists (data_of mode s') = lists (data_of mode s)
    /\ (dict_mem list_id (lists_or_empty (data_of mode s)) = false -> s' = s)
    /\ (forall l,
          dict_get list_id (lists_or_empty (data_of mode s)) = Some l ->
          get_tasks mode s' = (s', Returns (items l))).
Proof.
  rewrite set_current_list_id_eq. eexists. split; [reflexivity|].
  rewrite get_current_list_id_eq, get_tasks_eq.
  destruct (dict_mem list_id (lists_or_empty (data_of mode s))) eqn:Hmem.
  - rewrite data_of_saved, data_of_put_data.
    split; [reflexivity|]. split; [reflexivity|].
    split; [discriminate|].
    intros l Hl. unfold lists_or_empty in Hl.
    cbn [lists with_current_list_id current_or_default current_list_id].
    destruct (lists (data_of mode s)) as [ls|]; [|discriminate].
    rewrite Hl. reflexivity.
  - split; [reflexivity|]. split; [reflexivity|]. split; [reflexivity|].
    intros l Hl. apply dict_get_none in Hmem. congruence.
Qed.

Lemma set_then_get_witness :
  exists s',
    _set_current_list_id (str "default") (str "todo") two_lists_store
    = (s', Returns tt)
    /\ get_tasks (str "todo") s' = (s', Returns []).
Proof.
  destruct (set_then_get_current_list_id (str "default") (str "todo")
              two_lists_store) as (s' & H1 & _ & _ & _ & H5).
  exists s'. split; [exact H1|]. apply (H5 _ eq_refl).
Defined.

(** X10.  [_rename_list] changes the display name of the list under the
    given id and nothing else: its items, every other list, the order of
    the keys and the current list id are as before, and [_get_lists] then
    shows the new name under that id. *)
Theorem rename_list_changes_name_only list_id new_name mode s ls l :
  lists (data_of mode s) = Some ls ->
  dict_get list_id ls = Some l ->
  exists s',
    _rename_list list_id new_name mode s = (s', Returns tt)
    /\ dict_get list_id (lists_or_empty (data_of mode s'))
       = Some {| list_name := new_name; items := items l |}
    /\ (forall k, k <> list_id ->
          dict_get k (lists_or_empty (data_of mode s')) = dict_get k ls)
    /\ keys (lists_or_empty (data_of mode s')) = keys ls
    /\ current_list_id (data_of mode s') = current_list_id (data_of mode s)
    /\ exists shown,
         _get_lists mode s' = (s', Returns shown)
         /\ keys shown = keys ls
         /\ dict_get list_id shown = Some new_name.
Proof.
  intros Hls Hl. rewrite rename_list_eq.
  unfold lists_or_empty at 1 2. rewrite Hls, Hl.
  eexists. split; [reflexivity|].
  unfold _get_lists. rewrite bind_eq, gets_eq, ret_eq.
  rewrite data_of_saved, data_of_put_data.
  unfold lists_or_empty. cbn [lists with_lists current_list_id].
  rewrite dict_get_set_eq.
  assert (Hmem : dict_mem list_id ls = true)
    by (apply dict_mem_get; eauto).
  split; [reflexivity|].
  split; [intros k Hk; apply dict_get_set_ne; exact Hk|].
  split; [apply keys_dict_set; exact Hmem|]. split; [reflexivity|].
  eexists. split; [reflexivity|]. split.
  - unfold keys. rewrite map_map. cbn [fst].
    fold (keys (dict_set list_id (with_name new_name l) ls)).
    apply keys_dict_set; exact Hmem.
  - clear Hl Hmem Hls. induction ls as [|[k0 v0] ls IH]; simpl.
    + rewrite str_eqb_refl. reflexivity.
    + destruct (str_eqb list_id k0) eqn:E; simpl.
      * rewrite str_eqb_refl. reflexivity.
      * rewrite E. exact IH.
Qed.

Lemma rename_list_witness :
  exists s',
    _rename_list (str "ab12cd34") (str "Office") (str "todo") two_lists_store
    = (s', Returns tt)
    /\ snd (_get_lists (str "todo") s')
       = Returns [(str "default", str "Allgemein");
                  (str "ab12cd34", str "Office")].
Proof.
  destruct (rename_list_changes_name_only (str "ab12cd34") (str "Office")
              (str "todo") two_lists_store _ _ eq_refl eq_refl)
    as (s' & H1 & _).
  exists s'. split; [exact H1|]. injection H1 as <-. reflexivity.
Defined.

(* ================================================================== *)
(** * Learning suggestions *)
(* ================================================================== *)

Lemma same_lower_trans a b c :
  same_lower a b = true -> same_lower b c = true -> same_lower a c = true.
Proof. rewrite !same_lower_iff. congruence. Qed.

(** X11.  Learning a name twice is learning it once: after
    [learn_suggestion] of a name of two characters or more,
    [learn_suggestion] of that name or of any name equal to it up to case
    changes nothing and makes no write; so it is after a shorter name when
    the second name is shorter than two characters too (a case variant of
    a name of one character can have two, and is then learned).  A name of
    fewer than two characters is never learned. *)
Theorem learn_twice_is_learn_once SUGGESTIONS item_name item_name' s :
  (same_lower item_name item_name' = true ->
   2 <= length item_name \/ length item_name' < 2 ->
   learn_suggestion SUGGESTIONS item_name'
     (fst (learn_suggestion SUGGESTIONS item_name s))
   = (fst (learn_suggestion SUGGESTIONS item_name s), Returns tt))
  /\ (length item_name < 2 ->
      learn_suggestion SUGGESTIONS item_name s = (s, Returns tt)).
Proof.
  split.
  - intros Hsame Hlen. rewrite (learn_suggestion_eq SUGGESTIONS item_name s).
    cbn [fst].
    destruct (is_new_suggestion SUGGESTIONS (user_suggestions_data s) item_name)
      eqn:Hnew.
    + rewrite learn_suggestion_eq.
      replace (is_new_suggestion SUGGESTIONS
                 (user_suggestions_data (learned item_name s)) item_name')
        with false; [reflexivity|].
      symmetry. unfold is_new_suggestion.
      apply andb_false_iff. right. apply negb_false_iff.
      apply existsb_exists. exists item_name. split; [|exact Hsame].
      apply in_or_app. right. unfold learned.
      cbn [user_suggestions_data with_client_storage
           with_user_suggestions_data].
      apply in_sorted, in_or_app. right; left; reflexivity.
    + rewrite learn_suggestion_eq.
      replace (is_new_suggestion SUGGESTIONS (user_suggestions_data s)
                 item_name') with false; [reflexivity|].
      symmetry. unfold is_new_suggestion in *.
      apply andb_false_iff. apply andb_false_iff in Hnew.
      destruct Hlen as [Hlen|Hlen];
        [|left; apply Nat.leb_gt; exact Hlen].
      destruct Hnew as [Hnew|Hnew];
        [apply Nat.leb_gt in Hnew; lia|].
      right. apply same_lower_iff in Hsame.
      rewrite <- (existsb_same_lower_congr (fun x => x) _ _ _ Hsame).
      exact Hnew.
  - intros Hlen. rewrite learn_suggestion_eq. unfold is_new_suggestion.
    replace (2 <=? length item_name) with false; [reflexivity|].
    symmetry. apply Nat.leb_gt. exact Hlen.
Qed.

Lemma learn_twice_witness :
  learn_suggestion [] (str "MILK")
    (fst (learn_suggestion [] (str "milk") fresh_store))
  = (fst (learn_suggestion [] (str "milk") fresh_store), Returns tt)
  /\ user_suggestions_data (fst (learn_suggestion [] (str "milk") fresh_store))
     = [str "milk"]
  /\ learn_suggestion [] (str "x") fresh_store = (fresh_store, Returns tt).
Proof.
  destruct (learn_twice_is_learn_once [] (str "milk") (str "MILK") fresh_store)
    as [H1 _].
  destruct (learn_twice_is_learn_once [] (str "x") (str "x") fresh_store)
    as [_ H2].
  split; [apply H1; [reflexivity|left; vm_compute; lia]|].
  split; [reflexivity|].
  apply H2. vm_compute. lia.
Defined.

(** The capital I with a dot above (U+0130) has one code point and is not
    learned; its lower-case form has two and is. *)
Example learn_variant_of_short_name :
  same_lower [304%N] (str_lower [304%N]) = true
  /\ user_suggestions_data (fst (learn_suggestion [] [304%N] fresh_store)) = []
  /\ user_suggestions_data
       (fst (learn_suggestion [] (str_lower [304%N])
               (fst (learn_suggestion [] [304%N] fresh_store))))
     = [[105%N; 775%N]].
Proof. repeat split. Qed.

(** X12.  What learning keeps.  After [learn_suggestion] has taken a name
    in, the learned list is in ascending order and holds the name and what
    it held before, and the client storage holds the list; a learned list
    in ascending order stays so under every [learn_suggestion]; and when no
    two entries of the static and the learned list together are equal up to
    case, this is still so afterwards. *)
Theorem learning_keeps_vocabulary_clean SUGGESTIONS item_name s :
  let s' := fst (learn_suggestion SUGGESTIONS item_name s) in
  (user_suggestions_data s' <> user_suggestions_data s ->
   StronglySorted str_le (user_suggestions_data s')
   /\ (forall x, In x (user_suggestions_data s')
                 <-> x = item_name \/ In x (user_suggestions_data s))
   /\ storage_get_list SUGGESTIONS_KEY (client_storage s')
      = Some (user_suggestions_data s'))
  /\ (StronglySorted str_le (user_suggestions_data s) ->
      StronglySorted str_le (user_suggestions_data s'))
  /\ (case_distinct (SUGGESTIONS ++ user_suggestions_data s) ->
      case_distinct (SUGGESTIONS ++ user_suggestions_data s')).
Proof.
  cbv zeta. split; [|split].
  - rewrite learn_suggestion_eq. cbn [fst].
    destruct (is_new_suggestion _ _ _); [|congruence].
    intros _. unfold learned.
    cbn [user_suggestions_data with_client_storage
         with_user_suggestions_data client_storage].
    split; [apply sorted_ok|]. split; [|reflexivity].
    intros x. rewrite in_sorted, in_app_iff. simpl. intuition congruence.
  - rewrite learn_suggestion_eq. cbn [fst].
    destruct (is_new_suggestion _ _ _); [|auto].
    intros _. apply sorted_ok.
  - apply learn_suggestion_case_distinct.
Qed.

Lemma learning_witness :
  StronglySorted str_le
    (user_suggestions_data
       (fst (learn_suggestion [str "Milch"] (str "Brot") apple_store)))
  /\ user_suggestions_data
       (fst (learn_suggestion [str "Milch"] (str "Brot") apple_store))
     = [str "Apple"; str "Brot"].
Proof.
  split; [|reflexivity].
  pose proof (learning_keeps_vocabulary_clean [str "Milch"] (str "Brot")
                apple_store) as H.
  cbv zeta in H. destruct H as (H1 & _).
  apply H1. vm_compute. discriminate.
Defined.

(* ================================================================== *)
(** * Auto-correction against the vocabulary *)
(* ================================================================== *)

(** X13.  Auto-correction.  When no two entries of the vocabulary are
    equal up to case and the trimmed name matches an entry up to case, the
    item [add_task] appends is stored under that entry's spelling, whatever
    the case of the input; a name taken from the vocabulary is stored as it
    is. *)
Theorem add_task_stores_vocabulary_spelling
  SUGGESTIONS task_name priority is_completed mode s entry t :
  case_distinct (SUGGESTIONS ++ user_suggestions_data s) ->
  In entry (SUGGESTIONS ++ user_suggestions_data s) ->
  same_lower (str_strip task_name) entry = true ->
  snd (add_task SUGGESTIONS task_name priority is_completed mode s)
  = Returns (Some t) ->
  name t = entry.
Proof.
  intros Hcd Hin Hsame H.
  destruct (add_task_returns_item _ _ _ _ _ _ _ H) as [-> _]. cbn [name].
  set (all := sorted (set_of (SUGGESTIONS ++ user_suggestions_data s))).
  destruct (normalize_cases all (str_strip task_name))
    as [(Hn & Hl & _)|[_ Hnone]].
  - apply Hcd; [apply in_all_suggestions, Hn|exact Hin|].
    apply (same_lower_trans _ _ _ Hl Hsame).
  - rewrite same_lower_sym, (Hnone entry) in Hsame; [discriminate|].
    apply in_all_suggestions, Hin.
Qed.

Lemma add_task_spelling_witness :
  exists t,
    snd (add_task [str "Milch"] (str "  milch ") (str "medium") false
           (str "shopping") fresh_store) = Returns (Some t)
    /\ name t = str "Milch".
Proof.
  eexists. split; [reflexivity|].
  apply (add_task_stores_vocabulary_spelling [str "Milch"] (str "  milch ")
           (str "medium") false (str "shopping") fresh_store (str "Milch")).
  - intros a b [<-|[]] [<-|[]] _. reflexivity.
  - left; reflexivity.
  - reflexivity.
  - reflexivity.
Defined.

(* ================================================================== *)
(** * Reading a list that is not there; settings *)
(* ================================================================== *)

Lemma get_list_as_text_cases mode s :
  match lists (data_of mode s) with
  | Some ls =>
      match dict_get (current_or_default (data_of mode s)) ls with
      | Some l => exists text, get_list_as_text mode s = (s, Returns text)
      | None =>
          get_list_as_text mode s
          = (s, Raises (KeyError (current_or_default (data_of mode s))))
      end
  | None => get_list_as_text mode s = (s, Raises (KeyError (str "lists")))
  end.
Proof.
  unfold get_list_as_text. by_mode mode s; eexists; reflexivity.
Qed.

(** X14.  Reading the current list.  Neither [get_tasks] nor
    [get_list_as_text] changes the state.  When the current list id is no
    key of [lists], [get_tasks] returns the empty list where
    [get_list_as_text] raises a [KeyError] for the id; when the current list
    exists [get_tasks] returns its items and [get_list_as_text] returns a
    text; without [lists] both raise. *)
Theorem reading_the_current_list mode s :
  fst (get_tasks mode s) = s
  /\ fst (get_list_as_text mode s) = s
  /\ (forall ls,
         lists (data_of mode s) = Some ls ->
         dict_get (current_or_default (data_of mode s)) ls = None ->
         get_tasks mode s = (s, Returns [])
         /\ get_list_as_text mode s
            = (s, Raises (KeyError (current_or_default (data_of mode s)))))
  /\ (forall its,
         current_items (data_of mode s) = Some its ->
         get_tasks mode s = (s, Returns its)
         /\ exists text, get_list_as_text mode s = (s, Returns text))
  /\ (lists (data_of mode s) = None ->
      get_tasks mode s = (s, Raises (KeyError (str "lists")))
      /\ get_list_as_text mode s = (s, Raises (KeyError (str "lists")))).
Proof.
  pose proof (get_list_as_text_cases mode s) as Ht.
  split; [apply get_tasks_state|]. split; [apply get_list_as_text_state|].
  rewrite get_tasks_eq. split; [|split].
  - intros ls Hls Hl. rewrite Hls, Hl in *. auto.
  - intros its Hits.
    destruct (current_items_some _ _ Hits) as (ls & l & Hls & Hl & <-).
    rewrite Hls, Hl in *. auto.
  - intros Hls. rewrite Hls in *. auto.
Qed.

Lemma reading_witness :
  get_tasks (str "todo")
    (with_todo_data (with_current_list_id (Some (str "gone")) DEFAULT_TODO_DATA)
       fresh_store)
  = (with_todo_data (with_current_list_id (Some (str "gone")) DEFAULT_TODO_DATA)
       fresh_store, Returns [])
  /\ snd (get_list_as_text (str "todo")
            (with_todo_data
               (with_current_list_id (Some (str "gone")) DEFAULT_TODO_DATA)
               fresh_store))
     = Raises (KeyError (str "gone")).
Proof.
  destruct (reading_the_current_list (str "todo")
              (with_todo_data
                 (with_current_list_id (Some (str "gone")) DEFAULT_TODO_DATA)
                 fresh_store)) as (_ & _ & H & _).
  destruct (H _ eq_refl eq_refl) as [H1 H2].
  split; [exact H1|rewrite H2; reflexivity].
Defined.

(** X15.  Settings.  On a todo collection that has its settings,
    [update_setting] stores the value under the key, leaves the other
    settings, the lists and the shopping collection as they were and saves
    the todo collection; [get_settings] then returns the new value.  On a
    todo collection without settings, as the legacy shape leaves it,
    [get_settings] answers with the default settings, but [update_setting]
    raises a [KeyError] and changes nothing. *)
Theorem update_setting_then_get key value s :
  (forall st,
      settings (todo_data s) = Some st ->
      exists s' st',
        update_setting key value s = (s', Returns tt)
        /\ get_settings s' = (s', Returns st')
        /\ dict_get key st' = Some value
        /\ (forall k, k <> key -> dict_get k st' = dict_get k st)
        /\ lists (todo_data s') = lists (todo_data s)
        /\ current_list_id (todo_data s') = current_list_id (todo_data s)
        /\ shopping_data s' = shopping_data s
        /\ client_storage s'
           = (TODO_KEY, StoredData (todo_data s')) :: client_storage s)
  /\ (settings (todo_data s) = None ->
      update_setting key value s = (s, Raises (KeyError (str "settings")))
      /\ exists st, get_settings s = (s, Returns st)
                    /\ settings DEFAULT_TODO_DATA = Some st).
Proof.
  rewrite update_setting_eq. split.
  - intros st Hst. rewrite Hst.
    exists (saved (str "todo")
              (with_todo_data
                 (with_settings (Some (dict_set key value st)) (todo_data s)) s)),
           (dict_set key value st).
    split; [reflexivity|]. split; [reflexivity|].
    split; [apply dict_get_set_eq|].
    split; [intros k Hk; apply dict_get_set_ne; exact Hk|].
    repeat split.
  - intros Hst. rewrite Hst. split; [reflexivity|].
    unfold get_settings. rewrite bind_eq, gets_eq, Hst.
    eexists. split; reflexivity.
Qed.

Lemma update_setting_witness :
  (exists s' st',
      update_setting (str "theme_mode") (str "light") fresh_store
      = (s', Returns tt)
      /\ get_settings s' = (s', Returns st')
      /\ dict_get (str "theme_mode") st' = Some (str "light")
      /\ dict_get (str "language") st' = Some (str "en"))
  /\ update_setting (str "theme_mode") (str "light")
       (fst (migrations legacy_todo_store))
     = (fst (migrations legacy_todo_store), Raises (KeyError (str "settings"))).
Proof.
  split.
  - destruct (proj1 (update_setting_then_get (str "theme_mode") (str "light")
                       fresh_store) _ eq_refl)
      as (s' & st' & H1 & H2 & H3 & H4 & _).
    exists s', st'. split; [exact H1|]. split; [exact H2|].
    split; [exact H3|]. rewrite H4; [reflexivity|discriminate].
  - apply (proj2 (update_setting_then_get (str "theme_mode") (str "light")
                    (fst (migrations legacy_todo_store)))).
    reflexivity.
Defined.

(* ================================================================== *)
(** * What the migrations keep *)
(* ================================================================== *)

Lemma migrations_data s :
  todo_data (fst (migrations s)) = migrated keeps_todo (todo_data s)
  /\ shopping_data (fst (migrations s))
     = migrated keeps_shopping (shopping_data s).
Proof.
  unfold migrations, migrated.
  rewrite bind_eq, migrate_shopping_structure_eq.
  set (s1 := match lists (shopping_data s) with
             | None => _ | Some _ => s end).
  assert (H1 : todo_data s1 = todo_data s
               /\ shopping_data s1
                  = match lists (shopping_data s) with
                    | None => migrate_structure (shopping_data s)
                    | Some _ => shopping_data s
                    end).
  { subst s1. destruct (lists (shopping_data s)); split; reflexivity. }
  clearbody s1. destruct H1 as [H1t H1s]. rewrite <- H1t, <- H1s.
  rewrite bind_eq, migrate_todo_structure_eq.
  set (s2 := match lists (todo_data s1) with
             | None => _ | Some _ => s1 end).
  assert (H2 : shopping_data s2 = shopping_data s1
               /\ todo_data s2
                  = match lists (todo_data s1) with
                    | None => migrate_structure (todo_data s1)
                    | Some _ => todo_data s1
                    end).
  { subst s2. destruct (lists (todo_data s1)); split; reflexivity. }
  clearbody s2. destruct H2 as [H2s H2t]. rewrite <- H2t, <- H2s.
  rewrite bind_eq, normalize_shopping_name_eq, normalize_todo_name_eq.
  cbn [fst].
  destruct (renamed keeps_shopping (shopping_data s2)) as [d|];
    cbn [todo_data shopping_data saved with_client_storage with_shopping_data];
    (destruct (renamed keeps_todo (todo_data s2)) as [d'|];
     cbn [todo_data shopping_data saved with_client_storage with_todo_data
          with_shopping_data]; split; reflexivity).
Qed.

Lemma renamed_items keeps d d' k :
  renamed keeps d = Some d' ->
  option_map items (dict_get k (lists_or_empty d'))
  = option_map items (dict_get k (lists_or_empty d))
  /\ keys (lists_or_empty d') = keys (lists_or_empty d)
  /\ current_list_id d' = current_list_id d
  /\ settings d' = settings d /\ tasks d' = tasks d.
Proof.
  unfold renamed, lists_or_empty.
  destruct (lists d) as [ls|] eqn:Hls; [|discriminate].
  destruct (dict_get (str "default") ls) as [l|] eqn:Hl; [|discriminate].
  destruct (keeps (list_name l)); [discriminate|].
  intros [= <-]. cbn [lists with_lists current_list_id settings tasks].
  split; [|split; [|auto]].
  - destruct (str_eqb k (str "default")) eqn:E.
    + apply str_eqb_eq in E. subst k. rewrite dict_get_set_eq, Hl. reflexivity.
    + rewrite dict_get_set_ne by (apply str_eqb_neq, E). reflexivity.
  - apply keys_dict_set. apply dict_mem_get. eauto.
Qed.

(** X16.  The migrations lose no task.  A collection in the legacy shape
    (no [lists]) comes out with ["default"] as its current list, holding
    exactly the tasks of the flat array in their order (none when there was
    no array), and without the legacy key; a collection that has its
    [lists] keeps the items of every list, its keys and their order and its
    current list id.  Either way the settings stay. *)
Theorem migrations_keep_every_task s mode :
  let d := data_of mode s in
  let d' := data_of mode (fst (migrations s)) in
  (lists d = None ->
   current_list_id d' = Some (str "default")
   /\ current_items d' = Some (match tasks d with Some t => t | None => [] end)
   /\ keys (lists_or_empty d') = [str "default"]
   /\ tasks d' = None)
  /\ (lists d <> None ->
      (forall k, option_map items (dict_get k (lists_or_empty d'))
                 = option_map items (dict_get k (lists_or_empty d)))
      /\ keys (lists_or_empty d') = keys (lists_or_empty d)
      /\ current_list_id d' = current_list_id d
      /\ tasks d' = tasks d)
  /\ settings d' = settings d.
Proof.
  cbv zeta.
  assert (E : exists keeps,
    data_of mode (fst (migrations s)) = migrated keeps (data_of mode s)).
  { destruct (migrations_data s) as [Ht Hs]. unfold data_of.
    destruct (is_shopping mode); eauto. }
  destruct E as [keeps ->].
  set (d := data_of mode s). unfold migrated.
  destruct (lists d) as [ls|] eqn:Hls.
  - split; [discriminate|]. split.
    + intros _. destruct (renamed keeps d) as [d2|] eqn:R.
      * pose proof (fun k => renamed_items keeps d d2 k R) as H.
        split; [intros k; apply (H k)|].
        destruct (H []) as (_ & ? & ? & _ & ?). auto.
      * auto.
    + destruct (renamed keeps d) as [d2|] eqn:R; [|reflexivity].
      apply (renamed_items keeps d d2 [] R).
  - split; [|split; [congruence|]].
    + intros _. destruct (renamed keeps (migrate_structure d)) as [d2|] eqn:R.
      * pose proof (fun k => renamed_items _ _ _ k R) as H.
        destruct (H (str "default")) as (Hi & Hk & Hc & _ & Ht).
        split; [rewrite Hc; reflexivity|].
        split; [|split; [rewrite Hk; reflexivity|rewrite Ht; reflexivity]].
        unfold current_items.
        assert (Hcur : current_or_default d2 = str "default").
        { unfold current_or_default. rewrite Hc. reflexivity. }
        rewrite Hcur.
        unfold lists_or_empty in Hi.
        destruct (lists d2) as [ls2|].
        -- cbn [migrate_structure lists with_tasks with_lists
                with_current_list_id dict_get] in Hi.
           rewrite str_eqb_refl in Hi.
           destruct (dict_get (str "default") ls2) as [l2|];
             [|discriminate].
           cbn [option_map items] in Hi. congruence.
        -- cbn [migrate_structure lists with_tasks with_lists
                with_current_list_id dict_get] in Hi.
           rewrite str_eqb_refl in Hi. discriminate.
      * repeat split.
    + destruct (renamed keeps (migrate_structure d)) as [d2|] eqn:R;
        [|reflexivity].
      destruct (renamed_items _ _ _ [] R) as (_ & _ & _ & Hs & _).
      rewrite Hs. reflexivity.
Qed.

Lemma migrations_keep_witness :
  current_items (todo_data (fst (migrations legacy_todo_store)))
  = Some [ {| name := str "Call"; priority := str "low";
              is_completed := false |} ]
  /\ tasks (todo_data (fst (migrations legacy_todo_store))) = None.
Proof.
  pose proof (migrations_keep_every_task legacy_todo_store (str "todo")) as H.
  cbv zeta in H. destruct H as (H1 & _).
  destruct (H1 eq_refl) as (_ & H2 & _ & H3).
  split; [exact H2|exact H3].
Defined.

(* ================================================================== *)
(** * The default list across a restart *)
(* ================================================================== *)

Lemma migrations_data_of mode s :
  data_of mode (fst (migrations s))
  = migrated (if is_shopping mode then keeps_shopping else keeps_todo)
      (data_of mode s).
Proof.
  destruct (migrations_data s) as [Ht Hs]. unfold data_of.
  destruct (is_shopping mode); assumption.
Qed.

(** X17.  Renaming the default list, then starting again on what was
    saved.  [_rename_list] gives the default list the new name.  After the
    next [__init__] on the same client storage the default todo list is
    called ["Allgemein"] again, whatever name it was given; the default
    shopping list keeps its new name unless that is one of the four legacy
    names.  The items of the list stay. *)
Theorem renamed_default_list_after_restart new_name mode s fs l :
  synced s ->
  dict_get (str "default") (lists_or_empty (data_of mode s)) = Some l ->
  let s1 := fst (_rename_list (str "default") new_name mode s) in
  let s2 := fst (__init__ (client_storage s1) fs) in
  dict_get (str "default") (lists_or_empty (data_of mode s1))
  = Some (with_name new_name l)
  /\ dict_get (str "default") (lists_or_empty (data_of mode s2))
     = Some (with_name
               (if is_shopping mode
                then if existsb (str_eqb new_name) LEGACY_SHOPPING_NAMES
                     then str "Allgemein" else new_name
                else str "Allgemein") l).
Proof.
  intros Hsync Hl. cbv zeta. rewrite rename_list_eq, Hl. cbn [fst].
  unfold __init__.
  rewrite (load_again _ fs (synced_saved_put mode _ s Hsync)).
  rewrite migrations_data_of, data_of_saved, data_of_put_data.
  set (ls := lists_or_empty (data_of mode s)) in *.
  unfold migrated. cbn [lists with_lists].
  unfold renamed. cbn [lists with_lists]. unfold lists_or_empty at 1.
  cbn [lists with_lists]. rewrite !dict_get_set_eq.
  split; [reflexivity|].
  destruct l as [n its]. cbn [with_name list_name].
  destruct (is_shopping mode).
  - unfold keeps_shopping.
    destruct (existsb (str_eqb new_name) LEGACY_SHOPPING_NAMES);
      cbn [negb]; unfold lists_or_empty; cbn [lists with_lists];
      rewrite ?dict_get_set_eq; reflexivity.
  - unfold keeps_todo.
    destruct (str_eqb new_name (str "Allgemein")) eqn:E;
      unfold lists_or_empty; cbn [lists with_lists];
      rewrite ?dict_get_set_eq; [|reflexivity].
    apply str_eqb_eq in E. subst new_name. reflexivity.
Qed.

Lemma renamed_default_witness :
  option_map list_name
    (dict_get (str "default")
       (lists_or_empty
          (todo_data
             (fst (__init__
                     (client_storage
                        (fst (_rename_list (str "default") (str "Home")
                                (str "todo")
                                (fst (__init__ [] no_files)))))
                     no_files)))))
  = Some (str "Allgemein")
  /\ option_map list_name
       (dict_get (str "default")
          (lists_or_empty
             (shopping_data
                (fst (__init__
                        (client_storage
                           (fst (_rename_list (str "default") (str "Home")
                                   (str "shopping")
                                   (fst (__init__ [] no_files)))))
                        no_files)))))
     = Some (str "Home").
Proof.
  assert (Hs : synced (fst (__init__ [] no_files))).
  { unfold synced. repeat split; reflexivity. }
  split.
  - pose proof (renamed_default_list_after_restart (str "Home") (str "todo")
                  (fst (__init__ [] no_files)) no_files
                  {| list_name := str "Allgemein"; items := [] |}
                  Hs eq_refl) as H.
    cbv zeta in H. destruct H as [_ H].
    rewrite data_of_todo in H. rewrite H. reflexivity.
  - pose proof (renamed_default_list_after_restart (str "Home") (str "shopping")
                  (fst (__init__ [] no_files)) no_files
                  {| list_name := str "Allgemein"; items := [] |}
                  Hs eq_refl) as H.
    cbv zeta in H. destruct H as [_ H].
    rewrite data_of_shopping in H. rewrite H. reflexivity.
Defined.

(* ================================================================== *)
(** * The default list stays the first list *)
(* ================================================================== *)

Lemma first_key_dict_set {V} k (v : V) d :
  d <> [] -> first_key (dict_set k v d) = first_key d.
Proof.
  destruct d as [|[k' v'] d']; [congruence|]. intros _.
  cbn [dict_set]. destruct (str_eqb k k') eqn:E; [|reflexivity].
  apply str_eqb_eq in E. subst k'. reflexivity.
Qed.

Lemma first_key_dict_del {V} k k0 (d : dict V) :
  first_key d = Some k0 -> k <> k0 -> first_key (dict_del k d) = Some k0.
Proof.
  destruct d as [|[k' v'] d']; [discriminate|].
  cbn [first_key]. intros [= ->] Hne. unfold dict_del. cbn [filter fst].
  rewrite (proj2 (str_eqb_neq _ _) Hne). reflexivity.
Qed.

Lemma default_first_lists d d' :
  lists d' = lists d -> default_first d -> default_first d'.
Proof.
  unfold default_first, lists_or_empty. intros ->. auto.
Qed.

Lemma default_first_set k v d :
  default_first d ->
  default_first (with_lists (Some (dict_set k v (lists_or_empty d))) d).
Proof.
  unfold default_first. intros H.
  unfold lists_or_empty at 1. cbn [lists with_lists].
  rewrite first_key_dict_set; [exact H|].
  intros E. rewrite E in H. discriminate.
Qed.

Lemma default_first_del k d :
  k <> str "default" ->
  default_first d ->
  default_first (with_lists (Some (dict_del k (lists_or_empty d))) d).
Proof.
  unfold default_first. intros Hk H.
  unfold lists_or_empty at 1. cbn [lists with_lists].
  apply first_key_dict_del; assumption.
Qed.

Lemma store_default_first_put mode d s :
  store_default_first s -> default_first d ->
  store_default_first (put_data mode d s).
Proof.
  intros [Ht Hs] Hd. unfold put_data.
  destruct (is_shopping mode); split; assumption.
Qed.

Lemma store_default_first_data_of mode s :
  store_default_first s -> default_first (data_of mode s).
Proof.
  intros [Ht Hs]. unfold data_of. destruct (is_shopping mode); assumption.
Qed.

Lemma update_current_items_default_first f mode s :
  store_default_first s ->
  store_default_first (fst (update_current_items f mode s)).
Proof.
  intros H. unfold update_current_items.
  destruct (lists (data_of mode s)) as [ls|] eqn:Hls; [|exact H].
  destruct (dict_get _ ls) as [l|] eqn:Hl; [|exact H].
  cbn [fst].
  change (store_default_first (saved mode ?x)) with (store_default_first x).
  apply store_default_first_put; [exact H|].
  pose proof (default_first_set (current_or_default (data_of mode s))
                (with_items (f (items l)) l) (data_of mode s)
                (store_default_first_data_of mode s H)) as Hd.
  unfold lists_or_empty in Hd. rewrite Hls in Hd. exact Hd.
Qed.

Lemma run_default_first SUGGESTIONS op s :
  store_default_first s -> store_default_first (fst (run SUGGESTIONS op s)).
Proof.
  intros H. pose proof (store_default_first_data_of) as Hd.
  destruct op; cbn [run]; rewrite ?fst_forget.
  - rewrite create_list_eq. cbn [fst].
    change (store_default_first (saved ?m (saved ?m' ?x)))
      with (store_default_first x).
    apply store_default_first_put; [exact H|].
    apply (default_first_lists
             (with_lists
                (Some (dict_set new_id {| list_name := name0; items := [] |}
                         (lists_or_empty (data_of mode s))))
                (data_of mode s))); [reflexivity|].
    apply default_first_set, Hd, H.
  - rewrite set_current_list_id_eq. cbn [fst].
    destruct (dict_mem _ _); [|exact H].
    change (store_default_first (saved ?m ?x)) with (store_default_first x).
    apply store_default_first_put; [exact H|].
    apply (default_first_lists (data_of mode s)); [reflexivity|apply Hd, H].
  - rewrite rename_list_eq. cbn [fst].
    destruct (dict_get list_id _) as [l|] eqn:Hl; [|exact H].
    change (store_default_first (saved ?m ?x)) with (store_default_first x).
    apply store_default_first_put; [exact H|].
    apply default_first_set, Hd, H.
  - rewrite delete_list_eq. cbv zeta.
    destruct (str_eqb list_id (str "default")) eqn:Hne; [exact H|].
    apply str_eqb_neq in Hne.
    destruct (length _ <=? 1); [exact H|].
    destruct (dict_mem list_id _) eqn:Hmem; [|exact H].
    pose proof (default_first_del list_id _ Hne (Hd mode s H)) as Hdel.
    assert (Hput : forall d',
               lists d' = Some (dict_del list_id
                                  (lists_or_empty (data_of mode s))) ->
               store_default_first (saved mode (put_data mode d' s))).
    { intros d' E.
      change (store_default_first (saved ?m ?x)) with (store_default_first x).
      apply store_default_first_put; [exact H|].
      apply (default_first_lists
               (with_lists (Some (dict_del list_id
                                    (lists_or_empty (data_of mode s))))
                  (data_of mode s)));
        [exact E|exact Hdel]. }
    destruct (current_list_id (data_of mode s)) as [c|];
      [|apply Hput; reflexivity].
    destruct (str_eqb c list_id); [|apply Hput; reflexivity].
    destruct (first_key _); [apply Hput; reflexivity|].
    cbn [fst]. apply store_default_first_put; [exact H|exact Hdel].
  - rewrite add_task_eq.
    destruct (str_strip task_name) as [|c n]; [exact H|]. cbv zeta.
    set (clean_name := normalize _ _).
    assert (H1 : store_default_first
              (if is_shopping mode
               then fst (learn_suggestion SUGGESTIONS clean_name s) else s)).
    { destruct (is_shopping mode); [|exact H].
      rewrite learn_suggestion_eq.
      destruct (is_new_suggestion _ _ _); exact H. }
    destruct (lists (data_of mode s)) as [ls|] eqn:Hls; [|exact H1].
    destruct (dict_get _ ls) as [l|] eqn:Hl; [|exact H1].
    destruct (existsb _ (items l)) eqn:Hdup; [exact H1|].
    cbn [fst].
    change (store_default_first (saved ?m ?x)) with (store_default_first x).
    apply store_default_first_put; [exact H1|].
    match goal with
    | |- default_first (with_lists (Some (dict_set ?k ?v ls)) ?d) =>
        pose proof (default_first_set k v (data_of mode s) (Hd mode s H)) as X
    end.
    unfold lists_or_empty in X. rewrite Hls in X.
    apply (default_first_lists _ _ eq_refl X).
  - rewrite update_task_status_eq.
    apply update_current_items_default_first, H.
  - rewrite delete_task_eq.
    apply update_current_items_default_first, H.
  - rewrite clear_tasks_eq.
    apply update_current_items_default_first, H.
  - rewrite clear_completed_tasks_eq.
    destruct (lists (data_of mode s)) as [ls|]; [|exact H].
    destruct (dict_mem _ ls); [|exact H].
    apply update_current_items_default_first, H.
  - rewrite clear_shopping_cart_eq, clear_completed_tasks_eq.
    destruct (lists (data_of (str "shopping") s)) as [ls|]; [|exact H].
    destruct (dict_mem _ ls); [|exact H].
    apply update_current_items_default_first, H.
  - rewrite learn_suggestion_eq.
    destruct (is_new_suggestion _ _ _); exact H.
  - rewrite update_setting_eq.
    destruct (settings (todo_data s)) as [st|]; [|exact H].
    destruct H as [Ht Hs]. split; [|exact Hs].
    apply (default_first_lists (todo_data s)); [reflexivity|exact Ht].
  - exact H.
  - exact H.
  - rewrite get_tasks_state. exact H.
  - rewrite get_list_as_text_state. exact H.
  - exact H.
  - rewrite get_settings_state. exact H.
Qed.

Lemma two_keys {V} a b (d : dict V) :
  dict_mem a d = true -> dict_mem b d = true -> a <> b -> 2 <= length d.
Proof.
  intros Ha Hb Hne.
  destruct d as [|[k1 v1] [|[k2 v2] d']]; cbn [length]; [discriminate| |lia].
  unfold dict_mem in *. cbn [keys map fst existsb] in *.
  rewrite orb_false_r in Ha, Hb.
  apply str_eqb_eq in Ha, Hb. congruence.
Qed.

(** X18.  In every store a first run can reach, ["default"] is the first
    key of [lists] in both collections.  So deleting the current list there,
    when it is not the default list, always goes through: [_delete_list]
    returns [True], the list is gone and the current list is ["default"];
    there [StopIteration] cannot be raised. *)
Theorem deleting_current_list_falls_back_to_default SUGGESTIONS s :
  reachable SUGGESTIONS s ->
  store_default_first s
  /\ forall list_id mode,
       current_list_id (data_of mode s) = Some list_id ->
       list_id <> str "default" ->
       exists s',
         _delete_list list_id mode s = (s', Returns true)
         /\ current_list_id (data_of mode s') = Some (str "default")
         /\ dict_mem list_id (lists_or_empty (data_of mode s')) = false
         /\ dict_mem (str "default") (lists_or_empty (data_of mode s')) = true.
Proof.
  intros Hr.
  assert (Hf : store_default_first s).
  { induction Hr as [|op s Hr IH]; [|apply run_default_first, IH].
    unfold store_default_first. destruct init_first_run as [-> ->].
    split; reflexivity. }
  split; [exact Hf|].
  intros list_id mode Hcur Hne.
  pose proof (store_inv_data_of mode s (reachable_inv _ _ Hr))
    as (ls & Hls & Hdef & Hc).
  pose proof (store_default_first_data_of mode s Hf) as Hfirst.
  unfold default_first in Hfirst.
  unfold current_or_default in Hc. rewrite Hcur in Hc.
  rewrite delete_list_eq. cbv zeta.
  rewrite (proj2 (str_eqb_neq _ _) Hne), Hcur, str_eqb_refl.
  unfold lists_or_empty in *. rewrite Hls in *.
  pose proof (two_keys _ _ _ Hc Hdef Hne) as Hlen.
  destruct (length ls <=? 1) eqn:E; [apply Nat.leb_le in E; lia|].
  rewrite Hc, (first_key_dict_del list_id _ ls Hfirst Hne).
  eexists. split; [reflexivity|].
  rewrite data_of_saved, data_of_put_data.
  cbn [current_list_id with_current_list_id lists with_lists].
  split; [reflexivity|]. split.
  - apply dict_get_none, dict_get_del_eq.
  - rewrite dict_mem_del. rewrite Hdef.
    rewrite (proj2 (str_eqb_neq _ _) (not_eq_sym Hne)). reflexivity.
Qed.

Lemma deleting_current_list_witness :
  exists s',
    _delete_list (str "ab12cd34") (str "todo")
      (fst (run [] (CreateList (str "ab12cd34") (str "Work") (str "todo"))
              (fst (__init__ [] no_files))))
    = (s', Returns true)
    /\ current_list_id (data_of (str "todo") s') = Some (str "default").
Proof.
  destruct (proj2 (deleting_current_list_falls_back_to_default []
                     (fst (run [] (CreateList (str "ab12cd34") (str "Work")
                                     (str "todo"))
                             (fst (__init__ [] no_files))))
                     (@reachable_run [] _ _ (@reachable_init [])))
              (str "ab12cd34") (str "todo") eq_refl)
    as (s' & H1 & H2 & _).
  - discriminate.
  - exists s'. split; [exact H1|exact H2].
Defined.

(* ================================================================== *)
(** * The tools of the assistant *)
(* ================================================================== *)

(** X19.  The assistant's tools do not look at what the store answers.
    [_add_item_tool] replies that it has added the item whenever [add_task]
    returns, also when [add_task] returned [None] and the list is as it
    was.  After an add that did append an item [t], [_remove_item_tool] for
    the same [item_name] replies that it has removed it, but deletes by
    exact name: [t] is taken away only when it was stored under
    [item_name] itself, not when trimming or the vocabulary gave it
    another spelling. *)
Theorem assistant_tools_ignore_the_outcome
  SUGGESTIONS item_name mode priority s :
  let added := str "Added '" ++ item_name ++ str "' to " ++ mode
               ++ str " list." in
  let removed := str "Removed '" ++ item_name ++ str "' from " ++ mode
                 ++ str " list." in
  (snd (add_task SUGGESTIONS item_name priority false mode s) = Returns None ->
   exists s1,
     _add_item_tool SUGGESTIONS item_name mode priority s = (s1, Returns added)
     /\ data_of mode s1 = data_of mode s)
  /\ (forall t,
         snd (add_task SUGGESTIONS item_name priority false mode s)
         = Returns (Some t) ->
         exists its s1 s2,
           current_items (data_of mode s) = Some its
           /\ _add_item_tool SUGGESTIONS item_name mode priority s
              = (s1, Returns added)
           /\ current_items (data_of mode s1) = Some (its ++ [t])
           /\ _remove_item_tool item_name mode s1 = (s2, Returns removed)
           /\ current_items (data_of mode s2)
              = Some (filter (fun i => negb (str_eqb (name i) item_name)) its
                      ++ (if str_eqb (name t) item_name then [] else [t]))).
Proof.
  cbv zeta. unfold _add_item_tool, _remove_item_tool. split.
  - intros H. rewrite bind_eq.
    assert (Hd : data_of mode
                   (fst (add_task SUGGESTIONS item_name priority false mode s))
                 = data_of mode s).
    { revert H. rewrite add_task_eq.
      destruct (str_strip item_name) as [|c n]; [reflexivity|]. cbv zeta.
      assert (L : data_of mode
                    (if is_shopping mode
                     then fst (learn_suggestion SUGGESTIONS
                                 (normalize
                                    (sorted (set_of (SUGGESTIONS
                                                     ++ user_suggestions_data s)))
                                    (c :: n)) s)
                     else s) = data_of mode s).
      { destruct (is_shopping mode); [apply data_of_learn|reflexivity]. }
      destruct (lists (data_of mode s)) as [ls|]; [|discriminate].
      destruct (dict_get _ ls) as [l|]; [|discriminate].
      destruct (existsb _ (items l)); [|discriminate].
      intros _. exact L. }
    destruct (add_task SUGGESTIONS item_name priority false mode s)
      as [s1 o]. cbn [snd fst] in *. subst o.
    exists s1. split; [reflexivity|exact Hd].
  - intros t H.
    destruct (add_task_returns_item _ _ _ _ _ _ _ H) as [_ (its & Hits & H1)].
    rewrite !bind_eq.
    destruct (add_task SUGGESTIONS item_name priority false mode s)
      as [s1 o]. cbn [snd fst] in *. subst o.
    exists its, s1.
    rewrite bind_eq, delete_task_eq.
    destruct (update_current_items_some
                (filter (fun x => negb (str_eqb (name x) item_name)))
                mode s1 _ H1) as (s2 & K1 & K2 & _).
    exists s2. rewrite K1.
    split; [exact Hits|]. split; [reflexivity|]. split; [exact H1|].
    split; [reflexivity|].
    rewrite K2, filter_app. cbn [filter].
    destruct (str_eqb (name t) item_name); reflexivity.
Qed.

Lemma assistant_tools_witness :
  exists s1 s2,
    _add_item_tool [str "Brot"] (str "brot") (str "shopping") (str "medium")
      (fst (__init__ [] no_files))
    = (s1, Returns (str "Added 'brot' to shopping list."))
    /\ _remove_item_tool (str "brot") (str "shopping") s1
       = (s2, Returns (str "Removed 'brot' from shopping list."))
    /\ current_items (data_of (str "shopping") s2)
       = Some [ {| name := str "Brot"; priority := str "medium";
                   is_completed := false |} ].
Proof.
  pose proof (assistant_tools_ignore_the_outcome [str "Brot"] (str "brot")
                (str "shopping") (str "medium") (fst (__init__ [] no_files)))
    as H.
  cbv zeta in H. destruct H as [_ H].
  destruct (H {| name := str "Brot"; priority := str "medium";
                 is_completed := false |} eq_refl)
    as (its & s1 & s2 & H0 & H1 & _ & H3 & H4).
  exists s1, s2. split; [exact H1|]. split; [exact H3|].
  injection H0 as <-. exact H4.
Defined.

(* ================================================================== *)
(** * The suggestions under the input field *)
(* ================================================================== *)

Lemma strongly_sorted_filter {A} (R : A -> A -> Prop) (p : A -> bool) l :
  StronglySorted R l -> StronglySorted R (filter p l).
Proof.
  induction 1 as [|a l Hs IH Ha]; cbn [filter]; [constructor|].
  destruct (p a); [|exact IH].
  constructor; [exact IH|].
  rewrite Forall_forall in *. intros x Hx.
  apply filter_In in Hx. apply Ha, Hx.
Qed.

Lemma strongly_sorted_app {A} (R : A -> A -> Prop) l1 l2 :
  StronglySorted R (l1 ++ l2) ->
  StronglySorted R l1
  /\ forall a b, In a l1 -> In b l2 -> R a b.
Proof.
  induction l1 as [|x l1 IH]; cbn [app]; intros H.
  - split; [constructor|intros a b []].
  - inversion H as [|? ? Hs Hx]; subst.
    destruct (IH Hs) as [IH1 IH2].
    rewrite Forall_forall in Hx. split.
    + constructor; [exact IH1|].
      apply Forall_forall. intros y Hy. apply Hx, in_or_app. auto.
    + intros a b [<-|Ha] Hb; [apply Hx, in_or_app; auto|apply IH2; assumption].
Qed.

Lemma update_suggestions_eq SUGGESTIONS input s st mode :
  get_settings s = (s, Returns st) ->
  dict_get (str "mode") st = Some mode ->
  TodoView.update_suggestions SUGGESTIONS input s
  = (s, Returns
          (if is_shopping mode && (0 <? length (str_lower input))
           then
             (firstn 5 (filter (fun x => startswith (str_lower x)
                                           (str_lower input))
                          (sorted (set_of (SUGGESTIONS
                                           ++ user_suggestions_data s)))),
              0 <? length
                     (firstn 5 (filter (fun x => startswith (str_lower x)
                                                   (str_lower input))
                                  (sorted (set_of (SUGGESTIONS
                                                   ++ user_suggestions_data s))))))
           else ([], false))).
Proof.
  intros Hst Hmode. unfold TodoView.update_suggestions.
  rewrite bind_eq, Hst, bind_eq, Hmode, subscript_eq.
  destruct (is_shopping mode && (0 <? length (str_lower input)));
    [|reflexivity].
  unfold get_all_suggestions. mexec. reflexivity.
Qed.

(** X20.  The suggestions of the view.  With a non-empty input in shopping
    mode [update_suggestions] shows at most five entries, in strictly
    ascending order; each is an entry of the vocabulary whose lowercase
    form starts with the lowercase input; a matching entry of the
    vocabulary that is not shown comes after five shown ones; and the
    container is visible exactly when something is shown.  In another mode,
    or on an empty input, nothing is shown.  The store is not changed. *)
Theorem suggestions_are_the_first_five_matches SUGGESTIONS input s st mode :
  get_settings s = (s, Returns st) ->
  dict_get (str "mode") st = Some mode ->
  exists controls visible,
    TodoView.update_suggestions SUGGESTIONS input s
    = (s, Returns (controls, visible))
    /\ (mode <> str "shopping" \/ input = [] ->
        controls = [] /\ visible = false)
    /\ (mode = str "shopping" -> input <> [] ->
        length controls <= 5
        /\ StronglySorted str_lt controls
        /\ (visible = true <-> controls <> [])
        /\ (forall x, In x controls ->
              In x (SUGGESTIONS ++ user_suggestions_data s)
              /\ startswith (str_lower x) (str_lower input) = true)
        /\ (forall x,
              In x (SUGGESTIONS ++ user_suggestions_data s) ->
              startswith (str_lower x) (str_lower input) = true ->
              In x controls
              \/ (length controls = 5
                  /\ forall c, In c controls -> str_lt c x))).
Proof.
  intros Hst Hmode.
  rewrite (update_suggestions_eq SUGGESTIONS input s st mode Hst Hmode).
  set (r := sorted (set_of (SUGGESTIONS ++ user_suggestions_data s))).
  set (p := fun x => startswith (str_lower x) (str_lower input)).
  assert (Hlen : (0 <? length (str_lower input)) = negb (str_eqb input [])).
  { destruct (str_lower input) as [|x l] eqn:E.
    - apply (proj1 (str_lower_nil input)) in E. rewrite E. reflexivity.
    - destruct input; [discriminate E|reflexivity]. }
  rewrite Hlen. unfold is_shopping.
  destruct (str_eqb mode (str "shopping")) eqn:Em;
    [destruct (str_eqb input []) eqn:Ei|]; cbn [andb negb].
  - apply str_eqb_eq in Ei. do 2 eexists. split; [reflexivity|].
    split; [auto|]. intros _ H. contradiction.
  - apply str_eqb_eq in Em. apply str_eqb_neq in Ei.
    do 2 eexists. split; [reflexivity|].
    split; [intros [H|H]; contradiction|]. intros _ _.
    pose proof (strongly_sorted_filter str_lt p r
                  (all_suggestions_strict _ _)) as Hsorted.
    rewrite <- (firstn_skipn 5 (filter p r)) in Hsorted.
    apply strongly_sorted_app in Hsorted. destruct Hsorted as [Hs1 Hs2].
    split; [apply firstn_le_length|]. split; [exact Hs1|]. split; [|split].
    + destruct (firstn 5 (filter p r)); cbn; split; congruence.
    + intros x Hx.
      assert (Hin : In x (filter p r)).
      { rewrite <- (firstn_skipn 5 (filter p r)). apply in_or_app. auto. }
      apply filter_In in Hin. destruct Hin as [Hr Hp].
      split; [apply in_all_suggestions, Hr|exact Hp].
    + intros x Hx Hp.
      assert (Hin : In x (filter p r)).
      { apply filter_In. split; [apply in_all_suggestions, Hx|exact Hp]. }
      rewrite <- (firstn_skipn 5 (filter p r)) in Hin.
      apply in_app_or in Hin. destruct Hin as [Hin|Hin]; [left; exact Hin|].
      right. split; [|intros c Hc; apply Hs2; assumption].
      apply firstn_length_le.
      destruct (Nat.le_gt_cases 5 (length (filter p r))) as [L|L]; [exact L|].
      rewrite skipn_all2 in Hin by lia. destruct Hin.
  - apply str_eqb_neq in Em. do 2 eexists. split; [reflexivity|].
    split; [auto|]. intros H. contradiction.
Qed.

Lemma suggestions_witness :
  exists controls,
    TodoView.update_suggestions
      [str "Milch"; str "Brot"; str "Butter"; str "Bier"; str "Birnen";
       str "Bananen"; str "Bohnen"]
      (str "b")
      (fst (update_setting (str "mode") (str "shopping")
              (fst (__init__ [] no_files))))
    = (fst (update_setting (str "mode") (str "shopping")
              (fst (__init__ [] no_files))),
       Returns (controls, true))
    /\ controls = [str "Bananen"; str "Bier"; str "Birnen"; str "Bohnen";
                   str "Brot"]
    /\ length controls <= 5.
Proof.
  destruct (suggestions_are_the_first_five_matches
              [str "Milch"; str "Brot"; str "Butter"; str "Bier"; str "Birnen";
               str "Bananen"; str "Bohnen"]
              (str "b")
              (fst (update_setting (str "mode") (str "shopping")
                      (fst (__init__ [] no_files))))
              [(str "language", str "en"); (str "mode", str "shopping");
               (str "theme_mode", str "dark")]
              (str "shopping") eq_refl eq_refl)
    as (controls & visible & H1 & _ & H2).
  destruct (H2 eq_refl) as (H3 & _); [discriminate|].
  apply (f_equal snd) in H1. vm_compute in H1. injection H1 as <- <-.
  eexists. split; [vm_compute; reflexivity|].
  split; [vm_compute; reflexivity|exact H3].
Defined.

(* ================================================================== *)
(** * The choice of a model *)
(* ================================================================== *)

Lemma startswith_app (a b : pystr) : startswith (a ++ b) a = true.
Proof.
  induction a as [|c a IH]; [destruct b; reflexivity|].
  cbn [app startswith]. rewrite N.eqb_refl. exact IH.
Qed.

Lemma endswith_app (a b : pystr) : endswith (a ++ b) b = true.
Proof. unfold endswith. rewrite rev_app_distr. apply startswith_app. Qed.

Lemma priority_test (m p : pystr) :
  endswith m p || str_eqb m (str "models/" ++ p) = endswith m p.
Proof.
  destruct (endswith m p) eqn:E; [reflexivity|]. cbn [orb].
  destruct (str_eqb m (str "models/" ++ p)) eqn:E'; [|reflexivity].
  apply str_eqb_eq in E'. subst m. rewrite endswith_app in E. discriminate.
Qed.

Lemma first_by_priority_some ps valid m :
  first_by_priority ps valid = Some m ->
  In m valid
  /\ exists before q after,
       ps = before ++ q :: after
       /\ endswith m q = true
       /\ forall q' m', In q' before -> In m' valid -> endswith m' q' = false.
Proof.
  induction ps as [|p ps IH]; [discriminate|]. cbn [first_by_priority].
  destruct (find _ valid) as [m0|] eqn:F.
  - intros [= ->]. apply find_some in F. destruct F as [Hin Hc].
    rewrite priority_test in Hc. split; [exact Hin|].
    exists [], p, ps. split; [reflexivity|]. split; [exact Hc|].
    intros q' m' [].
  - intros H. destruct (IH H) as [Hin (before & q & after & -> & Hq & Hb)].
    split; [exact Hin|].
    exists (p :: before), q, after. split; [reflexivity|]. split; [exact Hq|].
    intros q' m' [<-|Hq'] Hm'; [|apply Hb; assumption].
    pose proof (find_none _ _ F m' Hm') as N. cbv beta in N.
    rewrite priority_test in N. exact N.
Qed.

Lemma first_by_priority_none ps valid :
  first_by_priority ps valid = None ->
  forall p m, In p ps -> In m valid -> endswith m p = false.
Proof.
  induction ps as [|p0 ps IH]; [intros _ p m []|]. cbn [first_by_priority].
  destruct (find _ valid) as [m0|] eqn:F; [discriminate|].
  intros H p m [<-|Hp] Hm; [|apply IH; assumption].
  pose proof (find_none _ _ F m Hm) as N. cbv beta in N.
  rewrite priority_test in N. exact N.
Qed.

(** X21.  The model [_resolve_model] settles on.  Without a model that
    supports ["generateContent"], or when listing raises, it is the
    fallback name.  Otherwise it is one of the listed models that support
    ["generateContent"].  When such a model ends in a name of the priority
    list, the choice ends in the earliest such name of the list; when none
    does and some model has ["flash"] but not ["exp"] in its name, the
    choice is such a model. *)
Theorem resolved_model_is_listed_and_preferred listed :
  let valid := valid_models listed in
  let r := _resolve_model (Some listed) in
  _resolve_model None = FALLBACK_MODEL
  /\ (valid = [] -> r = FALLBACK_MODEL)
  /\ (valid <> [] -> In r valid)
  /\ (forall p m,
         In p priorities -> In m valid -> endswith m p = true ->
         exists before q after,
           priorities = before ++ q :: after
           /\ endswith r q = true
           /\ forall q' m',
                In q' before -> In m' valid -> endswith m' q' = false)
  /\ ((forall p m, In p priorities -> In m valid -> endswith m p = false) ->
      forall m,
        In m valid ->
        contains m (str "flash") = true -> contains m (str "exp") = false ->
        contains r (str "flash") = true /\ contains r (str "exp") = false).
Proof.
  cbv zeta. unfold _resolve_model.
  split; [reflexivity|].
  destruct (valid_models listed) as [|first rest] eqn:V.
  { split; [reflexivity|]. split; [congruence|].
    split; [intros p m _ []|intros _ m []]. }
  split; [discriminate|].
  destruct (first_by_priority priorities (first :: rest)) as [m0|] eqn:P.
  - destruct (first_by_priority_some _ _ _ P) as [Hin Hex].
    split; [intros _; exact Hin|]. split; [intros p m _ _ _; exact Hex|].
    intros Hnone m Hm _ _.
    destruct Hex as (before & q & after & E & Hq & _).
    rewrite (Hnone q m0) in Hq; [discriminate| |exact Hin].
    rewrite E. apply in_or_app. right. left. reflexivity.
  - pose proof (first_by_priority_none _ _ P) as Hnone.
    assert (Hin : In (match find (fun m => contains m (str "flash")
                                         && negb (contains m (str "exp")))
                            (first :: rest) with
                      | Some m => m
                      | None => first
                      end) (first :: rest)).
    { destruct (find _ (first :: rest)) as [m1|] eqn:F; [|left; reflexivity].
      apply find_some in F. apply F. }
    split; [intros _; exact Hin|]. split.
    + intros p m Hp Hm E. rewrite (Hnone p m Hp Hm) in E. discriminate.
    + intros _ m Hm Hf He.
      destruct (find _ (first :: rest)) as [m1|] eqn:F.
      * apply find_some in F. destruct F as [_ F].
        apply andb_true_iff in F. destruct F as [F1 F2].
        apply negb_true_iff in F2. auto.
      * pose proof (find_none _ _ F m Hm) as N. cbv beta in N.
        rewrite Hf, He in N. discriminate.
Qed.

Lemma resolved_model_witness :
  _resolve_model
    (Some [ {| model_name := str "models/embedding-001";
               supported_generation_methods := [str "embedContent"] |};
            {| model_name := str "models/gemini-2.0-flash-exp";
               supported_generation_methods := [str "generateContent"] |};
            {| model_name := str "models/gemini-1.5-pro";
               supported_generation_methods := [str "generateContent"] |};
            {| model_name := str "models/gemini-1.5-flash";
               supported_generation_methods :=
                 [str "generateContent"; str "countTokens"] |} ])
  = str "models/gemini-1.5-flash"
  /\ In (str "models/gemini-1.5-flash")
       [str "models/gemini-2.0-flash-exp"; str "models/gemini-1.5-pro";
        str "models/gemini-1.5-flash"].
Proof.
  split; [reflexivity|].
  pose proof (resolved_model_is_listed_and_preferred
    [ {| model_name := str "models/embedding-001";
         supported_generation_methods := [str "embedContent"] |};
      {| model_name := str "models/gemini-2.0-flash-exp";
         supported_generation_methods := [str "generateContent"] |};
      {| model_name := str "models/gemini-1.5-pro";
         supported_generation_methods := [str "generateContent"] |};
      {| model_name := str "models/gemini-1.5-flash";
         supported_generation_methods :=
           [str "generateContent"; str "countTokens"] |} ]) as H.
  cbv zeta in H. destruct H as (_ & _ & H & _).
  apply H. discriminate.
Defined.

(* ================================================================== *)
(** * Names beyond Basic Latin *)
(* ================================================================== *)

(** The ligature oe (U+0152, U+0153), which Latin-1 does not have. *)
Example lower_upper_ligature :
  str_lower [338; 85; 70; 83]%N = [339; 117; 102; 115]%N
  /\ str_upper [339; 117; 102; 115]%N = [338; 85; 70; 83]%N.
Proof. split; reflexivity. Qed.

(** The capital sigma is lowered to the final form after a letter at the
    end of a word, and to the other form elsewhere. *)
Example lower_final_sigma :
  str_lower [927; 916; 927; 931]%N = [959; 948; 959; 962]%N
  /\ str_lower [931; 927]%N = [963; 959]%N
  /\ str_lower [931]%N = [963]%N
  /\ str_lower [927; 931; 46; 927]%N = [959; 963; 46; 959]%N
  /\ str_lower [927; 931; 46; 32]%N = [959; 962; 46; 32]%N.
Proof. repeat split. Qed.

(** Case forms of another length. *)
Example case_forms_of_other_lengths :
  str_lower [304]%N = [105; 775]%N
  /\ str_upper [223]%N = [83; 83]%N
  /\ str_upper [64259]%N = [70; 70; 73]%N
  /\ str_upper [329]%N = [700; 78]%N
  /\ str_upper [305]%N = [73]%N.
Proof. repeat split. Qed.

(** With the name in the list and in the learned vocabulary under a
    capital ligature, the add of the name with the small ligature is a
    duplicate, and nothing is learned. *)
Example add_task_ligature :
  user_suggestions_data
    (fst (add_task [] [338; 117; 102; 115]%N (str "medium") false
            (str "shopping") fresh_store))
  = [[338; 117; 102; 115]%N]
  /\ snd (add_task [] [339; 117; 102; 115]%N (str "medium") false
            (str "shopping")
            (fst (add_task [] [338; 117; 102; 115]%N (str "medium") false
                    (str "shopping") fresh_store)))
     = Returns None
  /\ user_suggestions_data
       (fst (add_task [] [339; 117; 102; 115]%N (str "medium") false
               (str "shopping")
               (fst (add_task [] [338; 117; 102; 115]%N (str "medium") false
                       (str "shopping") fresh_store))))
     = [[338; 117; 102; 115]%N].
Proof. repeat split. Qed.

(** The capital ligature typed into the input field finds the entry that
    starts with the small one. *)
Example suggestions_ligature :
  snd (TodoView.update_suggestions [[339; 117; 102; 115]%N] [338%N]
         (fst (update_setting (str "mode") (str "shopping") fresh_store)))
  = Returns ([[339; 117; 102; 115]%N], true).
Proof. reflexivity. Qed.
